(** * CentralDataKitchen: the Binance 1m kline fetcher

    A shallow embedding of [tools/binance/common/timeutils.py] and
    [tools/binance/fetch_binance_1m.py], with the parts of Python's
    [datetime], [_strptime] and [csv] modules those two files call,
    followed by the properties of the resumable pagination engine.

    Conventions.
    - Python [int] is [Z]; [divmod] and [%] with a positive divisor are
      [Z.div] and [Z.modulo] (both floor).
    - Python [str] is [string]; inputs are restricted to one-byte characters.
    - An exception is a value of [exn]; a function that can raise returns
      [result].
    - A Python [float] is a finite binary64, kept as a pair (mantissa,
      exponent); see [Float64].
    - A file is the text it holds, [None] when it does not exist; it is
      written and read through [csv.writer] and [csv.reader], see [csv]. *)

From Stdlib Require Import ZArith List String Ascii Bool Lia Znumtheory Floats Uint63.
Import ListNotations.

Local Open Scope string_scope.
Local Open Scope list_scope.
Local Open Scope Z_scope.

(* ================================================================== *)
(** ** Exceptions *)

Module Py.

(** The exceptions the two source files can raise or let through.
    [SystemExit] is the [raise SystemExit(...)] of [fetch_klines]. *)
Inductive exn : Type :=
| ValueError
| OverflowError
| SystemExit.

Inductive result (A : Type) : Type :=
| Ok (a : A)
| Raise (e : exn).

Arguments Ok {A} a.
Arguments Raise {A} e.

Definition bind {A B : Type} (r : result A) (k : A -> result B) : result B :=
  match r with
  | Ok a => k a
  | Raise e => Raise e
  end.

(** Python truthiness of an [Optional[int]]: [None] and [0] are falsy. *)
Definition truthy_int (o : option Z) : bool :=
  match o with
  | None => false
  | Some v => negb (v =? 0)
  end.

(** Python truthiness of an [Optional[str]]: [None] and [""] are falsy. *)
Definition truthy_str (o : option string) : bool :=
  match o with
  | None => false
  | Some "" => false
  | Some _ => true
  end.

End Py.

Import Py.

Notation "x <- c ;; k" := (Py.bind c (fun x => k))
  (at level 61, c at next level, right associativity).
Notation "c ;;; k" := (Py.bind c (fun _ => k))
  (at level 61, right associativity).

(* ================================================================== *)
(** ** binary64 arithmetic used by [datetime.timestamp() * 1000] *)

Module Float64.

(** A finite binary64 value [m * 2^e].  Only the normal range is
    modelled: every quotient formed from a [datetime] lies between
    [1e-6] and [3e11] in magnitude (or is zero), far from the subnormal
    and overflow thresholds. *)
Definition b64 : Type := (Z * Z)%type.

(** [round n d], for [d > 0]: the binary64 nearest to the rational [n/d],
    ties to even (Python's [int / int] true division is correctly
    rounded).  [fl] is [floor (log2 (|n|/d))]; it is taken after scaling
    by [2^1074] so that the scaled quotient is at least 1. *)
Definition round (n d : Z) : b64 :=
  if n =? 0 then (0, 0)
  else
    let a := Z.abs n in
    let fl := Z.log2 ((a * 2 ^ 1074) / d) - 1074 in
    let e := fl - 52 in
    let num := if 0 <=? e then a else a * 2 ^ (- e) in
    let den := if 0 <=? e then d * 2 ^ e else d in
    let q := num / den in
    let r := num mod den in
    let m := if (den <? 2 * r) || ((den =? 2 * r) && Z.odd q)
             then q + 1 else q in
    (Z.sgn n * m, e).

(** [int / int] *)
Definition truediv (n d : Z) : b64 := round n d.

(** [float(n)] *)
Definition of_int (n : Z) : b64 := round n 1.

(** [x * y]: the exact product, rounded once. *)
Definition mul (x y : b64) : b64 :=
  let '(m1, e1) := x in
  let '(m2, e2) := y in
  let e := e1 + e2 in
  if 0 <=? e then round (m1 * m2 * 2 ^ e) 1
  else round (m1 * m2) (2 ^ (- e)).

(** [int(x)]: truncation toward zero. *)
Definition to_int (x : b64) : Z :=
  let '(m, e) := x in
  if 0 <=? e then m * 2 ^ e else Z.quot m (2 ^ (- e)).

End Float64.

(* ================================================================== *)
(** ** The proleptic Gregorian calendar of [datetime] *)

Module Calendar.

Definition MINYEAR : Z := 1.
Definition MAXYEAR : Z := 9999.
(** [date.max.toordinal()] *)
Definition MAXORDINAL : Z := 3652059.
(** [date(1970, 1, 1).toordinal()] *)
Definition EPOCH_ORDINAL : Z := 719163.

Definition is_leap (year : Z) : bool :=
  (year mod 4 =? 0) && (negb (year mod 100 =? 0) || (year mod 400 =? 0)).

(** number of days before January 1st of [year] *)
Definition days_before_year (year : Z) : Z :=
  let y := year - 1 in
  y * 365 + y / 4 - y / 100 + y / 400.

Definition days_in_month (year month : Z) : Z :=
  if (month =? 2) && is_leap year then 29
  else nth (Z.to_nat month) [0; 31; 28; 31; 30; 31; 30; 31; 31; 30; 31; 30; 31] 0.

(** [_DAYS_BEFORE_MONTH] *)
Definition DAYS_BEFORE_MONTH (month : Z) : Z :=
  nth (Z.to_nat month) [0; 0; 31; 59; 90; 120; 151; 181; 212; 243; 273; 304; 334] 0.

Definition DAYS_IN_MONTH (month : Z) : Z :=
  nth (Z.to_nat month) [0; 31; 28; 31; 30; 31; 30; 31; 31; 30; 31; 30; 31] 0.

Definition days_before_month (year month : Z) : Z :=
  DAYS_BEFORE_MONTH month + (if (2 <? month) && is_leap year then 1 else 0).

(** [_ymd2ord]: ordinal of a date, 0001-01-01 being day 1. *)
Definition ymd2ord (year month day : Z) : Z :=
  days_before_year year + days_before_month year month + day.

Definition DI400Y : Z := 146097.
Definition DI100Y : Z := 36524.
Definition DI4Y : Z := 1461.

(** the last step of [_ord2ymd]: month and day of the [n]-th day
    (counted from 0) of a year, the month being estimated by
    [(n + 50) >> 5] and corrected downwards *)
Definition month_day (leapyear : bool) (n : Z) : Z * Z :=
  let month := Z.shiftr (n + 50) 5 in
  let preceding :=
    DAYS_BEFORE_MONTH month + (if (2 <? month) && leapyear then 1 else 0) in
  if n <? preceding then
    let month := month - 1 in
    let preceding :=
      preceding
      - (DAYS_IN_MONTH month + (if (month =? 2) && leapyear then 1 else 0)) in
    (month, n - preceding + 1)
  else (month, n - preceding + 1).

(** [_ord2ymd]: the date of an ordinal. *)
Definition ord2ymd (ordinal : Z) : Z * Z * Z :=
  let n := ordinal - 1 in
  let n400 := n / DI400Y in
  let n := n mod DI400Y in
  let year := n400 * 400 + 1 in
  let n100 := n / DI100Y in
  let n := n mod DI100Y in
  let n4 := n / DI4Y in
  let n := n mod DI4Y in
  let n1 := n / 365 in
  let n := n mod 365 in
  let year := year + n100 * 100 + n4 * 4 + n1 in
  if (n1 =? 4) || (n100 =? 4) then (year - 1, 12, 31)
  else
    let leapyear := (n1 =? 3) && (negb (n4 =? 24) || (n100 =? 3)) in
    let '(month, day) := month_day leapyear n in
    (year, month, day).

End Calendar.

(* ================================================================== *)
(** ** [datetime.datetime] *)

Module Datetime.

Import Calendar.

(** [tzinfo] is [None] for a naive value and [Some off] for an aware one
    whose UTC offset is [off] seconds; [timezone.utc] is [Some 0]. *)
Record datetime : Type := mk_datetime {
  year : Z;
  month : Z;
  day : Z;
  hour : Z;
  minute : Z;
  second : Z;
  microsecond : Z;
  tzinfo : option Z
}.

Definition utc : option Z := Some 0.

Definition US_PER_SECOND : Z := 1000000.
Definition US_PER_DAY : Z := 86400 * US_PER_SECOND.

Definition check_date_fields (y m d : Z) : bool :=
  (MINYEAR <=? y) && (y <=? MAXYEAR) && (1 <=? m) && (m <=? 12)
  && (1 <=? d) && (d <=? days_in_month y m).

Definition check_time_fields (H M S us : Z) : bool :=
  (0 <=? H) && (H <=? 23) && (0 <=? M) && (M <=? 59)
  && (0 <=? S) && (S <=? 59) && (0 <=? us) && (us <=? 999999).

(** the constructor [datetime(y, m, d, H, M, S, us, tzinfo)] *)
Definition make (y m d H M S us : Z) (tz : option Z) : result datetime :=
  if check_date_fields y m d && check_time_fields H M S us
  then Ok (mk_datetime y m d H M S us tz)
  else Raise ValueError.

Definition toordinal (dt : datetime) : Z :=
  ymd2ord (year dt) (month dt) (day dt).

(** wall-clock microseconds since midnight of ordinal 0 *)
Definition to_us (dt : datetime) : Z :=
  ((toordinal dt * 86400 + hour dt * 3600 + minute dt * 60 + second dt)
   * US_PER_SECOND) + microsecond dt.

(** the value with the given wall-clock microsecond count, if its date
    is a valid ordinal *)
Definition of_us (n : Z) (tz : option Z) : option datetime :=
  let days := n / US_PER_DAY in
  let rest := n mod US_PER_DAY in
  if (1 <=? days) && (days <=? MAXORDINAL) then
    let '(y, m, d) := ord2ymd days in
    let secs := rest / US_PER_SECOND in
    Some (mk_datetime y m d (secs / 3600) ((secs mod 3600) / 60) (secs mod 60)
                      (rest mod US_PER_SECOND) tz)
  else None.

(** [dt + timedelta(microseconds=delta)] *)
Definition add_timedelta (dt : datetime) (delta : Z) : result datetime :=
  match of_us (to_us dt + delta) (tzinfo dt) with
  | Some r => Ok r
  | None => Raise OverflowError
  end.

(** [datetime.fromtimestamp(t, tz=timezone.utc)] for an integer [t].
    Outside years 1..9999 CPython raises [ValueError] ("year out of
    range"), or [OverflowError] / [OSError] once [t] leaves the platform's
    [time_t] or [gmtime] range; the model reports all of them as
    [ValueError]. *)
Definition fromtimestamp_utc (t : Z) : result datetime :=
  match of_us ((EPOCH_ORDINAL * 86400 + t) * US_PER_SECOND) utc with
  | Some r => Ok r
  | None => Raise ValueError
  end.

(** [dt.replace(tzinfo=tz)] *)
Definition replace_tzinfo (dt : datetime) (tz : option Z) : datetime :=
  mk_datetime (year dt) (month dt) (day dt) (hour dt) (minute dt)
              (second dt) (microsecond dt) tz.

(** [dt.astimezone(timezone.utc)] for an aware [dt] of offset [off] *)
Definition astimezone_utc (dt : datetime) (off : Z) : result datetime :=
  match of_us (to_us dt - off * US_PER_SECOND) utc with
  | Some r => Ok r
  | None => Raise OverflowError
  end.

(** [dt.timestamp()] for an aware [dt]:
    [(dt - _EPOCH).total_seconds()], the microsecond difference divided
    by [10**6].  The program never asks for the timestamp of a naive
    value (that would consult the local time zone); the model reads one
    as UTC. *)
Definition timestamp (dt : datetime) : Float64.b64 :=
  let off := match tzinfo dt with Some o => o | None => 0 end in
  Float64.truediv
    (to_us dt - off * US_PER_SECOND - EPOCH_ORDINAL * US_PER_DAY)
    US_PER_SECOND.

End Datetime.

(* ================================================================== *)
(** ** [strftime] and [strptime] *)

Module Strfmt.

Import Calendar Datetime.

Definition digit_char (d : Z) : ascii := ascii_of_nat (48 + Z.to_nat d).

(** the [width] low decimal digits of [v], most significant first *)
Fixpoint zfill (width : nat) (v : Z) : string :=
  match width with
  | O => ""
  | S w => String (digit_char ((v / 10 ^ Z.of_nat w) mod 10)) (zfill w v)
  end.

(** [v] in decimal without padding, for [0 <= v <= 9999] *)
Definition decimal (v : Z) : string :=
  if v <? 10 then zfill 1 v
  else if v <? 100 then zfill 2 v
  else if v <? 1000 then zfill 3 v
  else zfill 4 v.

(** what [strftime] writes for one directive.  [datetime.strftime] hands
    the format to the C library; for [%Y] glibc (with CPython 3.11, the
    reference here) writes the year as a plain decimal number, so a year
    below 1000 comes without leading zeros: [999], not [0999].  C
    libraries that pad to four digits differ for those years only. *)
Definition strftime_directive (c : ascii) (dt : datetime) : string :=
  match c with
  | "Y"%char => decimal (year dt)
  | "m"%char => zfill 2 (month dt)
  | "d"%char => zfill 2 (day dt)
  | "H"%char => zfill 2 (hour dt)
  | "M"%char => zfill 2 (minute dt)
  | "S"%char => zfill 2 (second dt)
  | "f"%char => zfill 6 (microsecond dt)
  | _ => String "%" (String c "")
  end.

Fixpoint strftime_from (fmt : string) (dt : datetime) : string :=
  match fmt with
  | "" => ""
  | String "%" (String c rest) =>
      (strftime_directive c dt ++ strftime_from rest dt)%string
  | String c rest => String c (strftime_from rest dt)
  end.

(** [dt.strftime(fmt)] *)
Definition strftime (dt : datetime) (fmt : string) : string :=
  strftime_from fmt dt.

(** *** [_strptime]: the format becomes a regular expression, one group
    per directive, matched case-insensitively from the start of the
    input with leftmost-alternative priority. *)

Inductive item : Type :=
| Lit (c : ascii)
| Dir (c : ascii).

Fixpoint compile (fmt : string) : list item :=
  match fmt with
  | "" => []
  | String "%" (String c rest) => Dir c :: compile rest
  | String c rest => Lit c :: compile rest
  end.

Definition code (c : ascii) : Z := Z.of_nat (nat_of_ascii c).

(** the character class [[lo-hi]] of decimal digits *)
Definition digit_in (lo hi : Z) (c : ascii) : bool :=
  (48 + lo <=? code c) && (code c <=? 48 + hi).

Definition is_digit : ascii -> bool := digit_in 0 9.

Definition is_char (a c : ascii) : bool := Ascii.eqb a c.

(** [int] of one matched character (a blank counts for nothing) *)
Definition dval (c : ascii) : Z := if is_digit c then code c - 48 else 0.

Definition lower (c : ascii) : ascii :=
  if (65 <=? code c) && (code c <=? 90)
  then ascii_of_nat (nat_of_ascii c + 32) else c.

(** [re.IGNORECASE] on a literal of the format *)
Definition ci_eqb (a c : ascii) : bool := Ascii.eqb (lower a) (lower c).

(** one alternative made of one, or of two, character classes *)
Definition alt1 (p : ascii -> bool) (s : string) : list (Z * string) :=
  match s with
  | String a r => if p a then [(dval a, r)] else []
  | _ => []
  end.

Definition alt2 (p q : ascii -> bool) (s : string) : list (Z * string) :=
  match s with
  | String a (String b r) =>
      if p a && q b then [(dval a * 10 + dval b, r)] else []
  | _ => []
  end.

(** [\d\d\d\d] *)
Definition alt4 (s : string) : list (Z * string) :=
  match s with
  | String a (String b (String c (String d r))) =>
      if is_digit a && is_digit b && is_digit c && is_digit d
      then [(((dval a * 10 + dval b) * 10 + dval c) * 10 + dval d, r)]
      else []
  | _ => []
  end.

(** the longest run of at most [n] digits at the head of [s] *)
Fixpoint digit_run (n : nat) (s : string) : list ascii :=
  match n, s with
  | S n', String a r => if is_digit a then a :: digit_run n' r else []
  | _, _ => []
  end.

Fixpoint drop (n : nat) (s : string) : string :=
  match n, s with
  | S n', String _ r => drop n' r
  | _, _ => s
  end.

(** [int(s + "0" * (6 - len(s)))] for the first [k] digits of [ds] *)
Definition fraction_value (k : nat) (ds : list ascii) : Z :=
  fold_left (fun acc c => acc * 10 + dval c) (firstn k ds) 0
  * 10 ^ Z.of_nat (6 - k).

(** [[0-9]{1,6}], greedy: the longest run first, then shorter ones *)
Fixpoint fraction_alts (k : nat) (ds : list ascii) (s : string)
  : list (Z * string) :=
  match k with
  | O => []
  | S k' => (fraction_value k ds, drop k s) :: fraction_alts k' ds s
  end.

(** the candidate matches of a directive's group, in priority order *)
Definition candidates (c : ascii) (s : string) : list (Z * string) :=
  match c with
  | "Y"%char => alt4 s
  | "m"%char =>
      alt2 (is_char "1") (digit_in 0 2) s ++ alt2 (is_char "0") (digit_in 1 9) s
      ++ alt1 (digit_in 1 9) s
  | "d"%char =>
      alt2 (is_char "3") (digit_in 0 1) s ++ alt2 (digit_in 1 2) is_digit s
      ++ alt2 (is_char "0") (digit_in 1 9) s ++ alt1 (digit_in 1 9) s
      ++ alt2 (is_char " ") (digit_in 1 9) s
  | "H"%char =>
      alt2 (is_char "2") (digit_in 0 3) s ++ alt2 (digit_in 0 1) is_digit s
      ++ alt1 is_digit s
  | "M"%char => alt2 (digit_in 0 5) is_digit s ++ alt1 is_digit s
  | "S"%char =>
      alt2 (is_char "6") (digit_in 0 1) s ++ alt2 (digit_in 0 5) is_digit s
      ++ alt1 is_digit s
  | "f"%char =>
      let ds := digit_run 6 s in fraction_alts (List.length ds) ds s
  | _ => []
  end.

(** the groups found so far; the defaults are those of [_strptime] *)
Record found : Type := mk_found {
  fY : Z; fm : Z; fd : Z; fH : Z; fM : Z; fS : Z; ff : Z
}.

Definition found_default : found := mk_found 1900 1 1 0 0 0 0.

Definition store (c : ascii) (v : Z) (a : found) : found :=
  match c with
  | "Y"%char => mk_found v (fm a) (fd a) (fH a) (fM a) (fS a) (ff a)
  | "m"%char => mk_found (fY a) v (fd a) (fH a) (fM a) (fS a) (ff a)
  | "d"%char => mk_found (fY a) (fm a) v (fH a) (fM a) (fS a) (ff a)
  | "H"%char => mk_found (fY a) (fm a) (fd a) v (fM a) (fS a) (ff a)
  | "M"%char => mk_found (fY a) (fm a) (fd a) (fH a) v (fS a) (ff a)
  | "S"%char => mk_found (fY a) (fm a) (fd a) (fH a) (fM a) v (ff a)
  | "f"%char => mk_found (fY a) (fm a) (fd a) (fH a) (fM a) (fS a) v
  | _ => a
  end.

Fixpoint first_some {A B : Type} (f : A -> option B) (l : list A) : option B :=
  match l with
  | [] => None
  | x :: l' => match f x with Some b => Some b | None => first_some f l' end
  end.

(** [format_regex.match(data_string)]: the first match in backtracking
    order, with the input left over after it *)
Fixpoint match_items (its : list item) (s : string) (a : found)
  : option (found * string) :=
  match its with
  | [] => Some (a, s)
  | Lit c :: its' =>
      match s with
      | String c' s' => if ci_eqb c c' then match_items its' s' a else None
      | "" => None
      end
  | Dir c :: its' =>
      first_some (fun vr => match_items its' (snd vr) (store c (fst vr) a))
                 (candidates c s)
  end.

(** [datetime.strptime(value, fmt)] for a format without [%z]: the result
    is naive.  No match, input left over ("unconverted data remains") and
    fields that are no date or time all raise [ValueError]. *)
Definition strptime (value fmt : string) : result datetime :=
  match match_items (compile fmt) value found_default with
  | Some (a, "") => make (fY a) (fm a) (fd a) (fH a) (fM a) (fS a) (ff a) None
  | _ => Raise ValueError
  end.

End Strfmt.

(* ================================================================== *)
(** ** [tools/binance/common/timeutils.py] *)

Module timeutils.

Import Datetime Strfmt.

Definition ISO_FORMAT : string := "%Y-%m-%dT%H:%M:%S.%fZ".
Definition _MINUTE_MS : Z := 60000.

(** [int(dt.timestamp() * 1000)] *)
Definition timestamp_ms (dt : datetime) : Z :=
  Float64.to_int (Float64.mul (timestamp dt) (Float64.of_int 1000)).

Definition parse_utc_date (date_str : string) : result datetime :=
  if String.eqb date_str "" then Raise ValueError
  else
    dt <- strptime date_str "%Y-%m-%d" ;;
    Ok (replace_tzinfo dt utc).

Definition date_to_utc_range (date_str : string) : result (Z * Z) :=
  start <- parse_utc_date date_str ;;
  end_ <- add_timedelta start US_PER_DAY ;;
  Ok (timestamp_ms start, timestamp_ms end_).

Definition ms_to_iso8601 (ms : Z) : result string :=
  let seconds := ms / 1000 in
  let remainder := ms mod 1000 in
  dt0 <- fromtimestamp_utc seconds ;;
  dt <- add_timedelta dt0 (remainder * 1000) ;;
  Ok (strftime dt ISO_FORMAT).

Definition iso8601_to_ms (value : string) : result Z :=
  if String.eqb value "" then Raise ValueError
  else
    dt <- strptime value ISO_FORMAT ;;
    dt <- match tzinfo dt with
          | None => Ok (replace_tzinfo dt utc)
          | Some off => astimezone_utc dt off
          end ;;
    Ok (timestamp_ms dt).

Definition ensure_minute_alignment (ms_value : Z) : result unit :=
  if negb (ms_value mod _MINUTE_MS =? 0) then Raise ValueError else Ok tt.

Definition minute_close_from_open (open_ms : Z) : result Z :=
  ensure_minute_alignment open_ms ;;;
  Ok (open_ms + _MINUTE_MS).

Definition minute_open_from_close (close_ms : Z) : result Z :=
  ensure_minute_alignment close_ms ;;;
  Ok (close_ms - _MINUTE_MS).

Record MinuteRange : Type := mk_MinuteRange {
  start_ms : Z;
  end_ms : Z
}.

Definition build_minute_range (date_str : string) : result MinuteRange :=
  r <- date_to_utc_range date_str ;;
  Ok (mk_MinuteRange (fst r) (snd r)).

(** the property [MinuteRange.duration_ms] *)
Definition duration_ms (r : MinuteRange) : Z := end_ms r - start_ms r.

(** the [while current <= self.end_ms] loop of [MinuteRange.iter_closes],
    entered with [current]: the values it yields, in order.  [None]: the
    generator has more to yield after [fuel] values. *)
Fixpoint iter_closes_from (fuel : nat) (current end_ms : Z) : option (list Z) :=
  if current <=? end_ms then
    match fuel with
    | O => None
    | S fuel' =>
        option_map (cons current)
                   (iter_closes_from fuel' (current + _MINUTE_MS) end_ms)
    end
  else Some [].

(** [list(r.iter_closes())] *)
Definition iter_closes (fuel : nat) (r : MinuteRange) : option (list Z) :=
  iter_closes_from fuel (start_ms r + _MINUTE_MS) (end_ms r).

End timeutils.

(* ================================================================== *)
(** ** [csv] *)

Module csv.

(** [csv.writer] and [csv.reader] of the standard library in their
    default dialect ([excel]: delimiter [,], quote character [034],
    [doublequote], line terminator [\r\n], [QUOTE_MINIMAL], not
    [strict]), as [_csv.c] of CPython 3.11 implements them.  Fields longer
    than [csv.field_size_limit()] (131072 characters), which the reader
    refuses, are outside the model. *)

Definition DELIMITER : ascii := ","%char.
Definition QUOTECHAR : ascii := "034"%char.
Definition CR : ascii := "013"%char.
Definition LF : ascii := "010"%char.

Definition is_newline (c : ascii) : bool := Ascii.eqb c CR || Ascii.eqb c LF.

(** *** [csv.writer] *)

(** a character that makes [QUOTE_MINIMAL] quote the field: the
    delimiter, the quote character and the characters of the line
    terminator *)
Definition is_special (c : ascii) : bool :=
  Ascii.eqb c DELIMITER || Ascii.eqb c QUOTECHAR || is_newline c.

Fixpoint has_special (s : string) : bool :=
  match s with
  | "" => false
  | String c r => is_special c || has_special r
  end.

(** [doublequote]: a quote character inside a field is written twice *)
Fixpoint double_quotes (s : string) : string :=
  match s with
  | "" => ""
  | String c r =>
      if Ascii.eqb c QUOTECHAR then String c (String c (double_quotes r))
      else String c (double_quotes r)
  end.

Definition write_field (s : string) : string :=
  if has_special s
  then String QUOTECHAR (double_quotes s ++ String QUOTECHAR "")%string
  else s.

Fixpoint join_fields (fs : list string) : string :=
  match fs with
  | [] => ""
  | [f] => write_field f
  | f :: fs' => (write_field f ++ String DELIMITER (join_fields fs'))%string
  end.

(** [writer.writerow(r)]: the fields, each quoted if it must be, joined
    by commas and ended by [\r\n]; a row of one empty field is written as
    a pair of quotes *)
Definition writerow (r : list string) : string :=
  ((match r with
    | [""] => String QUOTECHAR (String QUOTECHAR "")
    | _ => join_fields r
    end) ++ String CR (String LF ""))%string.

(** [writer.writerows(rows)] *)
Fixpoint writerows (rows : list (list string)) : string :=
  match rows with
  | [] => ""
  | r :: rows' => (writerow r ++ writerows rows')%string
  end.

(** *** [csv.reader] *)

(** the lines a file opened with [newline=""] yields: each ends with its
    terminator, [\r\n], [\r] or [\n], but for a last line without one *)
Fixpoint lines_from (cur : string) (s : string) : list string :=
  match s with
  | "" => match cur with "" => [] | _ => [cur] end
  | String c r =>
      if Ascii.eqb c LF then (cur ++ String c "")%string :: lines_from "" r
      else if Ascii.eqb c CR then
        match r with
        | String c' r' =>
            if Ascii.eqb c' LF
            then (cur ++ String c (String c' ""))%string :: lines_from "" r'
            else (cur ++ String c "")%string :: lines_from "" r
        | "" => [(cur ++ String c "")%string]
        end
      else lines_from (cur ++ String c "")%string r
  end.

Definition lines (s : string) : list string := lines_from "" s.

Inductive ParserState : Type :=
| START_RECORD
| START_FIELD
| IN_FIELD
| IN_QUOTED_FIELD
| QUOTE_IN_QUOTED_FIELD
| EAT_CRNL.

(** the reader: its state, the fields of the record so far and the
    characters of the field so far *)
Record parser : Type := mk_parser {
  p_state : ParserState;
  p_fields : list string;
  p_field : string
}.

Definition parse_reset : parser := mk_parser START_RECORD [] "".

Definition set_state (p : parser) (st : ParserState) : parser :=
  mk_parser st (p_fields p) (p_field p).

Definition parse_save_field (p : parser) (st : ParserState) : parser :=
  mk_parser st (p_fields p ++ [p_field p]) "".

Definition parse_add_char (p : parser) (c : ascii) (st : ParserState) : parser :=
  mk_parser st (p_fields p) (p_field p ++ String c "")%string.

(** [parse_process_char] in the state [START_FIELD] *)
Definition start_field (p : parser) (c : option ascii) : option parser :=
  match c with
  | None => Some (parse_save_field p START_RECORD)
  | Some ch =>
      if is_newline ch then Some (parse_save_field p EAT_CRNL)
      else if Ascii.eqb ch QUOTECHAR then Some (set_state p IN_QUOTED_FIELD)
      else if Ascii.eqb ch DELIMITER then Some (parse_save_field p START_FIELD)
      else Some (parse_add_char p ch IN_FIELD)
  end.

(** [parse_process_char]: one character, or the end of a line ([None]).
    The result [None] is the error "new-line character seen in unquoted
    field". *)
Definition parse_process_char (p : parser) (c : option ascii) : option parser :=
  match p_state p with
  | START_RECORD =>
      match c with
      | None => Some p
      | Some ch =>
          if is_newline ch then Some (set_state p EAT_CRNL)
          else start_field p c
      end
  | START_FIELD => start_field p c
  | IN_FIELD =>
      match c with
      | None => Some (parse_save_field p START_RECORD)
      | Some ch =>
          if is_newline ch then Some (parse_save_field p EAT_CRNL)
          else if Ascii.eqb ch DELIMITER then Some (parse_save_field p START_FIELD)
          else Some (parse_add_char p ch IN_FIELD)
      end
  | IN_QUOTED_FIELD =>
      match c with
      | None => Some p
      | Some ch =>
          if Ascii.eqb ch QUOTECHAR then Some (set_state p QUOTE_IN_QUOTED_FIELD)
          else Some (parse_add_char p ch IN_QUOTED_FIELD)
      end
  | QUOTE_IN_QUOTED_FIELD =>
      match c with
      | None => Some (parse_save_field p START_RECORD)
      | Some ch =>
          if Ascii.eqb ch QUOTECHAR then Some (parse_add_char p ch IN_QUOTED_FIELD)
          else if Ascii.eqb ch DELIMITER then Some (parse_save_field p START_FIELD)
          else if is_newline ch then Some (parse_save_field p EAT_CRNL)
          else Some (parse_add_char p ch IN_FIELD)
      end
  | EAT_CRNL =>
      match c with
      | None => Some (set_state p START_RECORD)
      | Some ch => if is_newline ch then Some p else None
      end
  end.

(** the characters of a line, one after the other *)
Fixpoint parse_chars (line : string) (p : parser) : option parser :=
  match line with
  | "" => Some p
  | String c r =>
      match parse_process_char p (Some c) with
      | Some p' => parse_chars r p'
      | None => None
      end
  end.

Definition in_start_record (p : parser) : bool :=
  match p_state p with START_RECORD => true | _ => false end.

Definition in_quoted_field (p : parser) : bool :=
  match p_state p with IN_QUOTED_FIELD => true | _ => false end.

(** the end of the input: a record cut short inside a quoted field is
    returned as it stands *)
Definition finish (p : parser) : list (list string) :=
  if negb (String.eqb (p_field p) "") || in_quoted_field p
  then [p_fields p ++ [p_field p]]
  else [].

(** the end of a line: the record is complete when the state is
    [START_RECORD], and the reader starts afresh; else it goes on with
    the next line *)
Definition end_line (p : parser) (next : parser -> option (list (list string)))
  : option (list (list string)) :=
  match parse_process_char p None with
  | None => None
  | Some p' =>
      if in_start_record p'
      then option_map (cons (p_fields p')) (next parse_reset)
      else next p'
  end.

(** [Reader_iternext], again and again, over the lines of the input *)
Fixpoint read_from (ls : list string) (p : parser) : option (list (list string)) :=
  match ls with
  | [] => Some (finish p)
  | l :: ls' =>
      match parse_chars l p with
      | None => None
      | Some p' => end_line p' (read_from ls')
      end
  end.

(** [list(csv.reader(fp))] for a file holding [s] *)
Definition reader (s : string) : option (list (list string)) :=
  read_from (lines s) parse_reset.

Definition starts_with_LF (s : string) : bool :=
  match s with
  | String c _ => Ascii.eqb c LF
  | "" => false
  end.

(** the same reader, taking the characters as they come: a line ends
    after [\n], and after [\r] unless [\n] follows; [pending] tells
    whether the line at hand holds a character yet *)
Fixpoint stream (s : string) (p : parser) (pending : bool)
  : option (list (list string)) :=
  match s with
  | "" =>
      if pending then end_line p (fun q => Some (finish q))
      else Some (finish p)
  | String c r =>
      match parse_process_char p (Some c) with
      | None => None
      | Some p1 =>
          if Ascii.eqb c LF || (Ascii.eqb c CR && negb (starts_with_LF r))
          then end_line p1 (fun q => stream r q false)
          else stream r p1 true
      end
  end.

(** the reader is not waiting for the end of a line, unless a line feed
    comes next *)
Definition settled (p : parser) (s : string) : Prop :=
  p_state p = EAT_CRNL -> starts_with_LF s = true.

Definition CRLF : string := String CR (String LF "").

End csv.

(* ================================================================== *)
(** ** [tools/binance/fetch_binance_1m.py] *)

Module fetch_binance_1m.

Import timeutils.

Definition MAX_LIMIT : Z := 1500.
(** [BACKOFF_SECONDS = 1.0] and [BACKOFF_CAP = 60.0].  The back-off only
    ever holds 1, 2, 4, 8, 16, 32 and 60: integers, on which binary64
    doubling and [min] are exact, so it is kept as an integer number of
    seconds. *)
Definition BACKOFF_SECONDS : Z := 1.
Definition BACKOFF_CAP : Z := 60.

(** *** The CSV file *)

Definition row : Type := list string.

(** The file at [out_path]: [None] when the path does not exist, else
    its content, character for character. *)
Definition file : Type := option string.

Definition HEADER : row := ["timestamp"; "open"; "high"; "low"; "close"; "volume"].

(** [list(csv.reader(fp))] on the file opened with [newline=""].  The
    reader yields a list for every content (lemma [reader_total]). *)
Definition records (f : file) : list row :=
  match f with
  | None => []
  | Some s =>
      match csv.reader s with
      | Some rs => rs
      | None => []
      end
  end.

Definition read_last_timestamp (path : file) : option string :=
  match path with
  | None => None
  | Some _ =>
      let last_row :=
        fold_left
          (fun (last_row : option row) (r : row) =>
             match r with
             | c0 :: _ => if negb (String.eqb c0 "timestamp") then Some r else last_row
             | [] => last_row
             end)
          (records path) None in
      match last_row with
      | Some (c0 :: _) => Some c0
      | _ => None
      end
  end.

(** [open(path, "a", newline="")] appends: what is written comes right
    after the last character the file holds, whether or not that is the
    end of a line. *)
Definition write_rows (path : file) (rows : list row) : file :=
  match rows with
  | [] => path
  | _ =>
      let file_exists := match path with Some _ => true | None => false end in
      let size_is_0 := match path with Some "" => true | _ => false end in
      let write_header := negb file_exists || size_is_0 in
      let content := match path with Some s => s | None => "" end in
      Some (content
            ++ (if write_header then csv.writerow HEADER else "")
            ++ csv.writerows rows)%string
  end.

(** *** The upstream *)

(** one kline of the JSON array: [entry[0]] .. [entry[5]] *)
Record entry : Type := mk_entry {
  e_open_time : Z;
  e_open : string;
  e_high : string;
  e_low : string;
  e_close : string;
  e_volume : string
}.

Record request : Type := mk_request {
  symbol : string;
  interval : string;
  startTime : Z;
  endTime : Z;
  limit : Z
}.

(** What [session.get] does: it raises [requests.RequestException], or
    returns a response with a status code and a JSON body (a list of
    klines; a body that is no such list is outside the model). *)
Inductive response : Type :=
| RequestException
| Response (status_code : Z) (json : list entry).

(** [response.raise_for_status()] raises for 4xx and 5xx. *)
Definition raises_for_status (status_code : Z) : bool :=
  (400 <=? status_code) && (status_code <? 600).

(** the [n]-th call of [session.get], by its parameters *)
Definition upstream : Type := nat -> request -> response.

(** *** [fetch_klines] *)

Record state : Type := mk_state {
  start_open_ms : Z;
  last_close_ms : option Z;
  backoff : Z;
  has_progress : bool;
  out_file : file;
  (** the arguments of the [time.sleep] calls so far, oldest first *)
  slept : list Z
}.

(** the locals of the [for entry in data] loop *)
Record page_acc : Type := mk_page_acc {
  p_last_close_ms : option Z;
  p_rows : list row;
  p_has_progress : bool
}.

(** one turn of [for entry in data] *)
Definition process_entry (end_close_ms : Z) (a : page_acc) (e : entry)
  : result page_acc :=
  let open_ms := e_open_time e in
  close_ms <- minute_close_from_open open_ms ;;
  if end_close_ms <? close_ms then Ok a
  else if truthy_int (p_last_close_ms a)
          && match p_last_close_ms a with
             | Some l => close_ms <=? l
             | None => false
             end
  then Ok a
  else
    timestamp_iso <- ms_to_iso8601 close_ms ;;
    Ok (mk_page_acc
          (Some close_ms)
          (p_rows a ++ [[timestamp_iso; e_open e; e_high e; e_low e;
                         e_close e; e_volume e]])
          true).

Fixpoint process_entries (end_close_ms : Z) (data : list entry) (a : page_acc)
  : result page_acc :=
  match data with
  | [] => Ok a
  | e :: data' =>
      a' <- process_entry end_close_ms a e ;;
      process_entries end_close_ms data' a'
  end.

(** how one turn of the [while] loop ends *)
Inductive outcome : Type :=
| Continue (st : state)
| Break (st : state)
| Abort (e : exn) (st : state).

(** the two [time.sleep(backoff); backoff = min(backoff * 2, BACKOFF_CAP);
    continue] blocks *)
Definition back_off (st : state) : state :=
  mk_state (start_open_ms st) (last_close_ms st)
           (Z.min (backoff st * 2) BACKOFF_CAP)
           (has_progress st) (out_file st)
           (slept st ++ [backoff st]).

Definition next_open_ms (data : list entry) (e0 : entry) (start_open_ms : Z) : Z :=
  let last_open_ms := e_open_time (last data e0) in
  let next_open := last_open_ms + 60000 in
  if next_open <=? start_open_ms then start_open_ms + 60000 else next_open.

(** the body of [while start_open_ms < end_close_ms], given what
    [session.get] did *)
Definition iteration (end_close_ms : Z) (resp : response) (st : state) : outcome :=
  match resp with
  | RequestException => Continue (back_off st)
  | Response status_code data =>
      if status_code =? 429 then Continue (back_off st)
      else if raises_for_status status_code then Abort SystemExit st
      else
        let st1 := mk_state (start_open_ms st) (last_close_ms st) BACKOFF_SECONDS
                            (has_progress st) (out_file st) (slept st) in
        match data with
        | [] => Break st1
        | e0 :: _ =>
            match process_entries end_close_ms data
                    (mk_page_acc (last_close_ms st) [] (has_progress st)) with
            | Raise e => Abort e st1
            | Ok a =>
                Continue
                  (mk_state (next_open_ms data e0 (start_open_ms st))
                            (p_last_close_ms a)
                            BACKOFF_SECONDS
                            (p_has_progress a)
                            (write_rows (out_file st) (p_rows a))
                            (slept st))
            end
        end
  end.

Definition params (sym : string) (end_close_ms : Z) (st : state) : request :=
  mk_request sym "1m" (start_open_ms st) end_close_ms MAX_LIMIT.

(** how the run ends: normally, or by an exception *)
Inductive ending : Type :=
| Returned
| Raised (e : exn).

(** The [while] loop, from the [n]-th request on.  [None]: the loop is
    still running after [fuel] turns. *)
Fixpoint loop (fuel : nat) (up : upstream) (sym : string) (end_close_ms : Z)
              (n : nat) (st : state) : option (state * ending) :=
  match fuel with
  | O => None
  | S fuel' =>
      if start_open_ms st <? end_close_ms then
        match iteration end_close_ms (up n (params sym end_close_ms st)) st with
        | Continue st' => loop fuel' up sym end_close_ms (S n) st'
        | Break st' => Some (st', Returned)
        | Abort e st' => Some (st', Raised e)
        end
      else Some (st, Returned)
  end.

Definition upper (c : ascii) : ascii :=
  let k := nat_of_ascii c in
  if (97 <=? k)%nat && (k <=? 122)%nat then ascii_of_nat (k - 32) else c.

Fixpoint str_upper (s : string) : string :=
  match s with
  | "" => ""
  | String c r => String (upper c) (str_upper r)
  end.

(** the statements of [fetch_klines] before the loop *)
Definition init (date : string) (out_path : file) : result (MinuteRange * state) :=
  minute_range <- build_minute_range date ;;
  let start_open_ms := start_ms minute_range in
  let last_timestamp := read_last_timestamp out_path in
  if truthy_str last_timestamp then
    match last_timestamp with
    | Some ts =>
        last_close_ms <- iso8601_to_ms ts ;;
        ensure_minute_alignment last_close_ms ;;;
        resume_open_ms <- minute_open_from_close last_close_ms ;;
        Ok (minute_range,
            mk_state (Z.max start_open_ms resume_open_ms) (Some last_close_ms)
                     BACKOFF_SECONDS false out_path [])
    | None => Raise ValueError
    end
  else
    Ok (minute_range,
        mk_state start_open_ms None BACKOFF_SECONDS false out_path []).

(** what a finished run leaves: the file, the sleeps, how it ended, and
    whether "no new data fetched; CSV already up to date" was printed *)
Record run : Type := mk_run {
  r_file : file;
  r_slept : list Z;
  r_ending : ending;
  r_up_to_date : bool
}.

Definition fetch_klines (fuel : nat) (up : upstream)
           (sym date : string) (out_path : file) : option run :=
  match init date out_path with
  | Raise e => Some (mk_run out_path [] (Raised e) false)
  | Ok (minute_range, st0) =>
      match loop fuel up (str_upper sym) (end_ms minute_range) O st0 with
      | None => None
      | Some (st, Returned) =>
          Some (mk_run (out_file st) (slept st) Returned
                       (negb (has_progress st)
                        && truthy_str (read_last_timestamp out_path)))
      | Some (st, Raised e) =>
          Some (mk_run (out_file st) (slept st) (Raised e) false)
      end
  end.

End fetch_binance_1m.

(* ================================================================== *)
(** ** Checks by enumeration *)

Module Bounded.

Import Calendar.

(** [p] holds of every integer of [[0, n)] *)
Fixpoint all_below (n : nat) (p : Z -> bool) : bool :=
  match n with
  | O => true
  | S k => p (Z.of_nat k) && all_below k p
  end.

(** what [month_day] has to return for day [n] of a year: a month, a day
    of that month, and [n] days before it *)
Definition month_day_ok (leapyear : bool) (n : Z) : bool :=
  let '(m, d) := month_day leapyear n in
  (1 <=? m) && (m <=? 12) && (1 <=? d)
  && (d <=? DAYS_IN_MONTH m + (if (m =? 2) && leapyear then 1 else 0))
  && (DAYS_BEFORE_MONTH m + (if (2 <? m) && leapyear then 1 else 0) + d
      =? n + 1).

End Bounded.

(* ================================================================== *)
(** ** Vocabulary of the properties *)

Module Engine.

Import timeutils fetch_binance_1m.

(** a network error or the rate-limit status *)
Definition transient (r : response) : bool :=
  match r with
  | RequestException => true
  | Response status_code _ => status_code =? 429
  end.

(** an unsuccessful status other than the rate-limit one *)
Definition fatal (r : response) : bool :=
  match r with
  | RequestException => false
  | Response status_code _ =>
      negb (status_code =? 429) && raises_for_status status_code
  end.

Definition successful (r : response) : bool :=
  negb (transient r) && negb (fatal r).

Definition body (r : response) : list entry :=
  match r with
  | RequestException => []
  | Response _ data => data
  end.

Definition state_of (o : outcome) : state :=
  match o with
  | Continue st => st
  | Break st => st
  | Abort _ st => st
  end.

(** [reaches up sym e st0 n st]: starting the loop in [st0], the loop is
    about to make request number [n] (or to stop on its guard) in [st]. *)
Inductive reaches (up : upstream) (sym : string) (end_close_ms : Z) (st0 : state)
  : nat -> state -> Prop :=
| reaches_start : reaches up sym end_close_ms st0 O st0
| reaches_turn n st st' :
    reaches up sym end_close_ms st0 n st ->
    start_open_ms st < end_close_ms ->
    iteration end_close_ms (up n (params sym end_close_ms st)) st = Continue st' ->
    reaches up sym end_close_ms st0 (S n) st'.

(** every request is eventually answered by something other than a
    transient failure *)
Definition eventually_answered (up : upstream) : Prop :=
  forall (n : nat) (rq : request),
    exists m : nat, (n <= m)%nat /\ transient (up m rq) = false.

Definition backoff_in_range (st : state) : Prop := 1 <= backoff st <= 60.

(** the loop, entered in [st] for request number [n], ends *)
Definition halts (up : upstream) (sym : string) (end_close_ms : Z)
           (n : nat) (st : state) : Prop :=
  exists fuel r, loop fuel up sym end_close_ms n st = Some r.

(** a state whose cursor is within [bound] of the end of the window *)
Definition within (end_close_ms : Z) (bound : nat) (st : state) : Prop :=
  end_close_ms - start_open_ms st <= Z.of_nat bound.

Fixpoint last_char (s : string) : option ascii :=
  match s with
  | "" => None
  | String c r =>
      match last_char r with
      | None => Some c
      | Some x => Some x
      end
  end.

(** the items of [ISO_FORMAT] before its final literal *)
Definition ISO_ITEMS : list Strfmt.item :=
  [Strfmt.Dir "Y"; Strfmt.Lit "-"; Strfmt.Dir "m"; Strfmt.Lit "-";
   Strfmt.Dir "d"; Strfmt.Lit "T"; Strfmt.Dir "H"; Strfmt.Lit ":";
   Strfmt.Dir "M"; Strfmt.Lit ":"; Strfmt.Dir "S"; Strfmt.Lit ".";
   Strfmt.Dir "f"].

(** every candidate leaves a suffix of the input *)
Definition leaves_suffixes (s : string) (l : list (Z * string)) : Prop :=
  forall v r, In (v, r) l -> exists p, s = (p ++ r)%string.

(** *** Inputs of the worked examples *)

Definition kline (open_time : Z) : entry :=
  mk_entry open_time "1.0" "2.0" "0.5" "1.5" "10".

Definition row_at (ts : string) : row := [ts; "1.0"; "2.0"; "0.5"; "1.5"; "10"].

(** the file [csv.writer] leaves when it has written [rows] and nothing
    else: every record ends with its line terminator *)
Definition written (rows : list row) : file := Some (csv.writerows rows).

(** a path with no file, or with a file that holds rows as [csv.writer]
    writes them *)
Definition written_by_csv (path : file) : Prop :=
  path = None \/ exists rows, path = written rows.

(** a series whose last row closes at the epoch *)
Definition series_to_epoch : file :=
  written [HEADER; row_at "1970-01-01T00:00:00.000000Z"].

(** [count] consecutive klines from [open_time] on *)
Fixpoint klines (count : nat) (open_time : Z) : list entry :=
  match count with
  | O => []
  | S c => kline open_time :: klines c (open_time + 60000)
  end.

(** an upstream that serves every minute: the klines opening in
    [[startTime, endTime)], at most [limit] of them *)
Definition every_minute : upstream :=
  fun _ rq =>
    Response 200
      (klines (Z.to_nat (Z.min (limit rq)
                               ((endTime rq - startTime rq) / 60000)))
              (startTime rq)).

Definition always (r : response) : upstream := fun _ _ => r.

(** an upstream that answers the first request with [page] and every
    later one with an empty page *)
Definition once (page : list entry) : upstream :=
  fun n _ => match n with
             | O => Response 200 page
             | S _ => Response 200 []
             end.

(** an upstream whose first two requests fail in transit *)
Definition flaky : upstream :=
  fun n _ => match n with
             | O | S O => RequestException
             | _ => Response 200 []
             end.

Definition state0 : state := mk_state 0 None 1 false None [].

(** the window of 2024-01-01 and the state a run on it starts in when
    there is no file *)
Definition day_2024 : MinuteRange := mk_MinuteRange 1704067200000 1704153600000.

Definition fresh_2024 : state :=
  mk_state 1704067200000 None 1 false None [].

(** the row written for an accepted kline *)
Definition row_of (timestamp_iso : string) (en : entry) : row :=
  [timestamp_iso; e_open en; e_high en; e_low en; e_close en; e_volume en].

(** a row stamped with a close time later than [c] *)
Definition closes_after (c : Z) (r : row) : Prop :=
  exists close_ms en ts,
    r = row_of ts en /\ ms_to_iso8601 close_ms = Ok ts
    /\ close_ms = e_open_time en + 60000 /\ c < close_ms.

End Engine.

(* ================================================================== *)
(** ** Vocabulary of the run-level properties *)

Module Series.

Import timeutils fetch_binance_1m Engine.

(** the close time [fetch_klines] computes for a record *)
Definition close_of (en : entry) : Z := e_open_time en + 60000.

(** the timestamp written for a record ([""] stands in where
    [ms_to_iso8601] raises; no such record is ever written) *)
Definition stamp (en : entry) : string :=
  match ms_to_iso8601 (close_of en) with
  | Ok ts => ts
  | Raise _ => ""
  end.

Definition row_for (en : entry) : row := row_of (stamp en) en.

(** a record the loop can accept in a window that ends at [e] *)
Definition acceptable (e : Z) (en : entry) : Prop :=
  e_open_time en mod 60000 = 0
  /\ close_of en <= e
  /\ ms_to_iso8601 (close_of en) = Ok (stamp en).

(** what the duplicate check lets through after a last close [prev] *)
Definition follows (prev : option Z) (c : Z) : Prop :=
  match prev with
  | Some l => l = 0 \/ l < c
  | None => True
  end.

Fixpoint chain (prev : option Z) (ens : list entry) : Prop :=
  match ens with
  | [] => True
  | en :: rest => follows prev (close_of en) /\ chain (Some (close_of en)) rest
  end.

(** the last accepted close after accepting [ens] *)
Definition last_close (prev : option Z) (ens : list entry) : option Z :=
  fold_left (fun _ en => Some (close_of en)) ens prev.

Definition any (ens : list entry) : bool :=
  match ens with
  | [] => false
  | _ :: _ => true
  end.

(** [accepted up e st0 st ens]: between [st0] and [st] the loop accepted
    exactly the records [ens], in this order *)
Definition accepted (up : upstream) (e : Z) (st0 st : state) (ens : list entry)
  : Prop :=
  out_file st = write_rows (out_file st0) (map row_for ens)
  /\ last_close_ms st = last_close (last_close_ms st0) ens
  /\ has_progress st = has_progress st0 || any ens
  /\ Forall (acceptable e) ens
  /\ chain (last_close_ms st0) ens
  /\ Forall (fun en => exists n rq, In en (body (up n rq))) ens.

(** close times in strictly increasing order, all later than [l] *)
Fixpoint increasing_after (l : option Z) (cs : list Z) : Prop :=
  match cs with
  | [] => True
  | c :: rest =>
      match l with
      | Some x => x < c
      | None => True
      end
      /\ increasing_after (Some c) rest
  end.

(** the back-off after [k] transient failures in a row *)
Fixpoint failures (k : nat) (st : state) : state :=
  match k with
  | O => st
  | S k' => back_off (failures k' st)
  end.

End Series.

(* ================================================================== *)
(** * Properties *)

Import Strfmt timeutils fetch_binance_1m Engine.

(** ** Alignment *)

Lemma ensure_minute_alignment_eq (x : Z) :
  ensure_minute_alignment x
  = if x mod 60000 =? 0 then Ok tt else Raise ValueError.
Proof.
  unfold ensure_minute_alignment, _MINUTE_MS.
  destruct (x mod 60000 =? 0); reflexivity.
Qed.

(** C9.  For every integer [x], [ensure_minute_alignment x] raises (a
    [ValueError]) exactly when [x mod 60000 <> 0], the modulo being the
    mathematical one also for negative [x]; otherwise it returns [None] and
    does nothing else. *)
Theorem C9_ensure_minute_alignment_fails_iff_misaligned :
  forall x : Z,
    (ensure_minute_alignment x = Raise ValueError <-> x mod 60000 <> 0)
    /\ (ensure_minute_alignment x = Ok tt <-> x mod 60000 = 0)
    /\ 0 <= x mod 60000 < 60000.
Proof.
  intro x. rewrite ensure_minute_alignment_eq.
  pose proof (Z.mod_pos_bound x 60000 ltac:(lia)) as B.
  destruct (Z.eqb_spec (x mod 60000) 0) as [E | E].
  - split; [| split; [| exact B]]; split; intro H;
      solve [discriminate | reflexivity | exact E | contradiction].
  - split; [| split; [| exact B]]; split; intro H;
      solve [discriminate | reflexivity | exact E | contradiction].
Qed.

Lemma minute_close_from_open_aligned (o : Z) :
  o mod 60000 = 0 -> minute_close_from_open o = Ok (o + 60000).
Proof.
  intro H. unfold minute_close_from_open. rewrite ensure_minute_alignment_eq.
  rewrite H. reflexivity.
Qed.

Lemma minute_close_from_open_misaligned (o : Z) :
  o mod 60000 <> 0 -> minute_close_from_open o = Raise ValueError.
Proof.
  intro H. unfold minute_close_from_open. rewrite ensure_minute_alignment_eq.
  destruct (Z.eqb_spec (o mod 60000) 0); [contradiction | reflexivity].
Qed.

Lemma minute_open_from_close_aligned (c : Z) :
  c mod 60000 = 0 -> minute_open_from_close c = Ok (c - 60000).
Proof.
  intro H. unfold minute_open_from_close. rewrite ensure_minute_alignment_eq.
  rewrite H. reflexivity.
Qed.

(** ** The retry and abort branches of the loop *)

Lemma transient_iteration (e : Z) (resp : response) (st : state) :
  transient resp = true -> iteration e resp st = Continue (back_off st).
Proof.
  destruct resp as [| code data]; simpl; intro H; [reflexivity |].
  rewrite H. reflexivity.
Qed.

Lemma fatal_iteration (e : Z) (resp : response) (st : state) :
  fatal resp = true -> iteration e resp st = Abort SystemExit st.
Proof.
  destruct resp as [| code data]; simpl; [discriminate |].
  intro H. apply andb_prop in H as [H1 H2].
  apply negb_true_iff in H1. rewrite H1, H2. reflexivity.
Qed.

Lemma successful_iteration (e : Z) (resp : response) (st : state) :
  successful resp = true ->
  exists code data,
    resp = Response code data
    /\ iteration e resp st
       = let st1 := mk_state (start_open_ms st) (last_close_ms st) BACKOFF_SECONDS
                             (has_progress st) (out_file st) (slept st) in
         match data with
         | [] => Break st1
         | e0 :: _ =>
             match process_entries e data
                     (mk_page_acc (last_close_ms st) [] (has_progress st)) with
             | Raise x => Abort x st1
             | Ok a =>
                 Continue
                   (mk_state (next_open_ms data e0 (start_open_ms st))
                             (p_last_close_ms a) BACKOFF_SECONDS (p_has_progress a)
                             (write_rows (out_file st) (p_rows a)) (slept st))
             end
         end.
Proof.
  unfold successful. destruct resp as [| code data]; simpl; [discriminate |].
  intro H. apply andb_prop in H as [H1 H2].
  apply negb_true_iff in H1. rewrite H1 in *. simpl in H2.
  apply negb_true_iff in H2. rewrite H2.
  exists code, data. split; reflexivity.
Qed.

Lemma response_cases (resp : response) :
  transient resp = true \/ fatal resp = true \/ successful resp = true.
Proof.
  unfold successful. destruct (transient resp) eqn:T; [now left | right].
  destruct (fatal resp); [now left | now right].
Qed.

Import csv.

Lemma append_assoc (s t u : string) : ((s ++ t) ++ u = s ++ (t ++ u))%string.
Proof. induction s as [| c s IH]; simpl; [reflexivity | now rewrite IH]. Qed.

(** ** The CSV reader and writer *)

Lemma append_nil_r (s : string) : (s ++ "")%string = s.
Proof. induction s as [| c s IH]; simpl; [reflexivity | now rewrite IH]. Qed.

Lemma parse_chars_app (a b : string) (p : parser) :
  parse_chars (a ++ b) p
  = match parse_chars a p with
    | Some q => parse_chars b q
    | None => None
    end.
Proof.
  revert p. induction a as [| c a IH]; intro p; cbn [append parse_chars];
    [reflexivity |].
  destruct (parse_process_char p (Some c)); [apply IH | reflexivity].
Qed.

Lemma is_newline_LF : is_newline LF = true.
Proof. reflexivity. Qed.

Lemma eqb_LF_newline (c : ascii) : Ascii.eqb c LF = true -> is_newline c = true.
Proof. intro H. apply Ascii.eqb_eq in H. now subst c. Qed.

Lemma eqb_CR_newline (c : ascii) : Ascii.eqb c CR = true -> is_newline c = true.
Proof. intro H. apply Ascii.eqb_eq in H. now subst c. Qed.

Lemma not_newline (c : ascii) :
  Ascii.eqb c LF = false -> Ascii.eqb c CR = false -> is_newline c = false.
Proof. intros H1 H2. unfold is_newline. now rewrite H1, H2. Qed.

(** a character is taken whenever the reader is settled *)
Lemma process_char_settled (p : parser) (c : ascii) (r : string) :
  settled p (String c r) ->
  exists p1, parse_process_char p (Some c) = Some p1
             /\ (is_newline c = false -> p_state p1 <> EAT_CRNL).
Proof.
  unfold settled, parse_process_char, start_field. intro H.
  destruct (p_state p) eqn:S.
  - destruct (is_newline c) eqn:N; [eexists; split; [reflexivity | discriminate] |].
    destruct (Ascii.eqb c QUOTECHAR); [eexists; split; [reflexivity | discriminate] |].
    destruct (Ascii.eqb c DELIMITER); eexists; (split; [reflexivity | discriminate]).
  - destruct (is_newline c) eqn:N; [eexists; split; [reflexivity | discriminate] |].
    destruct (Ascii.eqb c QUOTECHAR); [eexists; split; [reflexivity | discriminate] |].
    destruct (Ascii.eqb c DELIMITER); eexists; (split; [reflexivity | discriminate]).
  - destruct (is_newline c) eqn:N; [eexists; split; [reflexivity | discriminate] |].
    destruct (Ascii.eqb c DELIMITER); eexists; (split; [reflexivity | discriminate]).
  - destruct (Ascii.eqb c QUOTECHAR); eexists; (split; [reflexivity | discriminate]).
  - destruct (Ascii.eqb c QUOTECHAR); [eexists; split; [reflexivity | discriminate] |].
    destruct (Ascii.eqb c DELIMITER); [eexists; split; [reflexivity | discriminate] |].
    destruct (is_newline c) eqn:N; eexists; (split; [reflexivity | discriminate]).
  - specialize (H eq_refl). cbn [starts_with_LF] in H.
    rewrite (eqb_LF_newline c H). eexists. split; [reflexivity | discriminate].
Qed.

(** the end of a line is always taken, and leaves the reader settled *)
Lemma process_end_of_line (p : parser) :
  exists p', parse_process_char p None = Some p' /\ p_state p' <> EAT_CRNL.
Proof.
  unfold parse_process_char, start_field.
  destruct (p_state p) eqn:S; eexists; (split; [reflexivity |]);
    cbn [p_state parse_save_field set_state]; congruence.
Qed.

Lemma end_line_ext (p : parser) (f g : parser -> option (list (list string))) :
  (forall q, p_state q <> EAT_CRNL -> f q = g q) ->
  end_line p f = end_line p g.
Proof.
  intro H. unfold end_line.
  destruct (process_end_of_line p) as (p' & -> & S).
  destruct (in_start_record p'); [| now apply H].
  rewrite H; [reflexivity | discriminate].
Qed.

(** reading line by line is reading character by character *)
Lemma read_from_lines (s : string) :
  forall (cur : string) (p0 p : parser),
    parse_chars cur p0 = Some p ->
    settled p s ->
    read_from (lines_from cur s) p0
    = stream s p (negb (String.eqb cur "")).
Proof.
  induction s as [| c r IH]; intros cur p0 p Hc Hs.
  - cbn [lines_from stream]. destruct cur as [| c0 cur0].
    + cbn in Hc. injection Hc as <-. reflexivity.
    + cbn [String.eqb negb read_from]. rewrite Hc. reflexivity.
  - destruct (process_char_settled p c r Hs) as (p1 & F & Hp1).
    assert (Hc1 : parse_chars (cur ++ String c "") p0 = Some p1).
    { rewrite parse_chars_app, Hc. cbn [parse_chars]. now rewrite F. }
    assert (Hne : negb (String.eqb (cur ++ String c "") "") = true)
      by (destruct cur; reflexivity).
    assert (Hnext : forall q, p_state q <> EAT_CRNL ->
                              read_from (lines_from "" r) q = stream r q false).
    { intros q Hq. apply (IH "" q q); [reflexivity |]. intro E. now elim Hq. }
    cbn [lines_from stream]. rewrite F.
    destruct (Ascii.eqb c LF) eqn:ELF.
    + cbn [orb read_from]. rewrite Hc1. now apply end_line_ext.
    + cbn [orb]. destruct (Ascii.eqb c CR) eqn:ECR.
      * destruct r as [| c' r'].
        -- cbn [andb starts_with_LF negb read_from]. rewrite Hc1.
           now apply end_line_ext.
        -- cbn [starts_with_LF andb]. destruct (Ascii.eqb c' LF) eqn:ELF'.
           ++ cbn [negb].
              rewrite <- Hne. rewrite <- (IH (cur ++ String c "")%string p0 p1 Hc1).
              ** cbn [lines_from]. rewrite ELF'. now rewrite append_assoc.
              ** intros _. exact ELF'.
           ++ cbn [negb read_from]. rewrite Hc1. now apply end_line_ext.
      * cbn [andb]. rewrite <- Hne. apply (IH _ p0 p1 Hc1).
        intro E. elim (Hp1 (not_newline c ELF ECR)). exact E.
Qed.

Lemma reader_stream (s : string) : reader s = stream s parse_reset false.
Proof.
  unfold reader, lines. apply (read_from_lines s "" parse_reset parse_reset).
  - reflexivity.
  - discriminate.
Qed.

(** the reader never fails on a file: the error of the state [EAT_CRNL]
    needs a character after a line terminator in the same line *)
Lemma stream_total (s : string) :
  forall (p : parser) (pending : bool),
    settled p s -> exists rows, stream s p pending = Some rows.
Proof.
  assert (E : forall p f, (forall q, p_state q <> EAT_CRNL -> exists rows, f q = Some rows) ->
                          exists rows, end_line p f = Some rows).
  { intros p f H. unfold end_line.
    destruct (process_end_of_line p) as (p' & -> & S).
    destruct (in_start_record p').
    - destruct (H parse_reset ltac:(discriminate)) as [rows ->]. cbn. eauto.
    - now apply H. }
  induction s as [| c r IH]; intros p pending Hs; cbn [stream].
  - destruct pending; [| eauto]. apply E. eauto.
  - destruct (process_char_settled p c r Hs) as (p1 & -> & Hp1).
    destruct (Ascii.eqb c LF) eqn:ELF; cbn [orb].
    + apply E. intros q Hq. apply IH. intro X. now elim Hq.
    + destruct (Ascii.eqb c CR) eqn:ECR; cbn [andb].
      * destruct (starts_with_LF r) eqn:SL; cbn [negb].
        -- apply IH. intros _. exact SL.
        -- apply E. intros q Hq. apply IH. intro X. now elim Hq.
      * apply IH. intro X. elim (Hp1 (not_newline c ELF ECR)). exact X.
Qed.

Theorem reader_total (s : string) : exists rows, reader s = Some rows.
Proof.
  rewrite reader_stream. apply stream_total. discriminate.
Qed.

(** *** What the writer writes is read back *)

Lemma is_special_cases (c : ascii) :
  is_special c = false ->
  Ascii.eqb c DELIMITER = false /\ Ascii.eqb c QUOTECHAR = false
  /\ is_newline c = false /\ Ascii.eqb c LF = false /\ Ascii.eqb c CR = false.
Proof.
  unfold is_special, is_newline. intro H.
  apply orb_false_elim in H as [H N]. apply orb_false_elim in H as [D Q].
  pose proof N as N'. apply orb_false_elim in N' as [C L]. repeat split; assumption.
Qed.

(** a field without special characters, read in an unquoted field *)
Lemma stream_plain (f : string) :
  forall (t : string) (p : parser) (pending : bool),
    has_special f = false ->
    p_state p = IN_FIELD ->
    stream (f ++ t) p pending
    = stream t (mk_parser IN_FIELD (p_fields p) (p_field p ++ f)%string)
             (match f with "" => pending | _ => true end).
Proof.
  induction f as [| c f IH]; intros t p pending Hf Hp.
  - cbn [append]. rewrite append_nil_r. destruct p as [st fs fd].
    cbn in Hp. subst st. reflexivity.
  - cbn [has_special] in Hf. apply orb_false_elim in Hf as [Hc Hf].
    destruct (is_special_cases c Hc) as (D & Q & N & L & C).
    cbn [append stream]. unfold parse_process_char. rewrite Hp, N, D, L, C.
    cbn [orb andb]. rewrite (IH t (parse_add_char p c IN_FIELD) true Hf eq_refl).
    cbn [p_fields p_field parse_add_char]. rewrite append_assoc. cbn [append].
    destruct f; reflexivity.
Qed.

(** the same at the start of a field or of a record *)
Lemma stream_plain_start (c : ascii) (f t : string) (p : parser) (pending : bool) :
  has_special (String c f) = false ->
  p_state p = START_RECORD \/ p_state p = START_FIELD ->
  p_field p = "" ->
  stream (String c f ++ t) p pending
  = stream t (mk_parser IN_FIELD (p_fields p) (String c f)) true.
Proof.
  intros Hf Hp Hfd. cbn [has_special] in Hf. apply orb_false_elim in Hf as [Hc Hf].
  destruct (is_special_cases c Hc) as (D & Q & N & L & C).
  cbn [append stream].
  assert (F : parse_process_char p (Some c) = Some (parse_add_char p c IN_FIELD)).
  { unfold parse_process_char, start_field.
    destruct Hp as [-> | ->]; now rewrite N, Q, D. }
  rewrite F, L, C. cbn [orb andb].
  rewrite (stream_plain f t (parse_add_char p c IN_FIELD) true Hf eq_refl).
  cbn [p_fields p_field parse_add_char]. rewrite Hfd. cbn [append].
  destruct f; reflexivity.
Qed.

Lemma QUOTECHAR_plain :
  Ascii.eqb QUOTECHAR LF = false /\ Ascii.eqb QUOTECHAR CR = false
  /\ Ascii.eqb QUOTECHAR DELIMITER = false /\ is_newline QUOTECHAR = false.
Proof. repeat split. Qed.

(** the inside of a quoted field, up to the closing quote *)
Lemma stream_quoted (f : string) :
  forall (t : string) (p : parser) (pending : bool),
    p_state p = IN_QUOTED_FIELD ->
    stream (double_quotes f ++ String QUOTECHAR t) p pending
    = stream t (mk_parser QUOTE_IN_QUOTED_FIELD (p_fields p) (p_field p ++ f)%string)
             true.
Proof.
  induction f as [| c f IH]; intros t p pending Hp.
  - cbn [double_quotes append stream]. unfold parse_process_char. rewrite Hp.
    rewrite Ascii.eqb_refl. cbn. rewrite append_nil_r. reflexivity.
  - cbn [double_quotes]. destruct (Ascii.eqb c QUOTECHAR) eqn:Q.
    + apply Ascii.eqb_eq in Q. subst c. cbn [append stream].
      unfold parse_process_char at 1. rewrite Hp, Ascii.eqb_refl.
      cbn [orb andb Ascii.eqb]. change (Ascii.eqb QUOTECHAR LF) with false.
      change (Ascii.eqb QUOTECHAR CR) with false. cbn [orb andb stream].
      unfold parse_process_char at 1. cbn [p_state set_state].
      rewrite Ascii.eqb_refl.
      change (Ascii.eqb QUOTECHAR LF) with false.
      change (Ascii.eqb QUOTECHAR CR) with false. cbn [orb andb].
      rewrite (IH t (parse_add_char (set_state p QUOTE_IN_QUOTED_FIELD) QUOTECHAR
                                    IN_QUOTED_FIELD) true eq_refl).
      cbn [p_fields p_field parse_add_char set_state].
      rewrite append_assoc. reflexivity.
    + cbn [append stream]. unfold parse_process_char at 1. rewrite Hp, Q.
      assert (Step : forall b,
                 stream (double_quotes f ++ String QUOTECHAR t)
                        (parse_add_char p c IN_QUOTED_FIELD) b
                 = stream t (mk_parser QUOTE_IN_QUOTED_FIELD (p_fields p)
                                       (p_field p ++ String c f)%string) true).
      { intro b. rewrite (IH t (parse_add_char p c IN_QUOTED_FIELD) b eq_refl).
        cbn [p_fields p_field parse_add_char]. rewrite append_assoc. reflexivity. }
      destruct (Ascii.eqb c LF || Ascii.eqb c CR && negb (starts_with_LF _));
        [| apply Step].
      unfold end_line, parse_process_char. cbn [p_state parse_add_char].
      cbn [in_start_record p_state]. apply Step.
Qed.

(** a field as it is written, followed by a comma *)
Lemma stream_field_comma (f t : string) (p : parser) (pending : bool) :
  p_state p = START_RECORD \/ p_state p = START_FIELD ->
  p_field p = "" ->
  stream (write_field f ++ String DELIMITER t) p pending
  = stream t (mk_parser START_FIELD (p_fields p ++ [f]) "") true.
Proof.
  intros Hp Hfd. unfold write_field. destruct (has_special f) eqn:S.
  - cbn [append stream].
    assert (F : parse_process_char p (Some QUOTECHAR) = Some (set_state p IN_QUOTED_FIELD)).
    { unfold parse_process_char, start_field. destruct Hp as [-> | ->]; reflexivity. }
    rewrite F. change (Ascii.eqb QUOTECHAR LF) with false.
    change (Ascii.eqb QUOTECHAR CR) with false. cbn [orb andb].
    rewrite append_assoc. cbn [append]. rewrite (stream_quoted f _ (set_state p IN_QUOTED_FIELD) true eq_refl).
    cbn [p_fields p_field set_state]. rewrite Hfd. cbn [append stream].
    unfold parse_process_char. cbn [p_state].
    change (Ascii.eqb DELIMITER QUOTECHAR) with false. rewrite Ascii.eqb_refl.
    change (Ascii.eqb DELIMITER LF) with false.
    change (Ascii.eqb DELIMITER CR) with false. cbn [orb andb]. reflexivity.
  - destruct f as [| c f].
    + cbn [append stream].
      assert (F : parse_process_char p (Some DELIMITER)
                  = Some (parse_save_field p START_FIELD)).
      { unfold parse_process_char, start_field. destruct Hp as [-> | ->]; reflexivity. }
      rewrite F. change (Ascii.eqb DELIMITER LF) with false.
      change (Ascii.eqb DELIMITER CR) with false. cbn [orb andb].
      unfold parse_save_field. now rewrite Hfd.
    + rewrite (stream_plain_start c f _ p pending S Hp Hfd). cbn [stream].
      unfold parse_process_char. cbn [p_state].
      change (is_newline DELIMITER) with false. rewrite Ascii.eqb_refl.
      change (Ascii.eqb DELIMITER LF) with false.
      change (Ascii.eqb DELIMITER CR) with false. cbn [orb andb]. reflexivity.
Qed.

(** the end of a row, once its last field has been saved *)
Lemma stream_crlf_saved (t : string) (fs : list string) (pending : bool) :
  stream (String LF t) (mk_parser EAT_CRNL fs "") pending
  = option_map (cons fs) (stream t parse_reset false).
Proof. reflexivity. Qed.

(** a field as it is written, followed by the line terminator: the
    record is complete *)
Lemma stream_field_crlf (f t : string) (p : parser) (pending : bool) :
  p_state p = START_FIELD
  \/ (p_state p = START_RECORD /\ write_field f <> "") ->
  p_field p = "" ->
  stream (write_field f ++ CRLF ++ t) p pending
  = option_map (cons (p_fields p ++ [f])) (stream t parse_reset false).
Proof.
  intros Hp Hfd. unfold write_field in *. destruct (has_special f) eqn:S.
  - cbn [append stream].
    assert (F : parse_process_char p (Some QUOTECHAR) = Some (set_state p IN_QUOTED_FIELD)).
    { unfold parse_process_char, start_field. destruct Hp as [-> | [-> _]]; reflexivity. }
    rewrite F. change (Ascii.eqb QUOTECHAR LF) with false.
    change (Ascii.eqb QUOTECHAR CR) with false. cbn [orb andb].
    rewrite append_assoc. cbn [append]. rewrite (stream_quoted f _ (set_state p IN_QUOTED_FIELD) true eq_refl).
    cbn [p_fields p_field set_state]. rewrite Hfd. cbn [append CRLF].
    reflexivity.
  - destruct f as [| c f].
    + destruct Hp as [Hp | [_ Hp]]; [| now elim Hp].
      cbn [append CRLF stream]. unfold parse_process_char at 1. rewrite Hp.
      cbn. unfold parse_save_field. rewrite Hfd. reflexivity.
    + assert (Hp' : p_state p = START_RECORD \/ p_state p = START_FIELD)
        by (destruct Hp as [Hp | [Hp _]]; auto).
      rewrite (stream_plain_start c f _ p pending S Hp' Hfd). reflexivity.
Qed.

(** the fields of a row after the first, then the line terminator *)
Lemma stream_fields (fs : list string) :
  forall (f t : string) (p : parser) (pending : bool),
    p_state p = START_FIELD ->
    p_field p = "" ->
    stream (join_fields (f :: fs) ++ CRLF ++ t) p pending
    = option_map (cons (p_fields p ++ f :: fs)) (stream t parse_reset false).
Proof.
  induction fs as [| g fs IH]; intros f t p pending Hp Hfd.
  - cbn [join_fields]. apply stream_field_crlf; auto.
  - change (join_fields (f :: g :: fs))
      with (write_field f ++ String DELIMITER (join_fields (g :: fs)))%string.
    rewrite append_assoc. cbn [append].
    rewrite stream_field_comma by auto.
    rewrite (IH g t (mk_parser START_FIELD (p_fields p ++ [f]) "") true eq_refl eq_refl).
    cbn [p_fields].
    now rewrite <- app_assoc.
Qed.

Lemma write_field_not_empty (f : string) : f <> "" -> write_field f <> "".
Proof.
  intro H. unfold write_field. destruct (has_special f); [discriminate | exact H].
Qed.

(** one row *)
Lemma stream_writerow (r : list string) (t : string) :
  stream (writerow r ++ t) parse_reset false
  = option_map (cons r) (stream t parse_reset false).
Proof.
  unfold writerow. rewrite append_assoc. fold CRLF.
  destruct r as [| f [| g fs]].
  - reflexivity.
  - destruct f as [| c f]; [reflexivity |].
    cbn [join_fields].
    apply (stream_field_crlf (String c f) t parse_reset false); [| reflexivity].
    right. split; [reflexivity |]. now apply write_field_not_empty.
  - assert (E : match f :: g :: fs with
                | [""] => String QUOTECHAR (String QUOTECHAR "")
                | _ => join_fields (f :: g :: fs)
                end = join_fields (f :: g :: fs)) by (destruct f; reflexivity).
    rewrite E.
    change (join_fields (f :: g :: fs))
      with (write_field f ++ String DELIMITER (join_fields (g :: fs)))%string.
    rewrite append_assoc. cbn [append].
    rewrite stream_field_comma by (auto; reflexivity).
    now rewrite (stream_fields fs g t (mk_parser START_FIELD (p_fields parse_reset ++ [f]) "")
                   true eq_refl eq_refl).
Qed.

Lemma stream_writerows (rows : list (list string)) (t : string) :
  stream (writerows rows ++ t) parse_reset false
  = option_map (app rows) (stream t parse_reset false).
Proof.
  induction rows as [| r rows IH]; cbn [writerows append].
  - now destruct (stream t parse_reset false).
  - rewrite append_assoc, stream_writerow, IH.
    now destruct (stream t parse_reset false).
Qed.

(** whatever follows them in the file, the rows [writerows] wrote are
    the first records [csv.reader] yields, cell for cell *)
Theorem reader_writerows (rows : list (list string)) (t : string) :
  reader (writerows rows ++ t) = option_map (app rows) (reader t).
Proof. rewrite !reader_stream. apply stream_writerows. Qed.

Lemma writerows_app (a b : list (list string)) :
  writerows (a ++ b) = (writerows a ++ writerows b)%string.
Proof.
  induction a as [| r a IH]; cbn [writerows app append]; [reflexivity |].
  now rewrite IH, append_assoc.
Qed.

(** *** The file *)

Lemma writerows_not_empty (r : row) (rows : list row) :
  writerows (r :: rows) <> "".
Proof.
  cbn [writerows]. unfold writerow.
  destruct (match r with [""] => _ | _ => _ end); discriminate.
Qed.

Lemma append_not_empty (s t : string) : t <> "" -> (s ++ t)%string <> "".
Proof. destruct s; [now cbn | discriminate]. Qed.

(** what [csv.writer] wrote is read back as it was written *)
Lemma records_written (rows : list row) : records (written rows) = rows.
Proof.
  unfold records, written.
  rewrite <- (append_nil_r (writerows rows)), reader_writerows.
  cbn. apply app_nil_r.
Qed.

(** appending to a file [csv.writer] wrote gives the file it would have
    written in one go; the header comes first in an empty file *)
Lemma write_rows_written (l rows : list row) :
  write_rows (written l) rows
  = written (l ++ match rows with
                  | [] => []
                  | _ => match l with [] => [HEADER] | _ => [] end ++ rows
                  end).
Proof.
  destruct rows as [| r rows]; [now rewrite app_nil_r |].
  unfold write_rows, written. cbn [negb orb]. f_equal.
  destruct l as [| r0 l].
  - reflexivity.
  - destruct (writerows (r0 :: l)) eqn:E; [now elim (writerows_not_empty r0 l) |].
    cbv iota. rewrite <- E. rewrite (writerows_app (r0 :: l)). reflexivity.
Qed.

Lemma write_rows_missing (r : row) (rows : list row) :
  write_rows None (r :: rows) = written (HEADER :: r :: rows).
Proof.
  unfold write_rows, written. cbn [negb orb append writerows]. reflexivity.
Qed.

(** two calls of [write_rows] in a row leave what one call with all the
    rows leaves, whatever the file holds *)
Lemma write_rows_twice (path : file) (rows1 rows2 : list row) :
  write_rows (write_rows path rows1) rows2 = write_rows path (rows1 ++ rows2).
Proof.
  destruct rows1 as [| r1 rows1]; [reflexivity |].
  destruct rows2 as [| r2 rows2]; [now rewrite app_nil_r |].
  cbn [app]. unfold write_rows at 2 3.
  set (text := ((match path with Some s => s | None => "" end)
                ++ (if negb match path with Some _ => true | None => false end
                       || match path with Some "" => true | _ => false end
                    then writerow HEADER else ""))%string).
  assert (E1 : forall rows,
             ((match path with Some s => s | None => "" end)
              ++ (if negb match path with Some _ => true | None => false end
                     || match path with Some "" => true | _ => false end
                  then writerow HEADER else "")
              ++ writerows rows)%string
             = (text ++ writerows rows)%string).
  { intro rows. unfold text. now rewrite append_assoc. }
  rewrite !E1. unfold write_rows. cbn [negb orb].
  destruct (text ++ writerows (r1 :: rows1))%string eqn:E.
  - exfalso. revert E. apply append_not_empty, writerows_not_empty.
  - rewrite <- E. cbn [append]. f_equal.
    change (r1 :: rows1 ++ r2 :: rows2) with ((r1 :: rows1) ++ r2 :: rows2).
    now rewrite writerows_app, append_assoc.
Qed.

(** [write_rows] only appends: the content the file had stays in front,
    character for character *)
Lemma write_rows_appends (old : string) (rows : list row) :
  exists added, write_rows (Some old) rows = Some (old ++ added)%string.
Proof.
  destruct rows as [| r rows].
  - exists "". cbn [write_rows]. now rewrite append_nil_r.
  - unfold write_rows. eexists. reflexivity.
Qed.

(** whatever a turn of the loop does to the file is one [write_rows] *)
Lemma iteration_writes (e : Z) (resp : response) (st : state) :
  exists rows,
    out_file (state_of (iteration e resp st)) = write_rows (out_file st) rows.
Proof.
  destruct (response_cases resp) as [H | [H | H]].
  - rewrite transient_iteration by exact H. now exists [].
  - rewrite fatal_iteration by exact H. now exists [].
  - destruct (successful_iteration e resp st H) as (code & data & -> & ->).
    cbv zeta. destruct data as [| e0 data'].
    + now exists [].
    + destruct (process_entries _ _ _) as [a | x].
      * simpl. eauto.
      * now exists [].
Qed.

Lemma reaches_writes up sym e st0 n st :
  reaches up sym e st0 n st ->
  exists rows, out_file st = write_rows (out_file st0) rows.
Proof.
  induction 1 as [| n st st' _ [x IH] _ Hit].
  - now exists [].
  - destruct (iteration_writes e (up n (params sym e st)) st) as [y Hy].
    rewrite Hit in Hy. simpl in Hy. exists (x ++ y).
    now rewrite Hy, IH, write_rows_twice.
Qed.

(** on a file [csv.writer] wrote, or on no file, the records only grow *)
Lemma write_rows_extends (f : file) (rows : list row) :
  written_by_csv f ->
  written_by_csv (write_rows f rows)
  /\ exists extra, records (write_rows f rows) = records f ++ extra.
Proof.
  intros [-> | [l ->]].
  - destruct rows as [| r rows].
    + split; [now left |]. exists []. reflexivity.
    + rewrite write_rows_missing. split; [right; eauto |].
      rewrite records_written. cbn. eauto.
  - rewrite write_rows_written. split; [right; eauto |].
    rewrite !records_written. eauto.
Qed.

(** C4.  On a fatal response (a 4xx or 5xx status other than 429) the turn
    raises [SystemExit] at once and changes nothing: whatever the body of the
    response, the file is the one the earlier turns left, which is the
    initial file with the rows written by those turns appended: the
    content the initial file had stays in front, character for character,
    and when the initial file was written by [csv.writer], or did not
    exist, the records are those of the initial file followed by those
    rows. *)
Theorem C4_fatal_response_aborts_and_persists_nothing :
  forall (up : upstream) (sym : string) (e : Z) (st0 st : state) (n fuel : nat)
         (code : Z) (data : list entry),
    raises_for_status code = true ->
    code <> 429 ->
    reaches up sym e st0 n st ->
    start_open_ms st < e ->
    up n (params sym e st) = Response code data ->
    iteration e (Response code data) st = Abort SystemExit st
    /\ loop (S fuel) up sym e n st = Some (st, Raised SystemExit)
    /\ (exists rows, out_file st = write_rows (out_file st0) rows)
    /\ (forall old, out_file st0 = Some old ->
                    exists added, out_file st = Some (old ++ added)%string)
    /\ (written_by_csv (out_file st0) ->
        exists earlier, records (out_file st) = records (out_file st0) ++ earlier).
Proof.
  intros up sym e st0 st n fuel code data Hs Hc Hr Hlt Hup.
  assert (F : fatal (Response code data) = true).
  { simpl. rewrite Hs. destruct (Z.eqb_spec code 429); [contradiction | reflexivity]. }
  split; [now apply fatal_iteration |].
  split.
  { simpl. apply Z.ltb_lt in Hlt. rewrite Hlt, Hup.
    rewrite (fatal_iteration e _ st F). reflexivity. }
  destruct (reaches_writes _ _ _ _ _ _ Hr) as [rows Hrows].
  split; [now exists rows |].
  split.
  { intros old Hold. rewrite Hrows, Hold. apply write_rows_appends. }
  intro W. rewrite Hrows. now apply write_rows_extends.
Qed.

Lemma C4_witness :
  iteration 86400000 (Response 503 [kline 0]) state0 = Abort SystemExit state0
  /\ loop 1 (always (Response 503 [kline 0])) "BTCUSDT" 86400000 0 state0
     = Some (state0, Raised SystemExit)
  /\ (exists rows, out_file state0 = write_rows (out_file state0) rows)
  /\ (forall old, out_file state0 = Some old ->
                  exists added, out_file state0 = Some (old ++ added)%string)
  /\ (written_by_csv (out_file state0) ->
      exists earlier,
        records (out_file state0) = records (out_file state0) ++ earlier).
Proof.
  apply (C4_fatal_response_aborts_and_persists_nothing
           (always (Response 503 [kline 0])) "BTCUSDT" 86400000 state0 state0
           0 0 503 [kline 0]).
  - reflexivity.
  - discriminate.
  - constructor.
  - reflexivity.
  - reflexivity.
Defined.

(** ** Back-off *)

Lemma init_state (date : string) (path : file) (mr : MinuteRange) (st0 : state) :
  init date path = Ok (mr, st0) ->
  build_minute_range date = Ok mr
  /\ backoff st0 = 1 /\ slept st0 = [] /\ has_progress st0 = false
  /\ out_file st0 = path.
Proof.
  unfold init. destruct (build_minute_range date) as [r | x]; simpl; [| discriminate].
  destruct (truthy_str (read_last_timestamp path)).
  - destruct (read_last_timestamp path) as [ts |]; [| discriminate].
    destruct (iso8601_to_ms ts) as [c | x]; simpl; [| discriminate].
    destruct (ensure_minute_alignment c) as [u | x]; simpl; [| discriminate].
    destruct (minute_open_from_close c) as [o | x]; simpl; [| discriminate].
    intro H; injection H as <- <-. repeat split.
  - intro H; injection H as <- <-. repeat split.
Qed.

Lemma back_off_in_range (st : state) :
  backoff_in_range st -> backoff_in_range (back_off st).
Proof. unfold backoff_in_range, back_off, BACKOFF_CAP. simpl. lia. Qed.

Lemma successful_resets_backoff (e : Z) (resp : response) (st : state) :
  successful resp = true -> backoff (state_of (iteration e resp st)) = 1.
Proof.
  intro H. destruct (successful_iteration e resp st H) as (code & data & -> & ->).
  cbv zeta. destruct data as [| e0 data']; [reflexivity |].
  destruct (process_entries _ _ _); reflexivity.
Qed.

Lemma iteration_in_range (e : Z) (resp : response) (st : state) :
  backoff_in_range st -> backoff_in_range (state_of (iteration e resp st)).
Proof.
  intro I. destruct (response_cases resp) as [H | [H | H]].
  - rewrite transient_iteration by exact H. now apply back_off_in_range.
  - rewrite fatal_iteration by exact H. exact I.
  - unfold backoff_in_range. rewrite successful_resets_backoff by exact H. lia.
Qed.

Lemma reaches_in_range up sym e st0 n st :
  backoff_in_range st0 -> reaches up sym e st0 n st -> backoff_in_range st.
Proof.
  intros I0 R. induction R as [| n st st' _ IH _ Hit]; [exact I0 |].
  pose proof (iteration_in_range e (up n (params sym e st)) st IH) as H.
  now rewrite Hit in H.
Qed.

Lemma loop_in_range fuel up sym e :
  forall n st st' how,
    backoff_in_range st ->
    loop fuel up sym e n st = Some (st', how) -> backoff_in_range st'.
Proof.
  induction fuel as [| fuel IH]; intros n st st' how I; simpl; [discriminate |].
  destruct (start_open_ms st <? e).
  - pose proof (iteration_in_range e (up n (params sym e st)) st I) as H.
    destruct (iteration e (up n (params sym e st)) st) as [s | s | x s];
      simpl in H.
    + now apply IH.
    + intro E; injection E as <- <-; exact H.
    + intro E; injection E as <- <-; exact H.
  - intro E; injection E as <- <-; exact I.
Qed.

Lemma loop_retries fuel up sym e n st :
  start_open_ms st < e ->
  transient (up n (params sym e st)) = true ->
  loop (S fuel) up sym e n st = loop fuel up sym e (S n) (back_off st).
Proof.
  intros Hlt T. simpl. apply Z.ltb_lt in Hlt. rewrite Hlt.
  now rewrite transient_iteration.
Qed.

(** C7.  In a run started by [init], before every request the back-off is
    between 1 and 60 seconds, and so it is in the state the loop ends in.
    When the answer is a transient failure (a network error or status 429)
    the turn sleeps for the current back-off, replaces it by
    [min (2 * backoff) 60], leaves the cursor where it is and goes round
    again: the loop has not ended.  When the answer is a successful
    response the back-off is 1 afterwards. *)
Theorem C7_backoff_doubles_capped_and_resets :
  forall (date : string) (path : file) (mr : MinuteRange) (st0 : state)
         (up : upstream) (sym : string) (n : nat) (st : state),
    init date path = Ok (mr, st0) ->
    reaches up sym (end_ms mr) st0 n st ->
    start_open_ms st < end_ms mr ->
    1 <= backoff st <= 60
    /\ (transient (up n (params sym (end_ms mr) st)) = true ->
        iteration (end_ms mr) (up n (params sym (end_ms mr) st)) st
        = Continue (back_off st)
        /\ slept (back_off st) = slept st ++ [backoff st]
        /\ backoff (back_off st) = Z.min (2 * backoff st) 60
        /\ start_open_ms (back_off st) = start_open_ms st
        /\ forall fuel,
             loop (S fuel) up sym (end_ms mr) n st
             = loop fuel up sym (end_ms mr) (S n) (back_off st))
    /\ (successful (up n (params sym (end_ms mr) st)) = true ->
        backoff (state_of (iteration (end_ms mr)
                             (up n (params sym (end_ms mr) st)) st)) = 1)
    /\ (forall fuel st' how,
          loop fuel up sym (end_ms mr) n st = Some (st', how) ->
          1 <= backoff st' <= 60).
Proof.
  intros date path mr st0 up sym n st Hinit R Hlt.
  destruct (init_state _ _ _ _ Hinit) as (_ & B0 & _).
  assert (I : backoff_in_range st).
  { apply (reaches_in_range up sym (end_ms mr) st0 n); [| exact R].
    unfold backoff_in_range. lia. }
  split; [exact I |]. split; [| split].
  - intro T. split; [now apply transient_iteration |].
    split; [reflexivity |]. split; [| split; [reflexivity |]].
    + unfold back_off, BACKOFF_CAP. cbn [backoff]. now rewrite Z.mul_comm.
    + intro fuel. now apply loop_retries.
  - apply successful_resets_backoff.
  - intros fuel st' how. now apply loop_in_range.
Qed.

(** ** Progress and termination *)

Lemma next_open_ms_advances (data : list entry) (e0 : entry) (cur : Z) :
  cur < next_open_ms data e0 cur
  /\ next_open_ms data e0 cur
     = if e_open_time (last data e0) + 60000 <=? cur
       then cur + 60000 else e_open_time (last data e0) + 60000.
Proof.
  unfold next_open_ms. split; [| reflexivity].
  destruct (Z.leb_spec (e_open_time (last data e0) + 60000) cur); lia.
Qed.

Lemma successful_continue (e : Z) (resp : response) (st st' : state) :
  successful resp = true ->
  iteration e resp st = Continue st' ->
  exists e0 rest,
    body resp = e0 :: rest
    /\ start_open_ms st' = next_open_ms (body resp) e0 (start_open_ms st).
Proof.
  intros H Hit.
  destruct (successful_iteration e resp st H) as (code & data & -> & E).
  rewrite E in Hit. cbv zeta in Hit. destruct data as [| e0 rest]; [discriminate |].
  destruct (process_entries _ _ _) as [a | x]; [| discriminate].
  injection Hit as <-. exists e0, rest. split; reflexivity.
Qed.

Lemma params_back_off sym e st : params sym e (back_off st) = params sym e st.
Proof. reflexivity. Qed.

Section Termination.

Variable up : upstream.
Variable sym : string.
Variable e : Z.

Lemma halts_past_end n st : e <= start_open_ms st -> halts up sym e n st.
Proof.
  intro H. exists 1%nat, (st, Returned). simpl.
  destruct (Z.ltb_spec (start_open_ms st) e); [lia | reflexivity].
Qed.

Lemma halts_step n st :
  start_open_ms st < e ->
  (forall st', iteration e (up n (params sym e st)) st = Continue st' ->
               halts up sym e (S n) st') ->
  halts up sym e n st.
Proof.
  intros Hlt K. apply Z.ltb_lt in Hlt.
  destruct (iteration e (up n (params sym e st)) st) as [s | s | x s] eqn:Hit.
  - destruct (K s eq_refl) as (fuel & r & Hr).
    exists (S fuel), r. simpl. now rewrite Hlt, Hit.
  - exists 1%nat, (s, Returned). simpl. now rewrite Hlt, Hit.
  - exists 1%nat, (s, Raised x). simpl. now rewrite Hlt, Hit.
Qed.

(** waiting out the transient failures that precede an answer *)
Lemma halts_after_retries (bound : nat) :
  (forall n st, within e bound st -> halts up sym e n st) ->
  forall k n st,
    within e (S bound) st ->
    transient (up (n + k)%nat (params sym e st)) = false ->
    halts up sym e n st.
Proof.
  intros IH k. induction k as [| k IHk]; intros n st W T.
  - destruct (Z.lt_ge_cases (start_open_ms st) e) as [Hlt | Hge];
      [| now apply halts_past_end].
    apply halts_step; [exact Hlt |]. intros st' Hit.
    rewrite Nat.add_0_r in T.
    assert (Sx : successful (up n (params sym e st)) = true
                 \/ fatal (up n (params sym e st)) = true).
    { destruct (response_cases (up n (params sym e st))) as [H | [H | H]];
        [congruence | now right | now left]. }
    destruct Sx as [Sx | F].
    + destruct (successful_continue _ _ _ _ Sx Hit) as (e0 & rest & _ & Hc).
      apply IH. unfold within in *.
      pose proof (next_open_ms_advances
                    (body (up n (params sym e st))) e0 (start_open_ms st)) as [A _].
      lia.
    + rewrite fatal_iteration in Hit by exact F. discriminate.
  - destruct (Z.lt_ge_cases (start_open_ms st) e) as [Hlt | Hge];
      [| now apply halts_past_end].
    apply halts_step; [exact Hlt |]. intros st' Hit.
    destruct (response_cases (up n (params sym e st))) as [H | [H | H]].
    + rewrite transient_iteration in Hit by exact H. injection Hit as <-.
      apply IHk.
      * exact W.
      * rewrite params_back_off.
        now replace (S n + k)%nat with (n + S k)%nat by lia.
    + rewrite fatal_iteration in Hit by exact H. discriminate.
    + destruct (successful_continue _ _ _ _ H Hit) as (e0 & rest & _ & Hc).
      apply IH. unfold within in *.
      pose proof (next_open_ms_advances
                    (body (up n (params sym e st))) e0 (start_open_ms st)) as [A _].
      lia.
Qed.

Hypothesis answered : eventually_answered up.

Lemma halts_within (bound : nat) : forall n st, within e bound st -> halts up sym e n st.
Proof.
  induction bound as [| bound IH]; intros n st W.
  - apply halts_past_end. unfold within in W. lia.
  - destruct (answered n (params sym e st)) as (m & Hm & T).
    apply (halts_after_retries bound IH (m - n) n st W).
    now replace (n + (m - n))%nat with m by lia.
Qed.

Lemma loop_halts (n : nat) (st : state) : halts up sym e n st.
Proof.
  apply (halts_within (Z.to_nat (e - start_open_ms st))).
  unfold within. lia.
Qed.

End Termination.

(** C3.  After a successfully fetched non-empty page has been processed,
    the cursor is strictly larger than before: it is the open time of the
    page's last record plus 60000, or, when that does not exceed the old
    cursor, the old cursor plus exactly 60000.  (A turn over a successful
    response goes round again only when its page is non-empty.)  Hence, when
    every request is eventually answered by something other than a transient
    failure, the loop ends from every state and for every window. *)
Theorem C3_cursor_strictly_increases_and_loop_terminates :
  forall (up : upstream) (sym : string) (e : Z),
    eventually_answered up ->
    (forall (resp : response) (st st' : state),
        successful resp = true ->
        iteration e resp st = Continue st' ->
        exists e0 rest,
          body resp = e0 :: rest
          /\ start_open_ms st < start_open_ms st'
          /\ start_open_ms st'
             = if e_open_time (last (body resp) e0) + 60000 <=? start_open_ms st
               then start_open_ms st + 60000
               else e_open_time (last (body resp) e0) + 60000)
    /\ (forall (n : nat) (st : state),
          exists fuel r, loop fuel up sym e n st = Some r).
Proof.
  intros up sym e A. split.
  - intros resp st st' Sx Hit.
    destruct (successful_continue _ _ _ _ Sx Hit) as (e0 & rest & Hb & Hc).
    exists e0, rest. split; [exact Hb |].
    destruct (next_open_ms_advances (body resp) e0 (start_open_ms st)) as [H1 H2].
    rewrite Hc. split; [exact H1 | exact H2].
  - intros n st. now apply loop_halts.
Qed.

Lemma C7_witness :
  1 <= 4 <= 60
  /\ iteration 1704153600000 (Response 200 [])
       (back_off (back_off fresh_2024))
     = Break (mk_state 1704067200000 None 1 false None [1; 2]).
Proof.
  pose proof (C7_backoff_doubles_capped_and_resets
                "2024-01-01" None day_2024 fresh_2024 flaky "BTCUSDT" 2
                (back_off (back_off fresh_2024))) as H.
  destruct H as (I & _ & Hs & _).
  - vm_compute. reflexivity.
  - apply reaches_turn with (st := back_off fresh_2024);
      [apply reaches_turn with (st := fresh_2024);
       [apply reaches_start | reflexivity | reflexivity]
      | reflexivity | reflexivity].
  - reflexivity.
  - split; [exact I | reflexivity].
Defined.

Lemma every_minute_answers : eventually_answered every_minute.
Proof. intros n rq. exists n. split; [apply Nat.le_refl | reflexivity]. Defined.

Lemma C3_witness :
  (exists fuel r,
      loop fuel every_minute "BTCUSDT" 1704153600000 0 fresh_2024 = Some r)
  /\ (exists st',
        iteration 1704153600000 (Response 200 [kline 1704067200000])
                  (mk_state 1704067260000 None 1 false None [])
        = Continue st'
        /\ 1704067260000 < start_open_ms st'
        /\ start_open_ms st' = 1704067320000).
Proof.
  destruct (C3_cursor_strictly_increases_and_loop_terminates
              every_minute "BTCUSDT" 1704153600000 every_minute_answers)
    as [Hstep Hhalt].
  split.
  - exact (Hhalt O fresh_2024).
  - destruct (iteration 1704153600000 (Response 200 [kline 1704067200000])
                        (mk_state 1704067260000 None 1 false None []))
      as [st' | st' | x st'] eqn:Hit; try (vm_compute in Hit; discriminate).
    exists st'. split; [reflexivity |].
    destruct (Hstep (Response 200 [kline 1704067200000])
                    (mk_state 1704067260000 None 1 false None []) st'
                    eq_refl Hit) as (e0 & rest & Hb & Hlt & Hc).
    injection Hb as <- <-. split; [exact Hlt | exact Hc].
Defined.

(** ** Accepting and discarding the records of a page *)

(** what a turn of the [for] loop does with a minute-aligned record, the
    last accepted close being absent or non-zero *)
Lemma process_entry_aligned (e : Z) (a : page_acc) (en : entry) :
  e_open_time en mod 60000 = 0 ->
  p_last_close_ms a <> Some 0 ->
  process_entry e a en
  = if (e <? e_open_time en + 60000)
       || match p_last_close_ms a with
          | Some l => e_open_time en + 60000 <=? l
          | None => false
          end
    then Ok a
    else
      ts <- ms_to_iso8601 (e_open_time en + 60000) ;;
      Ok (mk_page_acc (Some (e_open_time en + 60000))
                      (p_rows a ++ [row_of ts en]) true).
Proof.
  intros Hal Hnz. unfold process_entry.
  rewrite minute_close_from_open_aligned by exact Hal. simpl.
  destruct (e <? e_open_time en + 60000); [reflexivity |]. simpl.
  destruct (p_last_close_ms a) as [l |]; simpl; [| reflexivity].
  destruct (Z.eqb_spec l 0) as [-> | _]; [congruence | reflexivity].
Qed.

(** with a last accepted close of [0] the comparison is skipped *)
Lemma process_entry_zero (e : Z) (rows : list row) (hp : bool) (en : entry) :
  process_entry e (mk_page_acc (Some 0) rows hp) en
  = (close_ms <- minute_close_from_open (e_open_time en) ;;
     if e <? close_ms then Ok (mk_page_acc (Some 0) rows hp)
     else
       ts <- ms_to_iso8601 close_ms ;;
       Ok (mk_page_acc (Some close_ms) (rows ++ [row_of ts en]) true)).
Proof. reflexivity. Qed.

Lemma process_entry_misaligned (e : Z) (a : page_acc) (en : entry) :
  e_open_time en mod 60000 <> 0 -> process_entry e a en = Raise ValueError.
Proof.
  intro H. unfold process_entry.
  now rewrite minute_close_from_open_misaligned.
Qed.

(** C10.  The comparison with the last accepted close is made only when
    that value is present and non-zero.  With a last accepted close of 0 a
    record is discarded only for closing after the window.  So it is after
    resuming from a series whose last row closes at the epoch, and after
    accepting a kline that closes at the epoch: a record whose close is not
    later than the last accepted one is accepted. *)
Theorem C10_zero_last_close_skips_duplicate_check :
  (forall (e l : Z) (rows : list row) (hp : bool) (en : entry),
      process_entry e (mk_page_acc (Some l) rows hp) en
      = (close_ms <- minute_close_from_open (e_open_time en) ;;
         if (e <? close_ms) || (negb (l =? 0) && (close_ms <=? l))
         then Ok (mk_page_acc (Some l) rows hp)
         else
           ts <- ms_to_iso8601 close_ms ;;
           Ok (mk_page_acc (Some close_ms) (rows ++ [row_of ts en]) true)))
  /\ (forall (e : Z) (rows : list row) (hp : bool) (en : entry),
        process_entry e (mk_page_acc (Some 0) rows hp) en
        = process_entry e (mk_page_acc None rows hp) en
        \/ (process_entry e (mk_page_acc (Some 0) rows hp) en
            = Ok (mk_page_acc (Some 0) rows hp)
            /\ e < e_open_time en + 60000))
  /\ (exists mr st0,
        init "1970-01-01" series_to_epoch = Ok (mr, st0)
        /\ last_close_ms st0 = Some 0
        /\ process_entries (end_ms mr) [kline (-60000)]
             (mk_page_acc (last_close_ms st0) [] false)
           = Ok (mk_page_acc (Some 0)
                   [row_of "1970-01-01T00:00:00.000000Z" (kline (-60000))] true))
  /\ process_entries 86400000 [kline (-60000); kline (-120000)]
       (mk_page_acc None [] false)
     = Ok (mk_page_acc (Some (-60000))
             [row_of "1970-01-01T00:00:00.000000Z" (kline (-60000));
              row_of "1969-12-31T23:59:00.000000Z" (kline (-120000))] true).
Proof.
  split; [| split; [| split]].
  - intros e l rows hp en. unfold process_entry. simpl.
    destruct (minute_close_from_open (e_open_time en)) as [c | x]; simpl;
      [| reflexivity].
    destruct (e <? c); reflexivity.
  - intros e rows hp en. unfold process_entry. simpl.
    destruct (Z.eq_dec (e_open_time en mod 60000) 0) as [Hal | Hal].
    + rewrite minute_close_from_open_aligned by exact Hal. simpl.
      destruct (Z.ltb_spec e (e_open_time en + 60000)).
      * right. split; [reflexivity | assumption].
      * left. reflexivity.
    + left. now rewrite minute_close_from_open_misaligned.
  - eexists. eexists. split; [vm_compute; reflexivity |].
    split; vm_compute; reflexivity.
  - vm_compute. reflexivity.
Qed.

(** C1.  A record whose close is not later than the last accepted close
    has to be discarded, so that no row is written twice.  The code tests
    [last_close_ms] for truth, and 0 is false: with a last accepted close of
    0 the kline that closes at the epoch is accepted again, and a second run
    over 1969-12-31 on a series that ends at the epoch appends the row it
    already holds. *)
Theorem C1_epoch_row_is_written_twice :
  process_entry 0 (mk_page_acc (Some 0) [] false) (kline (-60000))
  = Ok (mk_page_acc (Some 0)
          [row_of "1970-01-01T00:00:00.000000Z" (kline (-60000))] true)
  /\ build_minute_range "1969-12-31" = Ok (mk_MinuteRange (-86400000) 0)
  /\ read_last_timestamp series_to_epoch = Some "1970-01-01T00:00:00.000000Z"
  /\ every_minute 0%nat (mk_request "BTCUSDT" "1m" (-60000) 0 MAX_LIMIT)
     = Response 200 [kline (-60000)]
  /\ fetch_klines 2 every_minute "btcusdt" "1969-12-31" series_to_epoch
     = Some (mk_run
               (written [HEADER;
                         row_at "1970-01-01T00:00:00.000000Z";
                         row_at "1970-01-01T00:00:00.000000Z"])
               [] Returned false).
Proof. repeat split; vm_compute; reflexivity. Qed.

(** C2.  Resuming from a series whose last row closes at [C] has to start
    the cursor at [max start (C - 60000)], remember [C], and accept no
    candle that opens before [C - 60000].  The start is as stated, but when
    [C] is the epoch the remembered close is 0, which the code takes for
    "none": a kline opening at -120000, before [C - 60000 = -60000], is
    accepted and its row appended. *)
Theorem C2_resume_at_epoch_accepts_an_earlier_candle :
  (exists st0,
      init "1970-01-01" series_to_epoch = Ok (mk_MinuteRange 0 86400000, st0)
      /\ iso8601_to_ms "1970-01-01T00:00:00.000000Z" = Ok 0
      /\ minute_open_from_close 0 = Ok (-60000)
      /\ start_open_ms st0 = Z.max 0 (-60000)
      /\ last_close_ms st0 = Some 0)
  /\ e_open_time (kline (-120000)) < -60000
  /\ fetch_klines 2 (once [kline (-120000)]) "btcusdt" "1970-01-01" series_to_epoch
     = Some (mk_run
               (written [HEADER;
                         row_at "1970-01-01T00:00:00.000000Z";
                         row_at "1969-12-31T23:59:00.000000Z"])
               [] Returned false).
Proof.
  split; [| split].
  - eexists. split; [vm_compute; reflexivity |].
    repeat split; vm_compute; reflexivity.
  - reflexivity.
  - vm_compute. reflexivity.
Qed.

(** ** What resuming does guarantee *)

Lemma init_resume (date : string) (path : file) (mr : MinuteRange)
      (ts : string) (c : Z) :
  build_minute_range date = Ok mr ->
  read_last_timestamp path = Some ts ->
  ts <> "" ->
  iso8601_to_ms ts = Ok c ->
  c mod 60000 = 0 ->
  init date path
  = Ok (mr, mk_state (Z.max (start_ms mr) (c - 60000)) (Some c)
                     BACKOFF_SECONDS false path []).
Proof.
  intros Hb Hr Hne Hc Hal. unfold init. rewrite Hb, Hr. simpl.
  destruct ts as [| ch ts']; [congruence |]. rewrite Hc. simpl.
  rewrite ensure_minute_alignment_eq, Hal. simpl.
  rewrite minute_open_from_close_aligned by exact Hal. reflexivity.
Qed.

Lemma process_entry_floor (e c l : Z) (a a' : page_acc) (en : entry) :
  0 < c -> p_last_close_ms a = Some l -> c <= l ->
  process_entry e a en = Ok a' ->
  exists l' extra,
    p_last_close_ms a' = Some l' /\ c <= l'
    /\ p_rows a' = p_rows a ++ extra /\ Forall (closes_after c) extra.
Proof.
  intros Hc Hl Hle. unfold process_entry.
  destruct (minute_close_from_open (e_open_time en)) as [close |] eqn:Hm;
    simpl; [| discriminate].
  assert (close = e_open_time en + 60000) as ->.
  { unfold minute_close_from_open in Hm.
    destruct (ensure_minute_alignment (e_open_time en)); simpl in Hm;
      [now injection Hm | discriminate]. }
  destruct (e <? e_open_time en + 60000).
  { intro H; injection H as <-. exists l, []. rewrite app_nil_r. auto. }
  rewrite Hl. simpl.
  destruct (Z.eqb_spec l 0) as [-> | _]; [lia |]. simpl.
  destruct (Z.leb_spec (e_open_time en + 60000) l) as [Hdup | Hnew].
  { intro H; injection H as <-. exists l, []. rewrite app_nil_r. auto. }
  destruct (ms_to_iso8601 (e_open_time en + 60000)) as [ts |] eqn:Hts;
    simpl; [| discriminate].
  intro H; injection H as <-. simpl.
  exists (e_open_time en + 60000), [row_of ts en].
  repeat split; [lia |]. constructor; [| constructor].
  exists (e_open_time en + 60000), en, ts. repeat split; [exact Hts | lia].
Qed.

Lemma process_entries_floor (e c : Z) (data : list entry) :
  0 < c ->
  forall (a a' : page_acc) (l : Z),
    p_last_close_ms a = Some l -> c <= l ->
    process_entries e data a = Ok a' ->
    exists l' extra,
      p_last_close_ms a' = Some l' /\ c <= l'
      /\ p_rows a' = p_rows a ++ extra /\ Forall (closes_after c) extra.
Proof.
  intro Hc. induction data as [| en data IH]; intros a a' l Hl Hle; simpl.
  - intro H; injection H as <-. exists l, []. rewrite app_nil_r. auto.
  - destruct (process_entry e a en) as [a1 |] eqn:H1; simpl; [| discriminate].
    intro H2.
    destruct (process_entry_floor e c l a a1 en Hc Hl Hle H1)
      as (l1 & x1 & Hl1 & Hle1 & Hr1 & F1).
    destruct (IH a1 a' l1 Hl1 Hle1 H2) as (l2 & x2 & Hl2 & Hle2 & Hr2 & F2).
    exists l2, (x1 ++ x2). repeat split; try assumption.
    + now rewrite Hr2, Hr1, app_assoc.
    + apply Forall_app. now split.
Qed.

(** Resuming after a close [c > 0]: every row the run appends is stamped
    with a close later than [c], so its candle opens at [c - 60000] or
    later. *)
Lemma resumed_run_appends_later_closes up sym e (c : Z) (st0 : state) n st :
  0 < c ->
  last_close_ms st0 = Some c ->
  reaches up sym e st0 n st ->
  exists l extra,
    last_close_ms st = Some l /\ c <= l
    /\ out_file st = write_rows (out_file st0) extra
    /\ Forall (closes_after c) extra.
Proof.
  intros Hc H0 R. induction R as [| n st st' _ IH _ Hit].
  - exists c, []. repeat split; [assumption | lia | constructor].
  - destruct IH as (l & extra & Hl & Hle & Hf & Fx).
    destruct (response_cases (up n (params sym e st))) as [H | [H | H]].
    + rewrite transient_iteration in Hit by exact H. injection Hit as <-.
      exists l, extra. now repeat split.
    + rewrite fatal_iteration in Hit by exact H. discriminate.
    + destruct (successful_iteration e _ st H) as (code & data & _ & E).
      rewrite E in Hit. cbv zeta in Hit.
      destruct data as [| e0 rest]; [discriminate |].
      destruct (process_entries _ _ _) as [a |] eqn:Hp; [| discriminate].
      injection Hit as <-. simpl.
      destruct (process_entries_floor e c (e0 :: rest) Hc
                  (mk_page_acc (last_close_ms st) [] (has_progress st))
                  a l Hl Hle Hp)
        as (l' & x & Hl' & Hle' & Hr & F').
      simpl in Hr. exists l', (extra ++ x). repeat split; try assumption.
      * now rewrite Hr, Hf, write_rows_twice.
      * apply Forall_app. now split.
Qed.

(** ** The calendar: [_ymd2ord] undoes [_ord2ymd] *)

Import Calendar Datetime Bounded.

Lemma all_below_spec (n : nat) (p : Z -> bool) :
  all_below n p = true -> forall k, 0 <= k < Z.of_nat n -> p k = true.
Proof.
  induction n as [| n IH]; simpl; intros H k Hk; [lia |].
  apply andb_prop in H as [H1 H2].
  destruct (Z.eq_dec k (Z.of_nat n)) as [-> | Hne]; [exact H1 |].
  apply IH; [exact H2 | lia].
Qed.

Lemma month_day_correct (leapyear : bool) (n : Z) :
  0 <= n < 365 -> month_day_ok leapyear n = true.
Proof.
  intro H. destruct leapyear.
  - apply (all_below_spec 365 (month_day_ok true)); [vm_compute; reflexivity | lia].
  - apply (all_below_spec 365 (month_day_ok false)); [vm_compute; reflexivity | lia].
Qed.

Lemma mod_eqb_top (v N : Z) :
  0 < v <= N -> (v mod N =? 0) = (v =? N).
Proof.
  intro H. destruct (Z.eqb_spec v N) as [-> | Hne].
  - rewrite Z_mod_same_full. reflexivity.
  - rewrite Z.mod_small by lia. apply Z.eqb_neq. lia.
Qed.

Lemma is_leap_digits (a b c e : Z) :
  0 <= b <= 3 -> 0 <= c <= 24 -> 0 <= e <= 3 ->
  is_leap (a * 400 + 1 + b * 100 + c * 4 + e)
  = (e =? 3) && (negb (c =? 24) || (b =? 3)).
Proof.
  intros Hb Hc He. unfold is_leap.
  set (y := a * 400 + 1 + b * 100 + c * 4 + e).
  assert (M4 : y mod 4 = (e + 1) mod 4).
  { unfold y. replace (a * 400 + 1 + b * 100 + c * 4 + e)
      with (e + 1 + (a * 100 + b * 25 + c) * 4) by ring.
    apply Z.mod_add. lia. }
  assert (M100 : y mod 100 = (c * 4 + e + 1) mod 100).
  { unfold y. replace (a * 400 + 1 + b * 100 + c * 4 + e)
      with (c * 4 + e + 1 + (a * 4 + b) * 100) by ring.
    apply Z.mod_add. lia. }
  assert (M400 : y mod 400 = (b * 100 + c * 4 + e + 1) mod 400).
  { unfold y. replace (a * 400 + 1 + b * 100 + c * 4 + e)
      with (b * 100 + c * 4 + e + 1 + a * 400) by ring.
    apply Z.mod_add. lia. }
  rewrite M4, M100, M400.
  rewrite !mod_eqb_top by lia.
  repeat match goal with
         | |- context [Z.eqb ?x ?y] => destruct (Z.eqb_spec x y)
         end; simpl; try reflexivity; exfalso; lia.
Qed.

Lemma days_before_year_digits (a b c e : Z) :
  0 <= b <= 3 -> 0 <= c <= 24 -> 0 <= e <= 3 ->
  days_before_year (a * 400 + 1 + b * 100 + c * 4 + e)
  = a * 146097 + b * 36524 + c * 1461 + e * 365.
Proof.
  intros Hb Hc He. unfold days_before_year. cbv zeta.
  replace (a * 400 + 1 + b * 100 + c * 4 + e - 1)
    with (a * 400 + b * 100 + c * 4 + e) by ring.
  set (y := a * 400 + b * 100 + c * 4 + e).
  assert (D4 : y / 4 = a * 100 + b * 25 + c).
  { symmetry. apply (Z.div_unique y 4 _ e); [lia | unfold y; ring]. }
  assert (D100 : y / 100 = a * 4 + b).
  { symmetry. apply (Z.div_unique y 100 _ (c * 4 + e)); [lia | unfold y; ring]. }
  assert (D400 : y / 400 = a).
  { symmetry. apply (Z.div_unique y 400 _ (b * 100 + c * 4 + e));
      [lia | unfold y; ring]. }
  rewrite D4, D100, D400. unfold y. ring.
Qed.

(** the date [_ord2ymd] returns is a date of the calendar, and [_ymd2ord]
    maps it back *)
Lemma ord2ymd_correct (n : Z) :
  let '(y, m, d) := ord2ymd n in
  ymd2ord y m d = n /\ 1 <= m <= 12 /\ 1 <= d <= days_in_month y m
  /\ 0 <= y - ((n - 1) / 146097 * 400 + 1) <= 399.
Proof.
  unfold ord2ymd, DI400Y, DI100Y, DI4Y. cbv zeta.
  set (a := (n - 1) / 146097).
  set (r400 := (n - 1) mod 146097).
  set (b := r400 / 36524). set (r100 := r400 mod 36524).
  set (c := r100 / 1461). set (r4 := r100 mod 1461).
  set (e := r4 / 365). set (doy := r4 mod 365).
  assert (Hn : n - 1 = a * 146097 + r400)
    by (unfold a, r400; pose proof (Z.div_mod (n - 1) 146097); lia).
  assert (B400 : 0 <= r400 < 146097) by (apply Z.mod_pos_bound; lia).
  assert (H400 : r400 = b * 36524 + r100)
    by (unfold b, r100; pose proof (Z.div_mod r400 36524); lia).
  assert (B100 : 0 <= r100 < 36524) by (apply Z.mod_pos_bound; lia).
  assert (H100 : r100 = c * 1461 + r4)
    by (unfold c, r4; pose proof (Z.div_mod r100 1461); lia).
  assert (B4 : 0 <= r4 < 1461) by (apply Z.mod_pos_bound; lia).
  assert (H4 : r4 = e * 365 + doy)
    by (unfold e, doy; pose proof (Z.div_mod r4 365); lia).
  assert (Bd : 0 <= doy < 365) by (apply Z.mod_pos_bound; lia).
  assert (Bb : 0 <= b <= 4) by lia.
  assert (Bc : 0 <= c <= 24) by lia.
  assert (Be : 0 <= e <= 4) by lia.
  clearbody a r400 b r100 c r4 e doy.
  destruct ((e =? 4) || (b =? 4)) eqn:Special.
  - (* the last day of a leap year *)
    assert (Hy : a * 400 + 1 + b * 100 + c * 4 + e - 1
                 = a * 400 + 1 + (b * 100 + c * 4 + e - 4) / 100 * 100
                   + ((b * 100 + c * 4 + e - 4) mod 100) / 4 * 4 + 3
                 /\ n = a * 146097 + ((b * 100 + c * 4 + e - 4) / 100) * 36524
                        + ((b * 100 + c * 4 + e - 4) mod 100) / 4 * 1461
                        + 3 * 365 + 366).
    { apply orb_prop in Special as [E | E]; apply Z.eqb_eq in E.
      - assert (e = 4 /\ doy = 0 /\ c <= 23 /\ b <= 3) as (-> & -> & Hc23 & Hb3)
          by lia.
        replace (b * 100 + c * 4 + 4 - 4) with (c * 4 + b * 100) by ring.
        rewrite Z.div_add, Z.mod_add by lia.
        rewrite (Z.div_small (c * 4)), (Z.mod_small (c * 4)) by lia.
        rewrite Z.div_mul by lia. lia.
      - assert (b = 4 /\ c = 0 /\ e = 0 /\ doy = 0) as (-> & -> & -> & ->) by lia.
        replace (4 * 100 + 0 * 4 + 0 - 4) with (96 + 3 * 100) by ring.
        rewrite Z.div_add, Z.mod_add by lia.
        change (96 / 100) with 0. change (96 mod 100 / 4) with 24. lia. }
    destruct Hy as [Hy Hn'].
    set (b' := (b * 100 + c * 4 + e - 4) / 100) in *.
    set (c' := (b * 100 + c * 4 + e - 4) mod 100 / 4) in *.
    assert (Bb' : 0 <= b' <= 3).
    { unfold b'. split; [apply Z.div_pos; lia |].
      apply Z.lt_succ_r. apply Z.div_lt_upper_bound; [lia |].
      apply orb_prop in Special as [E | E]; apply Z.eqb_eq in E; lia. }
    assert (Bc' : 0 <= c' <= 24).
    { unfold c'.
      pose proof (Z.mod_pos_bound (b * 100 + c * 4 + e - 4) 100 ltac:(lia)).
      split; [apply Z.div_pos; lia |].
      apply Z.lt_succ_r. apply Z.div_lt_upper_bound; lia. }
    clearbody b' c'.
    assert (Leap : is_leap (a * 400 + 1 + b' * 100 + c' * 4 + 3) = true).
    { rewrite is_leap_digits by lia. simpl.
      destruct (Z.eqb_spec c' 24) as [-> | _]; [| reflexivity]. simpl.
      apply Z.eqb_eq.
      (* a year ending a century is the last of its four only when the
         century ends a 400-year cycle *)
      apply orb_prop in Special as [E | E]; apply Z.eqb_eq in E; lia. }
    rewrite Hy. unfold ymd2ord, days_before_month, days_in_month.
    rewrite Leap, days_before_year_digits by lia.
    change (DAYS_BEFORE_MONTH 12) with 334. simpl.
    repeat split; try lia.
  - apply orb_false_elim in Special as [E4 B4'].
    apply Z.eqb_neq in E4, B4'.
    pose proof (month_day_correct
                  ((e =? 3) && (negb (c =? 24) || (b =? 3))) doy Bd) as MD.
    unfold month_day_ok in MD.
    destruct (month_day _ doy) as [m d].
    repeat (apply andb_prop in MD as [MD ?]).
    repeat match goal with
           | H : (_ <=? _) = true |- _ => apply Z.leb_le in H
           | H : (_ =? _) = true |- _ => apply Z.eqb_eq in H
           end.
    rewrite <- (is_leap_digits a b c e) in * by lia.
    unfold ymd2ord, days_before_month, days_in_month.
    rewrite days_before_year_digits by lia.
    set (y := a * 400 + 1 + b * 100 + c * 4 + e) in *.
    assert (DIM : (if (m =? 2) && is_leap y then 29
                   else nth (Z.to_nat m)
                          [0; 31; 28; 31; 30; 31; 30; 31; 31; 30; 31; 30; 31] 0)
                  = DAYS_IN_MONTH m + (if (m =? 2) && is_leap y then 1 else 0)).
    { destruct ((m =? 2) && is_leap y) eqn:F.
      - apply andb_prop in F as [F _]. apply Z.eqb_eq in F. subst m. reflexivity.
      - unfold DAYS_IN_MONTH. lia. }
    rewrite DIM. subst y. lia.
Qed.

Lemma days_before_year_10000 (y : Z) : 10000 <= y -> 3652059 <= days_before_year y.
Proof.
  intro H. unfold days_before_year. cbv zeta.
  Z.div_mod_to_equations. lia.
Qed.

(** within [date.min .. date.max] the fields [_ord2ymd] returns pass the
    checks of the [datetime] constructor *)
Lemma ord2ymd_fields (n : Z) :
  1 <= n <= MAXORDINAL ->
  let '(y, m, d) := ord2ymd n in
  ymd2ord y m d = n /\ check_date_fields y m d = true.
Proof.
  intro Hn. pose proof (ord2ymd_correct n) as H.
  destruct (ord2ymd n) as [[y m] d].
  destruct H as (Ho & Hm & Hd & Hy). split; [exact Ho |].
  assert (0 <= (n - 1) / 146097) by (apply Z.div_pos; lia).
  assert (y <= 9999).
  { destruct (Z.le_gt_cases 10000 y) as [Hbig | ]; [| lia].
    pose proof (days_before_year_10000 y Hbig) as D.
    unfold ymd2ord, days_before_month in Ho. unfold MAXORDINAL in Hn.
    assert (0 <= DAYS_BEFORE_MONTH m).
    { unfold DAYS_BEFORE_MONTH.
      assert (Hk : (Z.to_nat m <= 12)%nat) by lia.
      revert Hk. generalize (Z.to_nat m) as k. intros k Hk.
      do 13 (destruct k as [| k]; [simpl; lia |]). lia. }
    destruct ((2 <? m) && is_leap y); lia. }
  unfold check_date_fields, MINYEAR, MAXYEAR.
  repeat (apply andb_true_intro; split); apply Z.leb_le; lia.
Qed.

Lemma of_us_correct (n : Z) (tz : option Z) :
  US_PER_DAY <= n < (MAXORDINAL + 1) * US_PER_DAY ->
  exists dt,
    of_us n tz = Some dt /\ to_us dt = n /\ tzinfo dt = tz
    /\ check_date_fields (year dt) (month dt) (day dt) = true
    /\ check_time_fields (hour dt) (minute dt) (second dt) (microsecond dt) = true.
Proof.
  unfold US_PER_DAY, US_PER_SECOND, MAXORDINAL. intro Hn.
  unfold of_us, US_PER_DAY, US_PER_SECOND, MAXORDINAL.
  change (86400 * 1000000) with 86400000000 in *.
  set (days := n / 86400000000). set (rest := n mod 86400000000).
  assert (Hd : n = days * 86400000000 + rest)
    by (unfold days, rest; pose proof (Z.div_mod n 86400000000); lia).
  assert (Br : 0 <= rest < 86400000000) by (apply Z.mod_pos_bound; lia).
  assert (Bd : 1 <= days <= 3652059) by lia.
  clearbody days rest.
  destruct (Z.leb_spec 1 days); [| lia].
  destruct (Z.leb_spec days 3652059); [| lia]. simpl.
  pose proof (ord2ymd_fields days Bd) as F.
  destruct (ord2ymd days) as [[y m] d]. destruct F as [Ho Hc].
  eexists. split; [reflexivity |]. unfold to_us, toordinal. simpl.
  unfold US_PER_SECOND. rewrite Ho.
  set (secs := rest / 1000000). set (us := rest mod 1000000).
  assert (Hs : rest = secs * 1000000 + us)
    by (unfold secs, us; pose proof (Z.div_mod rest 1000000); lia).
  assert (Bu : 0 <= us < 1000000) by (apply Z.mod_pos_bound; lia).
  assert (Bs : 0 <= secs < 86400) by lia.
  clearbody secs us.
  split; [| split; [reflexivity | split; [exact Hc |]]].
  - Z.div_mod_to_equations. lia.
  - unfold check_time_fields.
    repeat (apply andb_true_intro; split); apply Z.leb_le;
      Z.div_mod_to_equations; lia.
Qed.

(** what [of_us] returns, read backwards *)
Lemma of_us_range (n : Z) (tz : option Z) (dt : datetime) :
  of_us n tz = Some dt -> US_PER_DAY <= n < (MAXORDINAL + 1) * US_PER_DAY.
Proof.
  unfold of_us, US_PER_DAY, US_PER_SECOND, MAXORDINAL.
  change (86400 * 1000000) with 86400000000.
  destruct (Z.leb_spec 1 (n / 86400000000)); [| discriminate].
  destruct (Z.leb_spec (n / 86400000000) 3652059); [| discriminate].
  intros _. Z.div_mod_to_equations. lia.
Qed.

Lemma of_us_to_us (n : Z) (tz : option Z) (dt : datetime) :
  of_us n tz = Some dt -> to_us dt = n /\ tzinfo dt = tz.
Proof.
  intro H. pose proof (of_us_range _ _ _ H) as R.
  destruct (of_us_correct n tz R) as (dt' & E & U & T & _).
  rewrite H in E. injection E as <-. auto.
Qed.

Lemma of_us_valid (n : Z) (tz : option Z) (dt : datetime) :
  of_us n tz = Some dt ->
  check_date_fields (year dt) (month dt) (day dt) = true
  /\ check_time_fields (hour dt) (minute dt) (second dt) (microsecond dt) = true.
Proof.
  intro H. pose proof (of_us_range _ _ _ H) as R.
  destruct (of_us_correct n tz R) as (dt' & E & _ & _ & Cd & Ct).
  rewrite H in E. injection E as <-. auto.
Qed.

(** ** binary64: whole seconds times 1000 are exact *)

Import Float64.

(** the quotient of [k * d] by [d] is the integer [k], which has a
    mantissa of at most 53 bits: nothing is rounded away *)
Lemma round_multiple (k d : Z) :
  0 < d -> 0 < k < 2 ^ 53 ->
  round (k * d) d = (k * 2 ^ (52 - Z.log2 k), Z.log2 k - 52).
Proof.
  intros Hd Hk. unfold round.
  assert (Hpos : 0 < k * d) by lia.
  destruct (Z.eqb_spec (k * d) 0) as [E | _]; [lia |].
  rewrite (Z.abs_eq (k * d)) by lia. rewrite (Z.sgn_pos (k * d)) by lia.
  replace (k * d * 2 ^ 1074) with (k * 2 ^ 1074 * d) by ring.
  rewrite Z.div_mul by lia.
  rewrite Z.log2_mul_pow2 by lia.
  replace (1074 + Z.log2 k - 1074) with (Z.log2 k) by ring.
  assert (Hl : 0 <= Z.log2 k <= 52).
  { split; [apply Z.log2_nonneg |].
    apply Z.lt_succ_r. apply Z.log2_lt_pow2; lia. }
  cbv zeta. destruct (Z.leb_spec 0 (Z.log2 k - 52)) as [H0 | H0].
  - assert (E : Z.log2 k = 52) by lia. rewrite E.
    change (52 - 52) with 0. rewrite Z.pow_0_r, !Z.mul_1_r.
    rewrite Z.div_mul, Z.mod_mul by lia.
    destruct (Z.ltb_spec d (2 * 0)); [lia |].
    destruct (Z.eqb_spec d (2 * 0)); [lia |]. cbn [orb andb].
    now rewrite Z.mul_1_l.
  - replace (- (Z.log2 k - 52)) with (52 - Z.log2 k) by ring.
    assert (0 < 2 ^ (52 - Z.log2 k)) by (apply Z.pow_pos_nonneg; lia).
    replace (k * d * 2 ^ (52 - Z.log2 k)) with (k * 2 ^ (52 - Z.log2 k) * d)
      by ring.
    rewrite Z.div_mul, Z.mod_mul by lia.
    destruct (Z.ltb_spec d (2 * 0)); [lia |].
    destruct (Z.eqb_spec d (2 * 0)); [lia |]. cbn [orb andb].
    now rewrite Z.mul_1_l.
Qed.

Lemma of_int_1000 : of_int 1000 = (1000 * 2 ^ 43, -43).
Proof. vm_compute. reflexivity. Qed.

(** [int((s * 10**6 / 10**6) * 1000) = 1000 * s] for a count [s] of whole
    seconds whose milliseconds fit 53 bits *)
Lemma whole_seconds_to_ms (s : Z) :
  0 <= s -> 1000 * s < 2 ^ 53 ->
  to_int (mul (truediv (s * 1000000) 1000000) (of_int 1000)) = 1000 * s.
Proof.
  intros H0 Hs. destruct (Z.eq_dec s 0) as [-> | Hne]; [vm_compute; reflexivity |].
  unfold truediv. rewrite round_multiple by lia. rewrite of_int_1000.
  assert (Hl : 0 <= Z.log2 s <= 52).
  { split; [apply Z.log2_nonneg |].
    apply Z.lt_succ_r. apply Z.log2_lt_pow2; lia. }
  unfold mul.
  destruct (Z.leb_spec 0 (Z.log2 s - 52 + -43)) as [Hc | Hc]; [lia |].
  replace (- (Z.log2 s - 52 + -43)) with (52 - Z.log2 s + 43) by ring.
  replace (s * 2 ^ (52 - Z.log2 s) * (1000 * 2 ^ 43))
    with (1000 * s * 2 ^ (52 - Z.log2 s + 43))
    by (rewrite Z.pow_add_r by lia; ring).
  rewrite round_multiple;
    [| apply Z.pow_pos_nonneg; lia | lia].
  assert (Hk : 0 <= Z.log2 (1000 * s) <= 52).
  { split; [apply Z.log2_nonneg |].
    apply Z.lt_succ_r. apply Z.log2_lt_pow2; lia. }
  unfold to_int.
  destruct (Z.leb_spec 0 (Z.log2 (1000 * s) - 52)) as [Hz | Hz].
  - replace (Z.log2 (1000 * s) - 52) with 0 by lia.
    replace (52 - Z.log2 (1000 * s)) with 0 by lia.
    rewrite Z.pow_0_r. ring.
  - replace (- (Z.log2 (1000 * s) - 52)) with (52 - Z.log2 (1000 * s)) by ring.
    apply Z.quot_mul.
    assert (0 < 2 ^ (52 - Z.log2 (1000 * s))) by (apply Z.pow_pos_nonneg; lia).
    lia.
Qed.

(** The model against the kernel's own binary64 on the quotients and
    products of the examples: [1001 / 1000], [1 / 10**6], and the product
    [1.001 * 1000] (which is below 1001, whence [int] gives 1000). *)
Example round_agrees_with_binary64 :
  Prim2SF (PrimFloat.of_uint63 1001%int63 / PrimFloat.of_uint63 1000%int63)%float
  = S754_finite false (Z.to_pos (fst (truediv 1001 1000))) (snd (truediv 1001 1000))
  /\ Prim2SF (PrimFloat.of_uint63 1%int63 / PrimFloat.of_uint63 1000000%int63)%float
     = S754_finite false (Z.to_pos (fst (truediv 1 1000000))) (snd (truediv 1 1000000))
  /\ Prim2SF ((PrimFloat.of_uint63 1001%int63 / PrimFloat.of_uint63 1000%int63)
              * PrimFloat.of_uint63 1000%int63)%float
     = S754_finite false
         (Z.to_pos (fst (mul (truediv 1001 1000) (of_int 1000))))
         (snd (mul (truediv 1001 1000) (of_int 1000)))
  /\ to_int (mul (truediv 1001 1000) (of_int 1000)) = 1000.
Proof.
  split; [vm_compute; reflexivity |].
  split; [vm_compute; reflexivity |].
  split; vm_compute; reflexivity.
Qed.

(** ** [strptime]: what it accepts ends in the literal [Z] *)

Lemma first_some_found {A B : Type} (f : A -> option B) (l : list A) (b : B) :
  first_some f l = Some b -> exists x, In x l /\ f x = Some b.
Proof.
  induction l as [| x l IH]; simpl; [discriminate |].
  destruct (f x) as [y |] eqn:E.
  - intro H; injection H as ->. exists x. auto.
  - intro H. destruct (IH H) as (z & Hz & Hf). exists z. auto.
Qed.

Lemma leaves_suffixes_nil (s : string) : leaves_suffixes s [].
Proof. intros v r []. Qed.

Lemma leaves_suffixes_app (s : string) (l1 l2 : list (Z * string)) :
  leaves_suffixes s l1 -> leaves_suffixes s l2 -> leaves_suffixes s (l1 ++ l2).
Proof.
  intros H1 H2 v r Hin. apply in_app_or in Hin as [Hin | Hin]; eauto.
Qed.

Lemma leaves_suffixes_alt1 (p : ascii -> bool) (s : string) :
  leaves_suffixes s (alt1 p s).
Proof.
  destruct s as [| a r]; simpl; [apply leaves_suffixes_nil |].
  destruct (p a); [| apply leaves_suffixes_nil].
  intros v r' [H | []]. injection H as _ <-. now exists (String a "").
Qed.

Lemma leaves_suffixes_alt2 (p q : ascii -> bool) (s : string) :
  leaves_suffixes s (alt2 p q s).
Proof.
  destruct s as [| a [| b r]]; simpl; try apply leaves_suffixes_nil.
  destruct (p a && q b); [| apply leaves_suffixes_nil].
  intros v r' [H | []]. injection H as _ <-. now exists (String a (String b "")).
Qed.

Lemma leaves_suffixes_alt4 (s : string) : leaves_suffixes s (alt4 s).
Proof.
  destruct s as [| a [| b [| c [| d r]]]]; simpl; try apply leaves_suffixes_nil.
  destruct (is_digit a && is_digit b && is_digit c && is_digit d);
    [| apply leaves_suffixes_nil].
  intros v r' [H | []]. injection H as _ <-.
  now exists (String a (String b (String c (String d "")))).
Qed.

Lemma drop_is_suffix (k : nat) (s : string) : exists p, s = (p ++ drop k s)%string.
Proof.
  revert s. induction k as [| k IH]; intro s; [now exists "" |].
  destruct s as [| a r]; [now exists "" |]. simpl.
  destruct (IH r) as [p Hp]. exists (String a p). simpl. now rewrite <- Hp.
Qed.

Lemma leaves_suffixes_fraction (k : nat) (ds : list ascii) (s : string) :
  leaves_suffixes s (fraction_alts k ds s).
Proof.
  induction k as [| k IH]; [apply leaves_suffixes_nil |].
  intros v r [H | H]; [| now apply (IH v r)].
  injection H as _ <-. exact (drop_is_suffix (S k) s).
Qed.

Lemma leaves_suffixes_candidates (c : ascii) (s : string) :
  leaves_suffixes s (candidates c s).
Proof.
  destruct c as [[] [] [] [] [] [] [] []]; cbn [candidates];
    try apply leaves_suffixes_nil;
    repeat apply leaves_suffixes_app;
    auto using leaves_suffixes_alt1, leaves_suffixes_alt2, leaves_suffixes_alt4,
               leaves_suffixes_fraction.
Qed.

Lemma last_char_app (p r : string) (c : ascii) :
  last_char r = Some c -> last_char (p ++ r) = Some c.
Proof.
  intro H. induction p as [| a p IH]; simpl; [exact H |]. now rewrite IH.
Qed.

(** a match of a format whose last item is the literal [c] that uses up
    the input: the input ends in [c], in either case *)
Lemma match_items_last (c : ascii) (its : list item) :
  forall (s : string) (a a' : found),
    match_items (its ++ [Lit c]) s a = Some (a', "") ->
    exists c', last_char s = Some c' /\ ci_eqb c c' = true.
Proof.
  induction its as [| [d | d] its IH]; intros s a a'; simpl.
  - destruct s as [| c' s']; [discriminate |].
    destruct (ci_eqb c c') eqn:E; [| discriminate].
    intro H; injection H as _ ->. exists c'. auto.
  - destruct s as [| d' s']; [discriminate |].
    destruct (ci_eqb d d'); [| discriminate].
    intro H. destruct (IH _ _ _ H) as (c' & Hl & Hc).
    exists c'. split; [| exact Hc]. simpl. now rewrite Hl.
  - intro H. apply first_some_found in H as ([v r] & Hin & H). simpl in H.
    destruct (IH _ _ _ H) as (c' & Hl & Hc).
    destruct (leaves_suffixes_candidates d s v r Hin) as [p ->].
    exists c'. split; [now apply last_char_app | exact Hc].
Qed.

Lemma compile_ISO_FORMAT : compile ISO_FORMAT = ISO_ITEMS ++ [Lit "Z"].
Proof. reflexivity. Qed.

Lemma ci_eqb_Z (c : ascii) :
  ci_eqb "Z" c = true -> c = "Z"%char \/ c = "z"%char.
Proof.
  destruct c as [[] [] [] [] [] [] [] []]; vm_compute; intro H;
    solve [discriminate | now left | now right].
Qed.

Lemma strptime_naive (value fmt : string) (dt : datetime) :
  strptime value fmt = Ok dt -> tzinfo dt = None.
Proof.
  unfold strptime.
  destruct (match_items (compile fmt) value found_default) as [[a r] |];
    [| discriminate].
  destruct r; [| discriminate]. unfold make.
  destruct (check_date_fields _ _ _ && check_time_fields _ _ _ _);
    [| discriminate].
  intro H; injection H as <-. reflexivity.
Qed.

Lemma strptime_raises (value fmt : string) (e : exn) :
  strptime value fmt = Raise e -> e = ValueError.
Proof.
  unfold strptime.
  destruct (match_items (compile fmt) value found_default) as [[a r] |];
    [| now intro H; injection H].
  destruct r; [| now intro H; injection H]. unfold make.
  destruct (check_date_fields _ _ _ && check_time_fields _ _ _ _);
    [discriminate | now intro H; injection H].
Qed.

Lemma strptime_ISO_ends_in_Z (value : string) (dt : datetime) :
  strptime value ISO_FORMAT = Ok dt ->
  last_char value = Some "Z"%char \/ last_char value = Some "z"%char.
Proof.
  unfold strptime. rewrite compile_ISO_FORMAT.
  destruct (match_items _ value found_default) as [[a r] |] eqn:M;
    [| discriminate].
  destruct r; [| discriminate]. intros _.
  destruct (match_items_last _ _ _ _ _ M) as (c' & Hl & Hc).
  rewrite Hl. destruct (ci_eqb_Z c' Hc) as [-> | ->]; auto.
Qed.

(** what [iso8601_to_ms] computes: the format has no [%z], the parsed value
    is naive and the branch that converts an offset is never taken *)
Lemma iso8601_to_ms_eq (value : string) :
  iso8601_to_ms value
  = if String.eqb value "" then Raise ValueError
    else
      dt <- strptime value ISO_FORMAT ;;
      Ok (timestamp_ms (replace_tzinfo dt utc)).
Proof.
  unfold iso8601_to_ms. destruct (String.eqb value ""); [reflexivity |].
  destruct (strptime value ISO_FORMAT) as [dt | e] eqn:P; simpl; [| reflexivity].
  now rewrite (strptime_naive _ _ _ P).
Qed.

(** The claim of C8 that an explicit offset is converted fails: the string
    for 02:00 at offset +02:00 is rejected, in each usual spelling of the
    offset, instead of giving the milliseconds of 00:00 UTC. *)
Lemma C8_explicit_offset_is_rejected :
  iso8601_to_ms "2024-01-01T02:00:00.000+02:00" = Raise ValueError
  /\ iso8601_to_ms "2024-01-01T02:00:00.000000+0200" = Raise ValueError
  /\ iso8601_to_ms "2024-01-01T02:00:00.000Z+02:00" = Raise ValueError
  /\ iso8601_to_ms "2024-01-01T00:00:00.000Z" = Ok 1704067200000.
Proof.
  split; [vm_compute; reflexivity |].
  split; [vm_compute; reflexivity |].
  split; vm_compute; reflexivity.
Qed.

(** C8, amended.  [iso8601_to_ms] raises [ValueError] on the empty string
    and on every string [strptime] does not parse with [ISO_FORMAT], and it
    raises nothing else.  A string it accepts ends in [Z] or in [z]: the
    format ends in the literal [Z], which [strptime] matches without
    regard to case, and both endings are accepted.  So no string ending in
    a numeric offset is accepted; the fields of an accepted string are
    read as UTC. *)
Theorem C8_iso8601_to_ms_accepts_only_Z_and_reads_UTC :
  iso8601_to_ms "" = Raise ValueError
  /\ (forall (value : string) (e : exn),
        iso8601_to_ms value = Raise e ->
        e = ValueError
        /\ (value = "" \/ strptime value ISO_FORMAT = Raise ValueError))
  /\ (forall value : string,
        strptime value ISO_FORMAT = Raise ValueError ->
        iso8601_to_ms value = Raise ValueError)
  /\ (forall (value : string) (ms : Z),
        iso8601_to_ms value = Ok ms ->
        (last_char value = Some "Z"%char \/ last_char value = Some "z"%char)
        /\ exists dt,
             strptime value ISO_FORMAT = Ok dt
             /\ tzinfo dt = None
             /\ ms = timestamp_ms (replace_tzinfo dt utc))
  /\ iso8601_to_ms "2024-01-01T00:00:00.000000Z" = Ok 1704067200000
  /\ iso8601_to_ms "2024-01-01T00:00:00.000000z" = Ok 1704067200000.
Proof.
  split; [reflexivity |]. split; [| split; [| split; [| split]]].
  4: vm_compute; reflexivity.
  4: vm_compute; reflexivity.
  - intros value e. rewrite iso8601_to_ms_eq.
    destruct value as [| c r]; simpl.
    + intro H; injection H as <-. auto.
    + destruct (strptime (String c r) ISO_FORMAT) as [dt | x] eqn:P; simpl;
        [discriminate |].
      intro H; injection H as <-.
      pose proof (strptime_raises _ _ _ P) as ->. auto.
  - intros value P. rewrite iso8601_to_ms_eq, P.
    destruct (String.eqb value ""); reflexivity.
  - intros value ms. rewrite iso8601_to_ms_eq.
    destruct (String.eqb value ""); [discriminate |].
    destruct (strptime value ISO_FORMAT) as [dt | x] eqn:P; simpl; [| discriminate].
    intro H; injection H as <-. split.
    + now apply (strptime_ISO_ends_in_Z value dt).
    + exists dt. split; [reflexivity |]. split; [| reflexivity].
      now apply (strptime_naive _ _ _ P).
Qed.

Lemma C8_witness :
  (last_char "2024-01-01T00:00:00.000Z" = Some "Z"%char
   \/ last_char "2024-01-01T00:00:00.000Z" = Some "z"%char)
  /\ exists dt,
       strptime "2024-01-01T00:00:00.000Z" ISO_FORMAT = Ok dt
       /\ tzinfo dt = None
       /\ 1704067200000 = timestamp_ms (replace_tzinfo dt utc).
Proof.
  destruct C8_iso8601_to_ms_accepts_only_Z_and_reads_UTC as (_ & _ & _ & H & _).
  apply (H "2024-01-01T00:00:00.000Z" 1704067200000).
  vm_compute. reflexivity.
Defined.

(** ** [strptime] reads back what [strftime] writes *)

Lemma cases_below (n : nat) (P : Z -> Prop) :
  (forall k : nat, (k < n)%nat -> P (Z.of_nat k)) ->
  forall v : Z, 0 <= v < Z.of_nat n -> P v.
Proof.
  intros H v Hv. rewrite <- (Z2Nat.id v) by lia. apply H. lia.
Qed.

Lemma digit_char_digit (k : Z) :
  0 <= k <= 9 -> is_digit (digit_char k) = true /\ dval (digit_char k) = k.
Proof.
  intro H. revert k H.
  assert (G : forall v, 0 <= v < Z.of_nat 10 ->
                        is_digit (digit_char v) = true /\ dval (digit_char v) = v).
  { apply cases_below. intros k Hk.
    do 10 (destruct k as [| k]; [split; reflexivity |]). lia. }
  intros k H. apply G. lia.
Qed.

Lemma mod10_digit (v : Z) : 0 <= v mod 10 <= 9.
Proof. pose proof (Z.mod_pos_bound v 10). lia. Qed.

Lemma zfill_2 (v : Z) :
  zfill 2 v = String (digit_char ((v / 10) mod 10))
                     (String (digit_char (v mod 10)) "").
Proof.
  unfold zfill. change (10 ^ Z.of_nat 1) with 10. change (10 ^ Z.of_nat 0) with 1.
  now rewrite Z.div_1_r.
Qed.

Lemma zfill_2_small (v : Z) :
  0 <= v < 100 ->
  zfill 2 v = String (digit_char (v / 10)) (String (digit_char (v mod 10)) "").
Proof.
  intro H. rewrite zfill_2. rewrite (Z.mod_small (v / 10)); [reflexivity |].
  Z.div_mod_to_equations. lia.
Qed.

(** the candidates of a two-digit group on a zero-padded value, value by
    value *)
Ltac each_value k :=
  first
    [ exfalso; lia
    | destruct k as [| k];
      [ first [ intros; exfalso; lia | intros; eexists; cbv; reflexivity ]
      | each_value k ] ].

Lemma candidates_m (rest : string) (v : Z) :
  1 <= v <= 12 ->
  exists l, candidates "m" (zfill 2 v ++ rest) = (v, rest) :: l.
Proof.
  intro H. assert (Hv : 0 <= v < Z.of_nat 13) by lia. destruct H as [H _].
  revert H. pattern v. revert v Hv. apply (cases_below 13).
  intros k Hk. each_value k.
Qed.

Lemma candidates_d (rest : string) (v : Z) :
  1 <= v <= 31 ->
  exists l, candidates "d" (zfill 2 v ++ rest) = (v, rest) :: l.
Proof.
  intro H. assert (Hv : 0 <= v < Z.of_nat 32) by lia. destruct H as [H _].
  revert H. pattern v. revert v Hv. apply (cases_below 32).
  intros k Hk. each_value k.
Qed.

Lemma candidates_H (rest : string) (v : Z) :
  0 <= v <= 23 ->
  exists l, candidates "H" (zfill 2 v ++ rest) = (v, rest) :: l.
Proof.
  intro H. assert (Hv : 0 <= v < Z.of_nat 24) by lia. destruct H as [H _].
  revert H. pattern v. revert v Hv. apply (cases_below 24).
  intros k Hk. each_value k.
Qed.

Lemma candidates_M (rest : string) (v : Z) :
  0 <= v <= 59 ->
  exists l, candidates "M" (zfill 2 v ++ rest) = (v, rest) :: l.
Proof.
  intro H. assert (Hv : 0 <= v < Z.of_nat 60) by lia. destruct H as [H _].
  revert H. pattern v. revert v Hv. apply (cases_below 60).
  intros k Hk. each_value k.
Qed.

Lemma candidates_S (rest : string) (v : Z) :
  0 <= v <= 59 ->
  exists l, candidates "S" (zfill 2 v ++ rest) = (v, rest) :: l.
Proof.
  intro H. assert (Hv : 0 <= v < Z.of_nat 60) by lia. destruct H as [H _].
  revert H. pattern v. revert v Hv. apply (cases_below 60).
  intros k Hk. each_value k.
Qed.

Lemma candidates_Y (rest : string) (y : Z) :
  0 <= y <= 9999 -> candidates "Y" (zfill 4 y ++ rest) = [(y, rest)].
Proof.
  intro H. unfold zfill.
  change (10 ^ Z.of_nat 3) with 1000. change (10 ^ Z.of_nat 2) with 100.
  change (10 ^ Z.of_nat 1) with 10. change (10 ^ Z.of_nat 0) with 1.
  cbn [candidates alt4 append].
  destruct (digit_char_digit ((y / 1000) mod 10) (mod10_digit _)) as [D3 V3].
  destruct (digit_char_digit ((y / 100) mod 10) (mod10_digit _)) as [D2 V2].
  destruct (digit_char_digit ((y / 10) mod 10) (mod10_digit _)) as [D1 V1].
  destruct (digit_char_digit ((y / 1) mod 10) (mod10_digit _)) as [D0 V0].
  rewrite D3, D2, D1, D0, V3, V2, V1, V0. cbn [andb].
  do 2 f_equal. Z.div_mod_to_equations. lia.
Qed.

Lemma candidates_f (rest : string) (us : Z) :
  0 <= us <= 999999 ->
  exists l, candidates "f" (zfill 6 us ++ rest) = (us, rest) :: l.
Proof.
  intro H. unfold zfill.
  change (10 ^ Z.of_nat 5) with 100000. change (10 ^ Z.of_nat 4) with 10000.
  change (10 ^ Z.of_nat 3) with 1000. change (10 ^ Z.of_nat 2) with 100.
  change (10 ^ Z.of_nat 1) with 10. change (10 ^ Z.of_nat 0) with 1.
  cbn [candidates append digit_run].
  destruct (digit_char_digit ((us / 100000) mod 10) (mod10_digit _)) as [D5 V5].
  destruct (digit_char_digit ((us / 10000) mod 10) (mod10_digit _)) as [D4 V4].
  destruct (digit_char_digit ((us / 1000) mod 10) (mod10_digit _)) as [D3 V3].
  destruct (digit_char_digit ((us / 100) mod 10) (mod10_digit _)) as [D2 V2].
  destruct (digit_char_digit ((us / 10) mod 10) (mod10_digit _)) as [D1 V1].
  destruct (digit_char_digit ((us / 1) mod 10) (mod10_digit _)) as [D0 V0].
  rewrite D5, D4, D3, D2, D1, D0.
  cbn [List.length fraction_alts drop]. eexists. f_equal. f_equal.
  unfold fraction_value. cbn [firstn fold_left Nat.sub].
  rewrite V5, V4, V3, V2, V1, V0. change (10 ^ Z.of_nat 0) with 1.
  Z.div_mod_to_equations. lia.
Qed.

Lemma match_items_dir (c : ascii) (its : list item) (s rest : string)
      (v : Z) (l : list (Z * string)) (a : found) (r : found * string) :
  candidates c s = (v, rest) :: l ->
  match_items its rest (store c v a) = Some r ->
  match_items (Dir c :: its) s a = Some r.
Proof. intros Hc Hm. simpl. rewrite Hc. simpl. now rewrite Hm. Qed.

(** *** Years of four digits *)

Lemma ymd2ord_before_1000 (y m d : Z) :
  check_date_fields y m d = true -> y <= 999 -> ymd2ord y m d <= 364877.
Proof.
  unfold check_date_fields, MINYEAR, MAXYEAR. intros H Hy.
  repeat match goal with
         | H : _ && _ = true |- _ => apply andb_prop in H as [H ?]
         end.
  repeat match goal with
         | H : (_ <=? _) = true |- _ => apply Z.leb_le in H
         end.
  assert (Hm : 0 <= m < Z.of_nat 13) by lia.
  unfold ymd2ord, days_before_month.
  assert (Hin : DAYS_BEFORE_MONTH m + (if (2 <? m) && is_leap y then 1 else 0)
                + days_in_month y m
                <= 365 + (if is_leap y then 1 else 0)).
  { assert (B : 1 <= m) by lia.
    revert B. unfold days_in_month, DAYS_BEFORE_MONTH. clear - Hm.
    pattern m. revert m Hm.
    apply (cases_below 13). intros k Hk. rewrite !Nat2Z.id.
    do 13 (destruct k as [| k];
           [intro B; destruct (is_leap y); simpl in *; lia |]).
    lia. }
  destruct (Z.eq_dec y 999) as [-> | Hne].
  - change (is_leap 999) with false in Hin.
    change (is_leap 999) with false.
    change (days_before_year 999) with 364512.
    destruct ((2 <? m) && false); lia.
  - assert (days_before_year y <= 364147).
    { unfold days_before_year. cbv zeta. Z.div_mod_to_equations. lia. }
    destruct (is_leap y), ((2 <? m) && _); lia.
Qed.

(** a value of the calendar at or after 1000-01-01T00:00:00 has a
    four-digit year *)
Lemma year_from_1000 (dt : datetime) :
  check_date_fields (year dt) (month dt) (day dt) = true ->
  check_time_fields (hour dt) (minute dt) (second dt) (microsecond dt) = true ->
  364878 * US_PER_DAY <= to_us dt ->
  1000 <= year dt.
Proof.
  intros Cd Ct U. destruct (Z.le_gt_cases 1000 (year dt)) as [H | H]; [exact H |].
  pose proof (ymd2ord_before_1000 _ _ _ Cd ltac:(lia)) as B.
  unfold to_us, toordinal, US_PER_DAY, US_PER_SECOND in U.
  unfold check_time_fields in Ct.
  repeat match goal with
         | H : _ && _ = true |- _ => apply andb_prop in H as [H ?]
         end.
  repeat match goal with
         | H : (_ <=? _) = true |- _ => apply Z.leb_le in H
         end.
  lia.
Qed.

(** the same, from the milliseconds of the value: 1000-01-01T00:00:00Z is
    -30610224000000 *)
Lemma year_of_ms (dt : datetime) (ms : Z) :
  check_date_fields (year dt) (month dt) (day dt) = true ->
  check_time_fields (hour dt) (minute dt) (second dt) (microsecond dt) = true ->
  to_us dt = EPOCH_ORDINAL * US_PER_DAY + ms * 1000 ->
  -30610224000000 <= ms ->
  1000 <= year dt.
Proof.
  intros Cd Ct U H. apply (year_from_1000 dt Cd Ct). rewrite U.
  unfold EPOCH_ORDINAL, US_PER_DAY, US_PER_SECOND. lia.
Qed.

Lemma decimal_4 (v : Z) : 1000 <= v -> decimal v = zfill 4 v.
Proof.
  intro H. unfold decimal.
  destruct (Z.ltb_spec v 10); [lia |].
  destruct (Z.ltb_spec v 100); [lia |].
  destruct (Z.ltb_spec v 1000); [lia | reflexivity].
Qed.

(** the text of any value starts with its year in decimal *)
Lemma strftime_ISO_FORMAT_year (dt : datetime) :
  strftime dt ISO_FORMAT
  = (decimal (year dt) ++ String "-" (zfill 2 (month dt) ++ String "-"
      (zfill 2 (day dt) ++ String "T" (zfill 2 (hour dt) ++ String ":"
        (zfill 2 (minute dt) ++ String ":" (zfill 2 (second dt) ++ String "."
          (zfill 6 (microsecond dt) ++ "Z")))))))%string.
Proof. reflexivity. Qed.

Lemma strftime_ISO_FORMAT (dt : datetime) :
  1000 <= year dt ->
  strftime dt ISO_FORMAT
  = (zfill 4 (year dt) ++ String "-" (zfill 2 (month dt) ++ String "-"
      (zfill 2 (day dt) ++ String "T" (zfill 2 (hour dt) ++ String ":"
        (zfill 2 (minute dt) ++ String ":" (zfill 2 (second dt) ++ String "."
          (zfill 6 (microsecond dt) ++ "Z")))))))%string.
Proof. intro H. now rewrite strftime_ISO_FORMAT_year, decimal_4. Qed.

Lemma strftime_ISO_FORMAT_not_empty (dt : datetime) :
  String.eqb (strftime dt ISO_FORMAT) "" = false.
Proof.
  rewrite strftime_ISO_FORMAT_year. unfold decimal.
  destruct (_ <? 10); [reflexivity |].
  destruct (_ <? 100); [reflexivity |].
  destruct (_ <? 1000); reflexivity.
Qed.

(** a value that passes the constructor's checks and has a four-digit
    year is written by [strftime] and read back by [strptime], as a naive
    value *)
Lemma strptime_strftime (dt : datetime) :
  check_date_fields (year dt) (month dt) (day dt) = true ->
  check_time_fields (hour dt) (minute dt) (second dt) (microsecond dt) = true ->
  1000 <= year dt ->
  strptime (strftime dt ISO_FORMAT) ISO_FORMAT = Ok (replace_tzinfo dt None).
Proof.
  intros Hd Ht Hy.
  assert (Hdim : days_in_month (year dt) (month dt) <= 31).
  { unfold days_in_month. destruct (_ && _); [lia |].
    generalize (Z.to_nat (month dt)) as k. intro k.
    do 13 (destruct k as [| k]; [simpl; lia |]). simpl. destruct k; lia. }
  unfold check_date_fields, MINYEAR, MAXYEAR in Hd.
  unfold check_time_fields in Ht.
  repeat match goal with
         | H : _ && _ = true |- _ => apply andb_prop in H as [H ?]
         end.
  repeat match goal with
         | H : (_ <=? _) = true |- _ => apply Z.leb_le in H
         end.
  assert (M : match_items (compile ISO_FORMAT) (strftime dt ISO_FORMAT) found_default
              = Some (mk_found (year dt) (month dt) (day dt) (hour dt)
                               (minute dt) (second dt) (microsecond dt), "")).
  { rewrite strftime_ISO_FORMAT by exact Hy.
    change (compile ISO_FORMAT) with (ISO_ITEMS ++ [Lit "Z"]).
    unfold ISO_ITEMS. cbn [app].
    eapply match_items_dir; [apply candidates_Y; lia |].
    cbn [match_items]. change (ci_eqb "-" "-") with true. cbv iota.
    destruct (candidates_m
                (String "-" (zfill 2 (day dt) ++ String "T" (zfill 2 (hour dt) ++ String ":"
                  (zfill 2 (minute dt) ++ String ":" (zfill 2 (second dt) ++ String "."
                    (zfill 6 (microsecond dt) ++ "Z"))))))
                (month dt) ltac:(lia)) as [l1 C1].
    rewrite C1. cbn [first_some fst snd match_items].
    change (ci_eqb "-" "-") with true. cbv iota.
    destruct (candidates_d
                (String "T" (zfill 2 (hour dt) ++ String ":"
                  (zfill 2 (minute dt) ++ String ":" (zfill 2 (second dt) ++ String "."
                    (zfill 6 (microsecond dt) ++ "Z")))))
                (day dt) ltac:(lia)) as [l2 C2].
    rewrite C2. cbn [first_some fst snd match_items].
    change (ci_eqb "T" "T") with true. cbv iota.
    destruct (candidates_H
                (String ":" (zfill 2 (minute dt) ++ String ":" (zfill 2 (second dt)
                  ++ String "." (zfill 6 (microsecond dt) ++ "Z"))))
                (hour dt) ltac:(lia)) as [l3 C3].
    rewrite C3. cbn [first_some fst snd match_items].
    change (ci_eqb ":" ":") with true. cbv iota.
    destruct (candidates_M
                (String ":" (zfill 2 (second dt)
                  ++ String "." (zfill 6 (microsecond dt) ++ "Z")))
                (minute dt) ltac:(lia)) as [l4 C4].
    rewrite C4. cbn [first_some fst snd match_items].
    change (ci_eqb ":" ":") with true. cbv iota.
    destruct (candidates_S
                (String "." (zfill 6 (microsecond dt) ++ "Z"))
                (second dt) ltac:(lia)) as [l5 C5].
    rewrite C5. cbn [first_some fst snd match_items].
    change (ci_eqb "." ".") with true. cbv iota.
    destruct (candidates_f "Z" (microsecond dt) ltac:(lia)) as [l6 C6].
    rewrite C6. cbn [first_some fst snd match_items].
    change (ci_eqb "Z" "Z") with true. cbv iota.
    reflexivity. }
  unfold strptime. rewrite M. cbn [fY fm fd fH fM fS ff].
  unfold make, check_date_fields, check_time_fields, MINYEAR, MAXYEAR.
  repeat match goal with
         | H : ?a <= ?b |- context [?a <=? ?b] =>
             rewrite (proj2 (Z.leb_le a b) H)
         end.
  reflexivity.
Qed.

(** ** Milliseconds to text and back *)

(** within years 1970..9999 [ms_to_iso8601] succeeds, and writes the value
    whose wall clock is [ms] milliseconds after the epoch *)
Lemma ms_to_iso8601_in_range (ms : Z) :
  0 <= ms < 253402300800000 ->
  exists dt,
    ms_to_iso8601 ms = Ok (strftime dt ISO_FORMAT)
    /\ to_us dt = EPOCH_ORDINAL * US_PER_DAY + ms * 1000
    /\ tzinfo dt = utc
    /\ check_date_fields (year dt) (month dt) (day dt) = true
    /\ check_time_fields (hour dt) (minute dt) (second dt) (microsecond dt) = true.
Proof.
  intro H. unfold ms_to_iso8601, fromtimestamp_utc, add_timedelta.
  set (s := ms / 1000). set (r := ms mod 1000).
  assert (Hms : ms = s * 1000 + r)
    by (unfold s, r; pose proof (Z.div_mod ms 1000); lia).
  assert (Br : 0 <= r < 1000) by (apply Z.mod_pos_bound; lia).
  assert (Bs : 0 <= s < 253402300800) by lia.
  clearbody s r.
  destruct (of_us_correct ((EPOCH_ORDINAL * 86400 + s) * US_PER_SECOND) utc)
    as (dt0 & E0 & U0 & T0 & _).
  { unfold EPOCH_ORDINAL, US_PER_DAY, US_PER_SECOND, MAXORDINAL. lia. }
  rewrite E0. cbn [bind]. rewrite U0, T0.
  destruct (of_us_correct
              ((EPOCH_ORDINAL * 86400 + s) * US_PER_SECOND + r * 1000) utc)
    as (dt & E & U & T & Cd & Ct).
  { unfold EPOCH_ORDINAL, US_PER_DAY, US_PER_SECOND, MAXORDINAL. lia. }
  rewrite E. cbn [bind]. exists dt.
  split; [reflexivity |]. split; [| auto].
  rewrite U. unfold EPOCH_ORDINAL, US_PER_DAY, US_PER_SECOND. lia.
Qed.

Lemma to_us_replace_tzinfo (dt : datetime) (tz : option Z) :
  to_us (replace_tzinfo dt tz) = to_us dt.
Proof. reflexivity. Qed.

(** a whole number of seconds survives the way through the text and
    through [timestamp() * 1000] *)
Lemma whole_seconds_round_trip (x : Z) :
  0 <= x < 253402300800000 ->
  x mod 1000 = 0 ->
  (s <- ms_to_iso8601 x ;; iso8601_to_ms s) = Ok x.
Proof.
  intros Hx Hal.
  destruct (ms_to_iso8601_in_range x Hx) as (dt & E & U & T & Cd & Ct).
  pose proof (year_of_ms dt x Cd Ct U ltac:(lia)) as Hy.
  rewrite E. cbn [bind]. rewrite iso8601_to_ms_eq.
  rewrite strftime_ISO_FORMAT_not_empty, (strptime_strftime dt Cd Ct Hy).
  cbn [bind]. f_equal.
  unfold timestamp_ms, timestamp. rewrite !to_us_replace_tzinfo, U.
  cbn [tzinfo replace_tzinfo utc].
  replace (EPOCH_ORDINAL * US_PER_DAY + x * 1000 - 0 * US_PER_SECOND
           - EPOCH_ORDINAL * US_PER_DAY)
    with (x / 1000 * 1000000)
    by (Z.div_mod_to_equations; lia).
  unfold US_PER_SECOND. rewrite whole_seconds_to_ms.
  - Z.div_mod_to_equations. lia.
  - Z.div_mod_to_equations. lia.
  - change (2 ^ 53) with 9007199254740992. Z.div_mod_to_equations. lia.
Qed.

(** The claim of C6 fails for minute-aligned values from year 10000 on:
    [datetime.fromtimestamp] raises there. *)
Lemma C6_round_trip_fails_from_year_10000 :
  0 <= 253402300800000
  /\ 253402300800000 mod 60000 = 0
  /\ ms_to_iso8601 253402300800000 = Raise ValueError
  /\ (s <- ms_to_iso8601 253402300800000 ;; iso8601_to_ms s) = Raise ValueError
  /\ ms_to_iso8601 253402300740000 = Ok "9999-12-31T23:59:00.000000Z".
Proof.
  split; [lia |]. split; [reflexivity |].
  split; [vm_compute; reflexivity |].
  split; vm_compute; reflexivity.
Qed.

(** C6, amended.  For every minute-aligned [x] with
    [0 <= x < 253402300800000] (the milliseconds of 10000-01-01T00:00:00Z),
    [iso8601_to_ms (ms_to_iso8601 x) = x]. *)
Theorem C6_minute_aligned_round_trip :
  forall x : Z,
    0 <= x < 253402300800000 ->
    x mod 60000 = 0 ->
    (s <- ms_to_iso8601 x ;; iso8601_to_ms s) = Ok x.
Proof.
  intros x Hx Hal. apply whole_seconds_round_trip; [exact Hx |].
  Z.div_mod_to_equations. lia.
Qed.

Lemma C6_witness :
  (s <- ms_to_iso8601 1704067260000 ;; iso8601_to_ms s) = Ok 1704067260000.
Proof.
  apply (C6_minute_aligned_round_trip 1704067260000); [lia | reflexivity].
Defined.

(** Milliseconds that are not whole seconds need not come back: the
    timestamp of 1.001 s is a binary64 just below 1.001, and its product
    with 1000 is truncated to 1000. *)
Example round_trip_loses_a_millisecond :
  (s <- ms_to_iso8601 1001 ;; iso8601_to_ms s) = Ok 1000.
Proof. vm_compute. reflexivity. Qed.

(** ** The text [ms_to_iso8601] writes *)

Lemma zfill_length (w : nat) (v : Z) : String.length (zfill w v) = w.
Proof. induction w as [| w IH]; simpl; [reflexivity | now rewrite IH]. Qed.

Lemma append_length (s t : string) :
  String.length (s ++ t) = (String.length s + String.length t)%nat.
Proof. induction s as [| c s IH]; simpl; [reflexivity | now rewrite IH]. Qed.

(** microseconds that are a whole number of milliseconds are written as the
    three digits of the milliseconds and three zeros *)
Lemma zfill_6_of_milliseconds (r : Z) :
  0 <= r < 1000 -> zfill 6 (r * 1000) = (zfill 3 r ++ "000")%string.
Proof.
  intro H. unfold zfill.
  change (10 ^ Z.of_nat 5) with 100000. change (10 ^ Z.of_nat 4) with 10000.
  change (10 ^ Z.of_nat 3) with 1000. change (10 ^ Z.of_nat 2) with 100.
  change (10 ^ Z.of_nat 1) with 10. change (10 ^ Z.of_nat 0) with 1.
  cbn [append].
  replace ((r * 1000 / 100000) mod 10) with ((r / 100) mod 10)
    by (Z.div_mod_to_equations; lia).
  replace ((r * 1000 / 10000) mod 10) with ((r / 10) mod 10)
    by (Z.div_mod_to_equations; lia).
  replace ((r * 1000 / 1000) mod 10) with ((r / 1) mod 10)
    by (Z.div_mod_to_equations; lia).
  replace ((r * 1000 / 100) mod 10) with 0 by (Z.div_mod_to_equations; lia).
  replace ((r * 1000 / 10) mod 10) with 0 by (Z.div_mod_to_equations; lia).
  replace ((r * 1000 / 1) mod 10) with 0 by (Z.div_mod_to_equations; lia).
  reflexivity.
Qed.

Lemma microsecond_of_ms (dt : datetime) (ms : Z) :
  to_us dt = EPOCH_ORDINAL * US_PER_DAY + ms * 1000 ->
  check_time_fields (hour dt) (minute dt) (second dt) (microsecond dt) = true ->
  microsecond dt = ms mod 1000 * 1000.
Proof.
  unfold to_us, EPOCH_ORDINAL, US_PER_DAY, US_PER_SECOND, check_time_fields.
  intros U Ct.
  repeat match goal with
         | H : _ && _ = true |- _ => apply andb_prop in H as [H ?]
         end.
  repeat match goal with
         | H : (_ <=? _) = true |- _ => apply Z.leb_le in H
         end.
  Z.div_mod_to_equations. lia.
Qed.

(** The claim of C5 fails twice over: the fraction [strftime] writes for
    [%f] has six digits, not three, so that the first row of the full-day
    scenario (1440 rows under the header) is stamped
    [2024-01-01T00:01:00.000000Z]; and from year 10000 on
    [ms_to_iso8601] raises. *)
Lemma C5_fraction_has_six_digits :
  ms_to_iso8601 1704067260000 = Ok "2024-01-01T00:01:00.000000Z"
  /\ ms_to_iso8601 1704067260123 = Ok "2024-01-01T00:01:00.123000Z"
  /\ ms_to_iso8601 253402300800000 = Raise ValueError
  /\ option_map
       (fun r => (List.length (records (r_file r)),
                  nth 1 (records (r_file r)) [],
                  read_last_timestamp (r_file r),
                  r_ending r))
       (fetch_klines 2 every_minute "btcusdt" "2024-01-01" None)
     = Some (1441%nat,
             row_at "2024-01-01T00:01:00.000000Z",
             Some "2024-01-02T00:00:00.000000Z",
             Returned).
Proof.
  split; [vm_compute; reflexivity |].
  split; [vm_compute; reflexivity |].
  split; vm_compute; reflexivity.
Qed.

(** the fields of the value [of_us] returns *)
Lemma of_us_fields (n : Z) (tz : option Z) (dt : datetime) :
  of_us n tz = Some dt ->
  (year dt, month dt, day dt) = ord2ymd (n / US_PER_DAY)
  /\ hour dt = n mod US_PER_DAY / US_PER_SECOND / 3600
  /\ minute dt = (n mod US_PER_DAY / US_PER_SECOND) mod 3600 / 60
  /\ second dt = (n mod US_PER_DAY / US_PER_SECOND) mod 60
  /\ microsecond dt = (n mod US_PER_DAY) mod US_PER_SECOND.
Proof.
  unfold of_us. destruct (_ && _); [| discriminate].
  destruct (ord2ymd (n / US_PER_DAY)) as [[y m] d].
  intro H. assert (E : dt = mk_datetime y m d
                        (n mod US_PER_DAY / US_PER_SECOND / 3600)
                        ((n mod US_PER_DAY / US_PER_SECOND) mod 3600 / 60)
                        ((n mod US_PER_DAY / US_PER_SECOND) mod 60)
                        ((n mod US_PER_DAY) mod US_PER_SECOND) tz)
    by congruence.
  rewrite E. cbn [year month day hour minute second microsecond]. auto.
Qed.

(** [ms_to_iso8601] writes the value [of_us] returns for the microseconds
    of [ms]: adding the seconds and then the milliseconds gives the same
    value as adding both at once *)
Lemma ms_to_iso8601_of_us (ms : Z) :
  -62135596800000 <= ms < 253402300800000 ->
  exists dt,
    of_us (EPOCH_ORDINAL * US_PER_DAY + ms * 1000) utc = Some dt
    /\ ms_to_iso8601 ms = Ok (strftime dt ISO_FORMAT).
Proof.
  intro H. unfold ms_to_iso8601, fromtimestamp_utc, add_timedelta.
  set (s := ms / 1000). set (r := ms mod 1000).
  assert (Hms : ms = s * 1000 + r)
    by (unfold s, r; pose proof (Z.div_mod ms 1000); lia).
  assert (Br : 0 <= r < 1000) by (apply Z.mod_pos_bound; lia).
  assert (Bs : -62135596800 <= s < 253402300800) by lia.
  clearbody s r.
  destruct (of_us_correct ((EPOCH_ORDINAL * 86400 + s) * US_PER_SECOND) utc)
    as (dt0 & E0 & U0 & T0 & _).
  { unfold EPOCH_ORDINAL, US_PER_DAY, US_PER_SECOND, MAXORDINAL. lia. }
  rewrite E0. cbn [bind]. rewrite U0, T0.
  destruct (of_us_correct
              ((EPOCH_ORDINAL * 86400 + s) * US_PER_SECOND + r * 1000) utc)
    as (dt & E & _).
  { unfold EPOCH_ORDINAL, US_PER_DAY, US_PER_SECOND, MAXORDINAL. lia. }
  rewrite E. cbn [bind]. exists dt. split; [| reflexivity].
  rewrite <- E. f_equal. unfold US_PER_DAY, US_PER_SECOND. lia.
Qed.

(** C5, amended.  For every [ms] with [0 <= ms < 253402300800000]
    (through year 9999), [ms_to_iso8601 ms] is the UTC date and time of
    [ms] written [YYYY-MM-DDTHH:MM:SS.ffffffZ]: the date is the one
    [_ord2ymd] gives for day [ms div 86400000] after 1970-01-01, a date of
    the calendar; hour, minute and second are those of [ms] in its day, a
    time of the clock;
    the text has 27 characters, the last one [Z], and its fraction is the
    six digits [%f] stands for, that is the three digits of [ms mod 1000]
    followed by [000]. *)
Theorem C5_ms_to_iso8601_text :
  forall ms : Z,
    0 <= ms < 253402300800000 ->
    exists dt,
      (year dt, month dt, day dt) = ord2ymd (EPOCH_ORDINAL + ms / 86400000)
      /\ check_date_fields (year dt) (month dt) (day dt) = true
      /\ check_time_fields (hour dt) (minute dt) (second dt) (microsecond dt)
         = true
      /\ toordinal dt = EPOCH_ORDINAL + ms / 86400000
      /\ hour dt = (ms / 3600000) mod 24
      /\ minute dt = (ms / 60000) mod 60
      /\ second dt = (ms / 1000) mod 60
      /\ microsecond dt = ms mod 1000 * 1000
      /\ to_us dt = EPOCH_ORDINAL * US_PER_DAY + ms * 1000
      /\ tzinfo dt = utc
      /\ ms_to_iso8601 ms
         = Ok (zfill 4 (year dt) ++ "-" ++ zfill 2 (month dt) ++ "-"
               ++ zfill 2 (day dt) ++ "T" ++ zfill 2 (hour dt) ++ ":"
               ++ zfill 2 (minute dt) ++ ":" ++ zfill 2 (second dt) ++ "."
               ++ zfill 3 (ms mod 1000) ++ "000" ++ "Z")%string
      /\ forall s, ms_to_iso8601 ms = Ok s ->
                   String.length s = 27%nat /\ last_char s = Some "Z"%char.
Proof.
  intros ms H.
  destruct (ms_to_iso8601_of_us ms ltac:(lia)) as (dt & O & E).
  destruct (of_us_to_us _ _ _ O) as [U T].
  destruct (of_us_valid _ _ _ O) as [Cd Ct].
  destruct (of_us_fields _ _ _ O) as (Fd & FH & FM & FS & Fus).
  pose proof (microsecond_of_ms dt ms U Ct) as Hus.
  pose proof (year_of_ms dt ms Cd Ct U ltac:(lia)) as Hy.
  assert (Br : 0 <= ms mod 1000 < 1000) by (apply Z.mod_pos_bound; lia).
  assert (Hday : (EPOCH_ORDINAL * US_PER_DAY + ms * 1000) / US_PER_DAY
                 = EPOCH_ORDINAL + ms / 86400000).
  { unfold EPOCH_ORDINAL, US_PER_DAY, US_PER_SECOND.
    Z.div_mod_to_equations. lia. }
  assert (Shape : strftime dt ISO_FORMAT
                  = (zfill 4 (year dt) ++ "-" ++ zfill 2 (month dt) ++ "-"
                     ++ zfill 2 (day dt) ++ "T" ++ zfill 2 (hour dt) ++ ":"
                     ++ zfill 2 (minute dt) ++ ":" ++ zfill 2 (second dt) ++ "."
                     ++ zfill 3 (ms mod 1000) ++ "000" ++ "Z")%string).
  { rewrite strftime_ISO_FORMAT by exact Hy.
    rewrite Hus, zfill_6_of_milliseconds by exact Br.
    rewrite append_assoc. reflexivity. }
  exists dt.
  split; [now rewrite Fd, Hday |].
  split; [exact Cd |].
  split; [exact Ct |].
  split.
  { pose proof (ord2ymd_correct (EPOCH_ORDINAL + ms / 86400000)) as C.
    rewrite Hday in Fd. rewrite <- Fd in C. unfold toordinal. apply C. }
  split.
  { rewrite FH. unfold EPOCH_ORDINAL, US_PER_DAY, US_PER_SECOND.
    Z.div_mod_to_equations. lia. }
  split.
  { rewrite FM. unfold EPOCH_ORDINAL, US_PER_DAY, US_PER_SECOND.
    Z.div_mod_to_equations. lia. }
  split.
  { rewrite FS. unfold EPOCH_ORDINAL, US_PER_DAY, US_PER_SECOND.
    Z.div_mod_to_equations. lia. }
  split; [exact Hus |].
  split; [exact U |]. split; [exact T |].
  split; [now rewrite E, Shape |].
  intros s Hs.
  assert (Es : s = strftime dt ISO_FORMAT) by congruence.
  rewrite Es, Shape. split.
  - rewrite !append_length, !zfill_length. reflexivity.
  - repeat (apply last_char_app). reflexivity.
Qed.

Lemma C5_witness :
  exists dt,
    (year dt, month dt, day dt)
    = ord2ymd (EPOCH_ORDINAL + 1704067260000 / 86400000)
    /\ check_date_fields (year dt) (month dt) (day dt) = true
    /\ check_time_fields (hour dt) (minute dt) (second dt) (microsecond dt)
       = true
    /\ toordinal dt = EPOCH_ORDINAL + 1704067260000 / 86400000
    /\ hour dt = (1704067260000 / 3600000) mod 24
    /\ minute dt = (1704067260000 / 60000) mod 60
    /\ second dt = (1704067260000 / 1000) mod 60
    /\ microsecond dt = 1704067260000 mod 1000 * 1000
    /\ to_us dt = EPOCH_ORDINAL * US_PER_DAY + 1704067260000 * 1000
    /\ tzinfo dt = utc
    /\ ms_to_iso8601 1704067260000
       = Ok (zfill 4 (year dt) ++ "-" ++ zfill 2 (month dt) ++ "-"
             ++ zfill 2 (day dt) ++ "T" ++ zfill 2 (hour dt) ++ ":"
             ++ zfill 2 (minute dt) ++ ":" ++ zfill 2 (second dt) ++ "."
             ++ zfill 3 (1704067260000 mod 1000) ++ "000" ++ "Z")%string
    /\ forall s, ms_to_iso8601 1704067260000 = Ok s ->
                 String.length s = 27%nat /\ last_char s = Some "Z"%char.
Proof.
  apply (C5_ms_to_iso8601_text 1704067260000). lia.
Defined.

(** ** The model on inputs whose results in CPython 3.11 are known *)

Example strptime_and_fromtimestamp_examples :
  strptime "2024-1-1t0:1:0.0z" ISO_FORMAT = Ok (mk_datetime 2024 1 1 0 1 0 0 None)
  /\ strptime "2024-01- 1T00:01:00.000Z" ISO_FORMAT
     = Ok (mk_datetime 2024 1 1 0 1 0 0 None)
  /\ strptime "2024-01-01T00:01:00.123Z" ISO_FORMAT
     = Ok (mk_datetime 2024 1 1 0 1 0 123000 None)
  /\ strptime "2024-01-01T00:01:00Z" ISO_FORMAT = Raise ValueError
  /\ strptime "2024-02-30T00:01:00.000Z" ISO_FORMAT = Raise ValueError
  /\ strptime "2024-01-01T00:01:60.000Z" ISO_FORMAT = Raise ValueError
  /\ strptime "0000-01-01T00:00:00.0Z" ISO_FORMAT = Raise ValueError
  /\ fromtimestamp_utc 253402300799 = Ok (mk_datetime 9999 12 31 23 59 59 0 utc)
  /\ fromtimestamp_utc (-62135596800) = Ok (mk_datetime 1 1 1 0 0 0 0 utc)
  /\ fromtimestamp_utc (-62135596801) = Raise ValueError
  /\ build_minute_range "2024-01-01" = Ok day_2024
  /\ build_minute_range "9999-12-31" = Raise OverflowError
  /\ build_minute_range "" = Raise ValueError.
Proof. repeat (split; [vm_compute; reflexivity |]). vm_compute. reflexivity. Qed.

(* ================================================================== *)
(** * Further properties *)

Import Series.

(** ** The CSV file *)

(** X1.  Writing batches of rows one after the other (empty batches
    included) leaves the file that one call with all the rows leaves: the
    header is written by the first non-empty batch only, and only when the
    file was missing or empty. *)
Theorem write_rows_in_batches :
  forall (path : file) (batches : list (list row)),
    fold_left write_rows batches path = write_rows path (List.concat batches).
Proof.
  intros path batches. revert path.
  induction batches as [| b batches IH]; intro path; simpl; [reflexivity |].
  rewrite IH. apply write_rows_twice.
Qed.

Lemma read_last_timestamp_app (path : file) (rs : list row) (ts : string)
      (cells : list string) :
  records path = rs ++ [ts :: cells] ->
  ts <> "timestamp" ->
  read_last_timestamp path = Some ts.
Proof.
  intros R H. unfold read_last_timestamp. destruct path as [s |].
  - rewrite R, fold_left_app. simpl.
    destruct (String.eqb_spec ts "timestamp") as [E | _]; [contradiction |].
    reflexivity.
  - now destruct rs.
Qed.

(** the last row of a batch written to no file, or to a file [csv.writer]
    wrote, is the last record of the file *)
Lemma read_last_timestamp_written (path : file) (rows : list row)
      (ts : string) (cells : list string) :
  written_by_csv path ->
  ts <> "timestamp" ->
  read_last_timestamp (write_rows path (rows ++ [ts :: cells])) = Some ts.
Proof.
  intros W H.
  assert (E : exists r0 rest, rows ++ [ts :: cells] = r0 :: rest)
    by (destruct rows; cbn; eauto).
  destruct E as (r0 & rest & E).
  destruct W as [-> | [l ->]].
  - rewrite E, write_rows_missing, <- E.
    apply (read_last_timestamp_app _ (HEADER :: rows) ts cells); [| exact H].
    now rewrite records_written.
  - rewrite write_rows_written, E, <- E.
    apply (read_last_timestamp_app
             _ (l ++ match l with [] => [HEADER] | _ => [] end ++ rows) ts cells);
      [| exact H].
    rewrite records_written. now rewrite <- !app_assoc.
Qed.

(** X2.  After [write_rows] has written a non-empty batch whose last row
    starts with a cell other than ["timestamp"], [read_last_timestamp]
    returns that cell, provided the file did not exist or held rows as
    [csv.writer] writes them, each ended by its line terminator.  (After
    a file that ends in the middle of a line the first row written is
    joined to that line: see [write_rows_after_an_open_line].) *)
Theorem read_last_timestamp_after_write_rows :
  forall (path : file) (rows : list row) (ts : string) (cells : list string),
    written_by_csv path ->
    ts <> "timestamp" ->
    read_last_timestamp (write_rows path (rows ++ [ts :: cells])) = Some ts.
Proof. exact read_last_timestamp_written. Qed.

Lemma read_last_timestamp_after_write_rows_witness :
  read_last_timestamp
    (write_rows (written [HEADER])
                ([row_at "2024-01-01T00:01:00.000000Z"]
                 ++ ["2024-01-01T00:02:00.000000Z"; "1"; "2"; "0"; "1"; "9"] :: nil))
  = Some "2024-01-01T00:02:00.000000Z".
Proof.
  apply (read_last_timestamp_after_write_rows
           (written [HEADER]) [row_at "2024-01-01T00:01:00.000000Z"]
           "2024-01-01T00:02:00.000000Z" ["1"; "2"; "0"; "1"; "9"]).
  - right. exists [HEADER]. reflexivity.
  - discriminate.
Defined.

(** A file that holds the header without a line terminator: the row
    written next is joined to the header line, so that the file has one
    record, which starts with [timestamp], and no last timestamp. *)
Example write_rows_after_an_open_line :
  write_rows (Some "timestamp,open,high,low,close,volume")
             [row_at "2024-01-01T00:01:00.000000Z"]
  = Some (String.append
            "timestamp,open,high,low,close,volume2024-01-01T00:01:00.000000Z,1.0,2.0,0.5,1.5,10"
            CRLF)
  /\ records (write_rows (Some "timestamp,open,high,low,close,volume")
                         [row_at "2024-01-01T00:01:00.000000Z"])
     = [["timestamp"; "open"; "high"; "low"; "close";
         "volume2024-01-01T00:01:00.000000Z"; "1.0"; "2.0"; "0.5"; "1.5"; "10"]]
  /\ read_last_timestamp
       (write_rows (Some "timestamp,open,high,low,close,volume")
                   [row_at "2024-01-01T00:01:00.000000Z"])
     = None.
Proof.
  split; [vm_compute; reflexivity |]. split; vm_compute; reflexivity.
Qed.

(** a row [read_last_timestamp] passes over: an empty record or a header *)
Lemma skipped_rows_fold (rs : list row) (start : option row) :
  Forall (fun r => r = [] \/ exists cells, r = "timestamp" :: cells) rs ->
  fold_left
    (fun (last_row : option row) (r : row) =>
       match r with
       | c0 :: _ => if negb (String.eqb c0 "timestamp") then Some r else last_row
       | [] => last_row
       end) rs start = start.
Proof.
  intro H. revert start. induction H as [| r rs Hr _ IH]; intro start; simpl;
    [reflexivity |].
  rewrite IH. destruct Hr as [-> | [cells ->]]; reflexivity.
Qed.

(** X3.  [read_last_timestamp] returns the first cell of the last record
    that is neither empty nor a header, skipping any empty records and
    headers after it; it returns [None] exactly when the file is missing or
    holds only empty records and headers. *)
Theorem read_last_timestamp_skips_headers_and_blanks :
  (forall (path : file) (before after : list row) (ts : string)
          (cells : list string),
      records path = before ++ (ts :: cells) :: after ->
      ts <> "timestamp" ->
      Forall (fun r => r = [] \/ exists cs, r = "timestamp" :: cs) after ->
      read_last_timestamp path = Some ts)
  /\ (forall path : file,
        read_last_timestamp path = None
        <-> Forall (fun r => r = [] \/ exists cs, r = "timestamp" :: cs)
                   (records path)).
Proof.
  split.
  - intros path before after ts cells R Hts Hafter. unfold read_last_timestamp.
    destruct path as [s |]; [| now destruct before].
    rewrite R, fold_left_app. simpl.
    destruct (String.eqb_spec ts "timestamp") as [E | _]; [contradiction |].
    simpl. now rewrite skipped_rows_fold.
  - intro path. unfold read_last_timestamp.
    destruct path as [s |]; [| split; [constructor | reflexivity]].
    generalize (records (Some s)) as rs. intro rs.
    split.
    + intro H. induction rs as [| r rs IH] using rev_ind; [constructor |].
      rewrite fold_left_app in H. simpl in H.
      destruct r as [| c0 cells].
      * apply Forall_app. split; [apply IH; exact H |].
        constructor; [now left | constructor].
      * destruct (String.eqb_spec c0 "timestamp") as [-> | Hne]; simpl in H.
        -- apply Forall_app. split; [apply IH; exact H |].
           constructor; [right; eauto | constructor].
        -- discriminate.
    + intro H. now rewrite skipped_rows_fold.
Qed.

Lemma read_last_timestamp_skips_headers_and_blanks_witness :
  read_last_timestamp
    (written ([HEADER] ++ row_at "2024-01-01T00:01:00.000000Z" :: [[]; HEADER]))
  = Some "2024-01-01T00:01:00.000000Z".
Proof.
  destruct read_last_timestamp_skips_headers_and_blanks as [H _].
  apply (H (written ([HEADER] ++ row_at "2024-01-01T00:01:00.000000Z"
                              :: [[]; HEADER]))
           [HEADER] [[]; HEADER] "2024-01-01T00:01:00.000000Z"
           ["1.0"; "2.0"; "0.5"; "1.5"; "10"]).
  - vm_compute. reflexivity.
  - discriminate.
  - constructor; [now left |].
    constructor; [right; unfold HEADER; eauto | constructor].
Defined.

(** ** Minute arithmetic *)

(** X4.  [minute_open_from_close] undoes [minute_close_from_open] and the
    other way round: on a minute-aligned value each composition returns the
    value, on any other value it raises [ValueError]; and what either
    function returns is minute-aligned again. *)
Theorem minute_close_and_open_are_inverse :
  forall x : Z,
    (c <- minute_close_from_open x ;; minute_open_from_close c)
    = (ensure_minute_alignment x ;;; Ok x)
    /\ (o <- minute_open_from_close x ;; minute_close_from_open o)
       = (ensure_minute_alignment x ;;; Ok x)
    /\ (forall c, minute_close_from_open x = Ok c ->
                  c = x + 60000 /\ ensure_minute_alignment c = Ok tt)
    /\ (forall o, minute_open_from_close x = Ok o ->
                  o = x - 60000 /\ ensure_minute_alignment o = Ok tt).
Proof.
  intro x.
  assert (Hup : (x + 60000) mod 60000 = x mod 60000)
    by (replace (x + 60000) with (x + 1 * 60000) by ring; apply Z_mod_plus_full).
  assert (Hdn : (x - 60000) mod 60000 = x mod 60000)
    by (replace (x - 60000) with (x + (-1) * 60000) by ring; apply Z_mod_plus_full).
  unfold minute_close_from_open, minute_open_from_close, _MINUTE_MS.
  rewrite !ensure_minute_alignment_eq.
  destruct (Z.eqb_spec (x mod 60000) 0) as [E | E]; cbn [bind].
  - rewrite !ensure_minute_alignment_eq, Hup, Hdn, E. cbn [Z.eqb bind].
    split; [f_equal; ring |]. split; [f_equal; ring |]. split.
    + intros c Hc. injection Hc as <-.
      now rewrite ensure_minute_alignment_eq, Hup, E.
    + intros o Ho. injection Ho as <-.
      now rewrite ensure_minute_alignment_eq, Hdn, E.
  - split; [reflexivity |]. split; [reflexivity |].
    split; intros v Hv; discriminate.
Qed.

(** ** What a run accepts and writes *)

Lemma process_entry_cases (e : Z) (a a' : page_acc) (en : entry) :
  process_entry e a en = Ok a' ->
  a' = a
  \/ (a' = mk_page_acc (Some (close_of en)) (p_rows a ++ [row_for en]) true
      /\ acceptable e en /\ follows (p_last_close_ms a) (close_of en)).
Proof.
  unfold process_entry.
  destruct (Z.eq_dec (e_open_time en mod 60000) 0) as [Hal | Hal].
  2: { rewrite minute_close_from_open_misaligned by exact Hal. discriminate. }
  rewrite minute_close_from_open_aligned by exact Hal. cbn [bind].
  fold (close_of en).
  destruct (Z.ltb_spec e (close_of en)) as [Hlate | Hin].
  { intro H; injection H as <-. now left. }
  destruct (truthy_int (p_last_close_ms a)
            && match p_last_close_ms a with
               | Some l => close_of en <=? l
               | None => false
               end) eqn:Dup.
  { intro H; injection H as <-. now left. }
  destruct (ms_to_iso8601 (close_of en)) as [ts |] eqn:Hts; cbn [bind];
    [| discriminate].
  intro H; injection H as <-. right.
  assert (Hst : stamp en = ts) by (unfold stamp; now rewrite Hts).
  split; [unfold row_for, row_of; now rewrite Hst |].
  split; [unfold acceptable; rewrite Hst; auto |].
  unfold follows. destruct (p_last_close_ms a) as [l |]; [| exact I].
  cbn [truthy_int] in Dup. destruct (Z.eqb_spec l 0) as [E0 | Hnz]; [now left |].
  cbn [negb andb] in Dup. apply Z.leb_gt in Dup. now right.
Qed.

Lemma chain_app (prev : option Z) (ens1 ens2 : list entry) :
  chain prev ens1 -> chain (last_close prev ens1) ens2 -> chain prev (ens1 ++ ens2).
Proof.
  revert prev. induction ens1 as [| en ens1 IH]; intros prev H1 H2; [exact H2 |].
  destruct H1 as [Hf H1]. split; [exact Hf |]. now apply IH.
Qed.

Lemma last_close_app (prev : option Z) (ens1 ens2 : list entry) :
  last_close prev (ens1 ++ ens2) = last_close (last_close prev ens1) ens2.
Proof. apply fold_left_app. Qed.

Lemma any_app (ens1 ens2 : list entry) : any (ens1 ++ ens2) = any ens1 || any ens2.
Proof. destruct ens1; reflexivity. Qed.

Lemma process_entries_cases (e : Z) (data : list entry) :
  forall a a' : page_acc,
    process_entries e data a = Ok a' ->
    exists ens,
      p_rows a' = p_rows a ++ map row_for ens
      /\ p_last_close_ms a' = last_close (p_last_close_ms a) ens
      /\ p_has_progress a' = p_has_progress a || any ens
      /\ Forall (acceptable e) ens
      /\ chain (p_last_close_ms a) ens
      /\ Forall (fun en => In en data) ens.
Proof.
  induction data as [| en data IH]; intros a a'; simpl.
  - intro H; injection H as <-. exists [].
    rewrite app_nil_r, orb_false_r. repeat split; constructor.
  - destruct (process_entry e a en) as [a1 |] eqn:H1; cbn [bind]; [| discriminate].
    intro H2. destruct (IH a1 a' H2) as (ens & Hr & Hl & Hp & Ha & Hc & Hi).
    assert (Hi' : Forall (fun x => en = x \/ In x data) ens)
      by (eapply Forall_impl; [| exact Hi]; auto).
    destruct (process_entry_cases e a a1 en H1) as [-> | (-> & Hacc & Hf)].
    + exists ens. repeat split; assumption.
    + exists (en :: ens). cbn [p_rows p_last_close_ms p_has_progress] in *.
      repeat split.
      * rewrite Hr, <- app_assoc. reflexivity.
      * exact Hl.
      * rewrite Hp. simpl. now rewrite orb_true_r.
      * now constructor.
      * exact Hf.
      * exact Hc.
      * constructor; [now left | exact Hi'].
Qed.

Lemma accepted_refl (up : upstream) (e : Z) (st : state) : accepted up e st st [].
Proof.
  unfold accepted. simpl. rewrite orb_false_r. repeat split; constructor.
Qed.

Lemma accepted_nil (up : upstream) (e : Z) (st st' : state) :
  out_file st' = out_file st -> last_close_ms st' = last_close_ms st ->
  has_progress st' = has_progress st -> accepted up e st st' [].
Proof.
  intros F L P. unfold accepted. simpl. rewrite orb_false_r.
  repeat split; try assumption; constructor.
Qed.

Lemma accepted_trans (up : upstream) (e : Z) (st0 st1 st2 : state)
      (ens1 ens2 : list entry) :
  accepted up e st0 st1 ens1 -> accepted up e st1 st2 ens2 ->
  accepted up e st0 st2 (ens1 ++ ens2).
Proof.
  intros (F1 & L1 & P1 & A1 & C1 & U1) (F2 & L2 & P2 & A2 & C2 & U2).
  unfold accepted. repeat split.
  - rewrite F2, F1, write_rows_twice, map_app. reflexivity.
  - rewrite L2, L1, last_close_app. reflexivity.
  - rewrite P2, P1, any_app, orb_assoc. reflexivity.
  - apply Forall_app. now split.
  - apply chain_app; [exact C1 | now rewrite <- L1].
  - apply Forall_app. now split.
Qed.

(** one turn of the loop, whatever the response *)
Lemma iteration_accepted (up : upstream) (e : Z) (n : nat) (rq : request)
      (st : state) :
  exists ens, accepted up e st (state_of (iteration e (up n rq) st)) ens.
Proof.
  destruct (response_cases (up n rq)) as [H | [H | H]].
  - rewrite transient_iteration by exact H. exists []. now apply accepted_nil.
  - rewrite fatal_iteration by exact H. exists []. now apply accepted_nil.
  - destruct (successful_iteration e _ st H) as (code & data & Hresp & ->).
    cbv zeta. destruct data as [| e0 rest].
    + exists []. now apply accepted_nil.
    + destruct (process_entries e (e0 :: rest) _) as [a |] eqn:Hp.
      * destruct (process_entries_cases e _ _ _ Hp)
          as (ens & Hr & Hl & Hg & Ha & Hc & Hi).
        exists ens. unfold accepted. cbn in *. repeat split; try assumption.
        -- now rewrite Hr.
        -- eapply Forall_impl; [| exact Hi]. intros en Hin.
           exists n, rq. rewrite Hresp. exact Hin.
      * exists []. now apply accepted_nil.
Qed.

(** the loop as a whole: what it leaves is what it accepted, written in
    order after what the file held *)
Lemma loop_accepted (up : upstream) (sym : string) (e : Z) (fuel : nat) :
  forall (n : nat) (st0 st : state) (how : ending),
    loop fuel up sym e n st0 = Some (st, how) ->
    exists ens, accepted up e st0 st ens.
Proof.
  induction fuel as [| fuel IH]; intros n st0 st how; simpl; [discriminate |].
  destruct (start_open_ms st0 <? e).
  - destruct (iteration_accepted up e n (params sym e st0) st0) as [ens1 H1].
    destruct (iteration e (up n (params sym e st0)) st0) as [s | s | x s];
      simpl in H1.
    + intro H. destruct (IH _ _ _ _ H) as [ens2 H2].
      exists (ens1 ++ ens2). eapply accepted_trans; eassumption.
    + intro H; injection H as <- <-. now exists ens1.
    + intro H; injection H as <- <-. now exists ens1.
  - intro H; injection H as <- <-. exists []. apply accepted_refl.
Qed.

Lemma init_out_file (date : string) (path : file) (mr : MinuteRange) (st0 : state) :
  init date path = Ok (mr, st0) -> out_file st0 = path /\ has_progress st0 = false.
Proof. intro H. destruct (init_state _ _ _ _ H) as (_ & _ & _ & Hp & Hf). auto. Qed.

(** X5.  Whatever the upstream answers and however the run ends, a run
    on a file that [csv.writer] wrote (every record ended by its line
    terminator), or on no file, leaves the records the file held, in
    place, followed by a header (only when the file was missing or empty,
    and only if a record was accepted) and by one row per accepted record,
    in the order of acceptance.  Each accepted record is one the upstream
    returned, with a minute-aligned open time and a close time not after
    the end of the window, and its row carries the text of that close
    time. *)
Theorem fetch_klines_only_appends_accepted_rows :
  forall (fuel : nat) (up : upstream) (sym date : string) (path : file) (r : run),
    written_by_csv path ->
    fetch_klines fuel up sym date path = Some r ->
    exists ens,
      r_file r = write_rows path (map row_for ens)
      /\ (exists hdr, records (r_file r) = records path ++ hdr ++ map row_for ens
                      /\ (hdr = [] \/ hdr = [HEADER] /\ records path = [] /\ ens <> []))
      /\ Forall (fun en =>
                   e_open_time en mod 60000 = 0
                   /\ ms_to_iso8601 (close_of en) = Ok (stamp en)
                   /\ (exists n rq, In en (body (up n rq)))
                   /\ (forall mr, build_minute_range date = Ok mr ->
                                  close_of en <= end_ms mr)) ens.
Proof.
  intros fuel up sym date path r W. unfold fetch_klines.
  assert (Hdr : forall ens,
             exists hdr,
               records (write_rows path (map row_for ens))
               = records path ++ hdr ++ map row_for ens
               /\ (hdr = [] \/ hdr = [HEADER] /\ records path = [] /\ ens <> [])).
  { intro ens. destruct ens as [| en ens].
    - exists []. simpl. rewrite app_nil_r. auto.
    - cbn [map]. destruct W as [-> | [l ->]].
      + rewrite write_rows_missing, records_written.
        exists [HEADER]. split; [reflexivity |]. right. repeat split. discriminate.
      + rewrite write_rows_written, !records_written. destruct l as [| x xs].
        * exists [HEADER]. split; [reflexivity |]. right. repeat split.
          discriminate.
        * exists []. auto. }
  destruct (init date path) as [[mr st0] | x] eqn:Hinit.
  2: { intro H; injection H as <-. exists []. cbn [r_file map].
       split; [reflexivity |]. split; [apply (Hdr []) | constructor]. }
  destruct (init_out_file _ _ _ _ Hinit) as [Hpath _].
  destruct (init_state _ _ _ _ Hinit) as (Hmr & _).
  destruct (loop fuel up (str_upper sym) (end_ms mr) 0 st0) as [[st how] |] eqn:Hloop;
    [| discriminate].
  destruct (loop_accepted _ _ _ _ _ _ _ _ Hloop) as (ens & F & _ & _ & A & _ & U).
  rewrite Hpath in F.
  assert (G : exists ens0,
             out_file st = write_rows path (map row_for ens0)
             /\ (exists hdr,
                    records (out_file st) = records path ++ hdr ++ map row_for ens0
                    /\ (hdr = [] \/ hdr = [HEADER] /\ records path = [] /\ ens0 <> []))
             /\ Forall (fun en =>
                          e_open_time en mod 60000 = 0
                          /\ ms_to_iso8601 (close_of en) = Ok (stamp en)
                          /\ (exists n rq, In en (body (up n rq)))
                          /\ (forall mr0, build_minute_range date = Ok mr0 ->
                                          close_of en <= end_ms mr0)) ens0).
  { exists ens. split; [exact F |]. split; [rewrite F; apply Hdr |].
    rewrite Forall_forall in *. intros en Hin.
    destruct (A en Hin) as (Hal & Hle & Hts).
    repeat split; try assumption.
    - exact (U en Hin).
    - intros mr0 Hmr0. rewrite Hmr in Hmr0. injection Hmr0 as <-. exact Hle. }
  destruct how; intro H; injection H as <-; exact G.
Qed.

Lemma fetch_klines_only_appends_accepted_rows_witness :
  exists ens,
    r_file (mk_run (written [HEADER; row_at "2024-01-01T00:01:00.000000Z"])
                   [] Returned false)
    = write_rows None (map row_for ens)
    /\ (exists hdr,
           records (r_file (mk_run (written [HEADER; row_at "2024-01-01T00:01:00.000000Z"])
                                   [] Returned false))
           = records None ++ hdr ++ map row_for ens
           /\ (hdr = [] \/ hdr = [HEADER] /\ records None = [] /\ ens <> []))
    /\ Forall (fun en =>
                 e_open_time en mod 60000 = 0
                 /\ ms_to_iso8601 (close_of en) = Ok (stamp en)
                 /\ (exists n rq, In en (body (once [kline 1704067200000] n rq)))
                 /\ (forall mr, build_minute_range "2024-01-01" = Ok mr ->
                                close_of en <= end_ms mr)) ens.
Proof.
  apply (fetch_klines_only_appends_accepted_rows
           2 (once [kline 1704067200000]) "btcusdt" "2024-01-01" None).
  - now left.
  - vm_compute. reflexivity.
Defined.

(** ** Order of the accepted rows *)

Lemma chain_increasing (prev : option Z) (ens : list entry) :
  prev <> Some 0 ->
  Forall (fun en => close_of en <> 0) ens ->
  chain prev ens ->
  increasing_after prev (map close_of ens).
Proof.
  revert prev. induction ens as [| en ens IH]; intros prev Hp Hnz Hc; [exact I |].
  inversion Hnz as [| ? ? Hen Hrest]; subst. destruct Hc as [Hf Hc]. split.
  - destruct prev as [l |]; [| exact I]. destruct Hf as [-> | Hlt];
      [congruence | exact Hlt].
  - apply IH; [congruence | exact Hrest | exact Hc].
Qed.

(** X6.  When neither the resume point nor any record the upstream returns
    closes at exactly 0, the rows a run appends are in strictly increasing
    order of close time, all later than the resume point: no close time is
    written twice. *)
Theorem fetch_klines_appends_in_increasing_order :
  forall (fuel : nat) (up : upstream) (sym date : string) (path : file)
         (mr : MinuteRange) (st0 : state) (r : run),
    init date path = Ok (mr, st0) ->
    last_close_ms st0 <> Some 0 ->
    (forall n rq en, In en (body (up n rq)) -> close_of en <> 0) ->
    fetch_klines fuel up sym date path = Some r ->
    exists ens,
      r_file r = write_rows path (map row_for ens)
      /\ increasing_after (last_close_ms st0) (map close_of ens).
Proof.
  intros fuel up sym date path mr st0 r Hinit Hnz Hup. unfold fetch_klines.
  rewrite Hinit. destruct (init_out_file _ _ _ _ Hinit) as [Hpath _].
  destruct (loop fuel up (str_upper sym) (end_ms mr) 0 st0) as [[st how] |] eqn:Hloop;
    [| discriminate].
  destruct (loop_accepted _ _ _ _ _ _ _ _ Hloop) as (ens & F & _ & _ & _ & C & U).
  assert (G : out_file st = write_rows path (map row_for ens)
              /\ increasing_after (last_close_ms st0) (map close_of ens)).
  { split; [now rewrite F, Hpath |]. apply chain_increasing; try assumption.
    rewrite Forall_forall in *. intros en Hin.
    destruct (U en Hin) as (n & rq & Hb). eauto. }
  destruct how; intro H; injection H as <-; exists ens; exact G.
Qed.

Lemma fetch_klines_appends_in_increasing_order_witness :
  exists ens,
    r_file (mk_run (written [HEADER; row_at "2024-01-01T00:01:00.000000Z";
                             row_at "2024-01-01T00:02:00.000000Z"])
                   [] Returned false)
    = write_rows None (map row_for ens)
    /\ increasing_after None (map close_of ens).
Proof.
  apply (fetch_klines_appends_in_increasing_order
           2 (once [kline 1704067200000; kline 1704067200000; kline 1704067260000])
           "btcusdt" "2024-01-01" None day_2024 fresh_2024).
  - vm_compute. reflexivity.
  - discriminate.
  - intros [| n] rq en; simpl; [| contradiction].
    intros [<- | [<- | [<- | []]]]; vm_compute; discriminate.
  - vm_compute. reflexivity.
Defined.

(** X7.  When the run reports "no new data fetched; CSV already up to
    date", it returned normally, a resume point existed, and the file is
    exactly the one it was given. *)
Theorem up_to_date_means_file_unchanged :
  forall (fuel : nat) (up : upstream) (sym date : string) (path : file) (r : run),
    fetch_klines fuel up sym date path = Some r ->
    r_up_to_date r = true ->
    r_file r = path /\ r_ending r = Returned
    /\ truthy_str (read_last_timestamp path) = true.
Proof.
  intros fuel up sym date path r. unfold fetch_klines.
  destruct (init date path) as [[mr st0] | x] eqn:Hinit.
  2: { intro H; injection H as <-. discriminate. }
  destruct (init_out_file _ _ _ _ Hinit) as [Hpath Hprog].
  destruct (loop fuel up (str_upper sym) (end_ms mr) 0 st0) as [[st how] |] eqn:Hloop;
    [| discriminate].
  destruct (loop_accepted _ _ _ _ _ _ _ _ Hloop) as (ens & F & _ & P & _).
  destruct how; intro H; injection H as <-; cbn; [| discriminate].
  intro Hflag. apply andb_prop in Hflag as [Hnp Htr].
  apply negb_true_iff in Hnp. rewrite Hnp, Hprog in P. simpl in P.
  destruct ens; [| discriminate]. simpl in F.
  repeat split; [now rewrite F, Hpath | exact Htr].
Qed.

Lemma up_to_date_means_file_unchanged_witness :
  r_file (mk_run series_to_epoch [] Returned true) = series_to_epoch
  /\ r_ending (mk_run series_to_epoch [] Returned true) = Returned
  /\ truthy_str (read_last_timestamp series_to_epoch) = true.
Proof.
  apply (up_to_date_means_file_unchanged
           2 (always (Response 200 [])) "btcusdt" "1970-01-01" series_to_epoch).
  - vm_compute. reflexivity.
  - reflexivity.
Defined.

(** ** Resuming *)

(** a value [ms_to_iso8601] can write lies in years 1..9999, and its text
    is what [strftime] writes for some value *)
Lemma ms_to_iso8601_ok (ms : Z) (s : string) :
  ms_to_iso8601 ms = Ok s ->
  -62135596800000 <= ms < 253402300800000
  /\ exists dt, s = strftime dt ISO_FORMAT.
Proof.
  unfold ms_to_iso8601, fromtimestamp_utc, add_timedelta.
  destruct (of_us ((EPOCH_ORDINAL * 86400 + ms / 1000) * US_PER_SECOND) utc)
    as [dt0 |] eqn:E0; cbn [bind]; [| discriminate].
  destruct (of_us (to_us dt0 + ms mod 1000 * 1000) (tzinfo dt0)) as [dt |];
    cbn [bind]; [| discriminate].
  intro H. assert (Es : s = strftime dt ISO_FORMAT) by congruence.
  clear H. subst s. split.
  - apply of_us_range in E0.
    unfold EPOCH_ORDINAL, US_PER_DAY, US_PER_SECOND, MAXORDINAL in E0.
    Z.div_mod_to_equations. lia.
  - now exists dt.
Qed.

(** every text [ms_to_iso8601] writes starts with a digit: it is neither
    empty nor the first cell of a header *)
Lemma stamp_starts_with_digit (ms : Z) (ts : string) :
  ms_to_iso8601 ms = Ok ts ->
  exists c rest, ts = String c rest /\ is_digit c = true.
Proof.
  intro H. apply ms_to_iso8601_ok in H as [_ [dt ->]].
  rewrite strftime_ISO_FORMAT_year. unfold decimal.
  destruct (_ <? 10); [| destruct (_ <? 100); [| destruct (_ <? 1000)]];
    cbn [zfill append]; eexists _, _; (split; [reflexivity |]);
    apply digit_char_digit, mod10_digit.
Qed.

Lemma stamp_shape (ms : Z) (ts : string) :
  ms_to_iso8601 ms = Ok ts -> ts <> "timestamp" /\ ts <> "".
Proof.
  intro H. destruct (stamp_starts_with_digit ms ts H) as (c & rest & -> & D).
  split; intro E; [| discriminate].
  assert (Ec : c = "t"%char) by congruence. now subst c.
Qed.

Lemma stamp_not_header (en : entry) (ts : string) :
  ms_to_iso8601 (close_of en) = Ok ts -> ts <> "timestamp" /\ ts <> "".
Proof. apply stamp_shape. Qed.

Lemma last_close_last (prev : option Z) (ens : list entry) (en : entry) :
  last_close prev (ens ++ [en]) = Some (close_of en).
Proof. unfold last_close. now rewrite fold_left_app. Qed.

(** what a run that accepted something leaves for the next one, when it
    started on no file or on a file [csv.writer] wrote *)
Lemma accepted_leaves_resume_point (up : upstream) (e : Z) (st0 st : state)
      (ens : list entry) (en : entry) :
  accepted up e st0 st (ens ++ [en]) ->
  written_by_csv (out_file st0) ->
  last_close_ms st = Some (close_of en)
  /\ read_last_timestamp (out_file st) = Some (stamp en)
  /\ ms_to_iso8601 (close_of en) = Ok (stamp en)
  /\ close_of en mod 60000 = 0
  /\ close_of en <= e.
Proof.
  intros (F & L & _ & A & _) W.
  apply Forall_app in A as [_ A]. inversion A as [| ? ? (Hal & Hle & Hts) _]; subst.
  split; [now rewrite L, last_close_last |].
  split.
  - rewrite F, map_app. cbn [map]. unfold row_for at 2. unfold row_of.
    apply read_last_timestamp_written; [exact W |].
    now apply (stamp_not_header en).
  - repeat split; try assumption. unfold close_of.
    replace (e_open_time en + 60000) with (e_open_time en + 1 * 60000) by ring.
    now rewrite Z_mod_plus_full.
Qed.

(** X8.  A run that changed the file leaves it resumable, when it started
    on no file or on a file [csv.writer] wrote (every record ended by its
    line terminator): the file is the one it was given with the rows of
    the accepted records appended; its last row is that of the last
    accepted record [en], stamped with the close time [l = close_of en],
    which is minute-aligned; and when [l >= 0] that stamp parses back to
    [l], so that a following run, for any date, starts with its cursor at
    [max start (l - 60000)] and with [l] as its last accepted close. *)
Theorem fetch_klines_leaves_a_resume_point :
  forall (fuel : nat) (up : upstream) (sym date : string) (path : file) (r : run),
    written_by_csv path ->
    fetch_klines fuel up sym date path = Some r ->
    r_file r <> path ->
    exists ens en ts,
      r_file r = write_rows path (map row_for (ens ++ [en]))
      /\ (exists n rq, In en (body (up n rq)))
      /\ read_last_timestamp (r_file r) = Some ts
      /\ ms_to_iso8601 (close_of en) = Ok ts
      /\ close_of en mod 60000 = 0
      /\ (0 <= close_of en ->
          iso8601_to_ms ts = Ok (close_of en)
          /\ forall date' mr',
               build_minute_range date' = Ok mr' ->
               init date' (r_file r)
               = Ok (mr', mk_state (Z.max (start_ms mr') (close_of en - 60000))
                                   (Some (close_of en))
                                   BACKOFF_SECONDS false (r_file r) [])).
Proof.
  intros fuel up sym date path r W. unfold fetch_klines.
  destruct (init date path) as [[mr st0] | x] eqn:Hinit.
  2: { intro H; injection H as <-. intro Hne. now elim Hne. }
  destruct (init_out_file _ _ _ _ Hinit) as [Hpath _].
  destruct (loop fuel up (str_upper sym) (end_ms mr) 0 st0) as [[st how] |] eqn:Hloop;
    [| discriminate].
  destruct (loop_accepted _ _ _ _ _ _ _ _ Hloop) as (ens0 & Hacc).
  assert (G : out_file st <> path ->
              exists ens en ts,
                out_file st = write_rows path (map row_for (ens ++ [en]))
                /\ (exists n rq, In en (body (up n rq)))
                /\ read_last_timestamp (out_file st) = Some ts
                /\ ms_to_iso8601 (close_of en) = Ok ts
                /\ close_of en mod 60000 = 0
                /\ (0 <= close_of en ->
                    iso8601_to_ms ts = Ok (close_of en)
                    /\ forall date' mr',
                         build_minute_range date' = Ok mr' ->
                         init date' (out_file st)
                         = Ok (mr', mk_state
                                      (Z.max (start_ms mr') (close_of en - 60000))
                                      (Some (close_of en)) BACKOFF_SECONDS false
                                      (out_file st) []))).
  { intro Hne.
    assert (Hens : ens0 <> []).
    { intros ->. destruct Hacc as (F & _). simpl in F. congruence. }
    destruct (exists_last Hens) as (ens & en & ->).
    rewrite <- Hpath in W.
    destruct (accepted_leaves_resume_point _ _ _ _ _ _ Hacc W)
      as (_ & Hr & Hts & Hal & _).
    destruct Hacc as (F & _ & _ & _ & _ & U).
    apply Forall_app in U as [_ U]. inversion U as [| ? ? Hup _]; subst.
    exists ens, en, (stamp en).
    split; [now rewrite F |]. split; [exact Hup |].
    split; [exact Hr |]. split; [exact Hts |]. split; [exact Hal |].
    intro H0.
    pose proof (ms_to_iso8601_ok _ _ Hts) as [[_ Hhi] _].
    assert (Hrt : iso8601_to_ms (stamp en) = Ok (close_of en)).
    { assert (X : (s <- ms_to_iso8601 (close_of en) ;; iso8601_to_ms s)
                  = Ok (close_of en)).
      { apply whole_seconds_round_trip; [lia |]. Z.div_mod_to_equations. lia. }
      now rewrite Hts in X. }
    split; [exact Hrt |].
    intros date' mr' Hb.
    apply init_resume with (ts := stamp en); try assumption.
    exact (proj2 (stamp_shape _ _ Hts)). }
  destruct how; intro H; injection H as <-; exact G.
Qed.

Lemma fetch_klines_leaves_a_resume_point_witness :
  exists ens en ts,
    r_file (mk_run (written [HEADER; row_at "2024-01-01T00:01:00.000000Z"])
                   [] Returned false)
    = write_rows None (map row_for (ens ++ [en]))
    /\ (exists n rq, In en (body (once [kline 1704067200000] n rq)))
    /\ read_last_timestamp
         (r_file (mk_run (written [HEADER; row_at "2024-01-01T00:01:00.000000Z"])
                         [] Returned false)) = Some ts
    /\ ms_to_iso8601 (close_of en) = Ok ts
    /\ close_of en mod 60000 = 0
    /\ (0 <= close_of en ->
        iso8601_to_ms ts = Ok (close_of en)
        /\ forall date' mr',
             build_minute_range date' = Ok mr' ->
             init date'
                  (r_file (mk_run (written [HEADER;
                                            row_at "2024-01-01T00:01:00.000000Z"])
                                  [] Returned false))
             = Ok (mr', mk_state (Z.max (start_ms mr') (close_of en - 60000))
                                 (Some (close_of en))
                                 BACKOFF_SECONDS false
                                 (r_file (mk_run (written [HEADER;
                                                           row_at "2024-01-01T00:01:00.000000Z"])
                                                 [] Returned false)) [])).
Proof.
  apply (fetch_klines_leaves_a_resume_point
           2 (once [kline 1704067200000]) "btcusdt" "2024-01-01" None).
  - now left.
  - vm_compute. reflexivity.
  - discriminate.
Defined.

Lemma init_last_close (date : string) (path : file) (mr : MinuteRange)
      (st0 : state) (ts : string) (l : Z) :
  init date path = Ok (mr, st0) ->
  read_last_timestamp path = Some ts ->
  iso8601_to_ms ts = Ok l ->
  last_close_ms st0 = Some l.
Proof.
  unfold init. intros H Hr Hl. rewrite Hr in H.
  destruct (build_minute_range date) as [r |]; cbn [bind] in H; [| discriminate].
  destruct ts as [| c ts']; [discriminate |]. cbn [truthy_str] in H.
  rewrite Hl in H. cbn [bind] in H.
  destruct (ensure_minute_alignment l); cbn [bind] in H; [| discriminate].
  destruct (minute_open_from_close l); cbn [bind] in H; [| discriminate].
  injection H as _ <-. reflexivity.
Qed.

(** X9.  Running again with no new upstream data changes nothing: when the
    file's last timestamp parses to a close [l <> 0] and every record the
    upstream returns closes at [l] or earlier, the file the run leaves is
    the file it was given, however the run ends; and if it returns normally
    it reports that the file is up to date. *)
Theorem fetch_klines_without_new_data_leaves_file :
  forall (fuel : nat) (up : upstream) (sym date : string) (path : file)
         (ts : string) (l : Z) (r : run),
    read_last_timestamp path = Some ts ->
    iso8601_to_ms ts = Ok l ->
    l <> 0 ->
    (forall n rq en, In en (body (up n rq)) -> close_of en <= l) ->
    fetch_klines fuel up sym date path = Some r ->
    r_file r = path
    /\ (r_ending r = Returned -> r_up_to_date r = true).
Proof.
  intros fuel up sym date path ts l r Hr Hl Hnz Hup. unfold fetch_klines.
  destruct (init date path) as [[mr st0] | x] eqn:Hinit.
  2: { intro H; injection H as <-. split; [reflexivity | discriminate]. }
  destruct (init_out_file _ _ _ _ Hinit) as [Hpath Hprog].
  pose proof (init_last_close _ _ _ _ _ _ Hinit Hr Hl) as Hlast.
  destruct (loop fuel up (str_upper sym) (end_ms mr) 0 st0) as [[st how] |] eqn:Hloop;
    [| discriminate].
  destruct (loop_accepted _ _ _ _ _ _ _ _ Hloop) as (ens & F & _ & P & _ & C & U).
  assert (Hens : ens = []).
  { destruct ens as [| en ens]; [reflexivity |]. exfalso.
    rewrite Hlast in C. destruct C as [[E0 | Hlt] _]; [contradiction |].
    inversion U as [| ? ? (n & rq & Hin) _]; subst.
    specialize (Hup n rq en Hin). lia. }
  subst ens. simpl in F, P. rewrite orb_false_r in P.
  assert (Htr : truthy_str (read_last_timestamp path) = true).
  { rewrite Hr. destruct ts; [discriminate | reflexivity]. }
  destruct how; intro H; injection H as <-; cbn.
  - split; [congruence |]. intros _. now rewrite P, Hprog, Htr.
  - split; [congruence | discriminate].
Qed.

Lemma fetch_klines_without_new_data_leaves_file_witness :
  r_file (mk_run (written [HEADER; row_at "2024-01-01T00:01:00.000000Z"])
                 [] Returned true)
  = written [HEADER; row_at "2024-01-01T00:01:00.000000Z"]
  /\ (r_ending (mk_run (written [HEADER; row_at "2024-01-01T00:01:00.000000Z"])
                       [] Returned true) = Returned ->
      r_up_to_date (mk_run (written [HEADER; row_at "2024-01-01T00:01:00.000000Z"])
                           [] Returned true) = true).
Proof.
  apply (fetch_klines_without_new_data_leaves_file
           2 (once [kline 1704067200000]) "btcusdt" "2024-01-01"
           (written [HEADER; row_at "2024-01-01T00:01:00.000000Z"])
           "2024-01-01T00:01:00.000000Z" 1704067260000).
  - reflexivity.
  - vm_compute. reflexivity.
  - discriminate.
  - intros [| n] rq en; simpl; [| contradiction].
    intros [<- | []]. vm_compute. discriminate.
  - vm_compute. reflexivity.
Defined.

(** ** Transient failures in a row *)

Lemma failures_fields (k : nat) (st : state) :
  start_open_ms (failures k st) = start_open_ms st
  /\ last_close_ms (failures k st) = last_close_ms st
  /\ has_progress (failures k st) = has_progress st
  /\ out_file (failures k st) = out_file st.
Proof.
  induction k as [| k IH]; [repeat split |]. simpl. exact IH.
Qed.

Lemma failures_backoff (k : nat) (st : state) :
  1 <= backoff st <= 60 ->
  backoff (failures k st) = Z.min (backoff st * 2 ^ Z.of_nat k) 60.
Proof.
  intro H. induction k as [| k IH].
  - simpl. rewrite Z.mul_1_r. lia.
  - cbn [failures back_off backoff]. rewrite IH. unfold BACKOFF_CAP.
    rewrite Nat2Z.inj_succ, Z.pow_succ_r by lia.
    assert (0 < 2 ^ Z.of_nat k) by (apply Z.pow_pos_nonneg; lia).
    set (p := 2 ^ Z.of_nat k) in *.
    replace (backoff st * (2 * p)) with (2 * (backoff st * p)) by ring.
    assert (0 < backoff st * p) by nia. lia.
Qed.

Lemma failures_slept (k : nat) (st : state) :
  1 <= backoff st <= 60 ->
  slept (failures k st)
  = slept st
    ++ map (fun i => Z.min (backoff st * 2 ^ Z.of_nat i) 60) (seq 0 k).
Proof.
  intro H. induction k as [| k IH].
  - simpl. now rewrite app_nil_r.
  - cbn [failures back_off slept]. rewrite IH, failures_backoff by exact H.
    rewrite seq_S, map_app, app_assoc. reflexivity.
Qed.

(** X10.  [k] transient failures in a row (network errors or status 429)
    cost [k] turns of the loop and nothing else: the cursor, the last
    accepted close and the file stay as they are, the run sleeps
    [min (b * 2^i) 60] seconds after the [i]-th of them, [b] being the
    back-off it entered with, and it goes on with a back-off of
    [min (b * 2^k) 60]; from the initial back-off of 1 second the waits are
    1, 2, 4, 8, 16, 32, 60, 60, ... *)
Theorem consecutive_failures_back_off_exponentially :
  forall (up : upstream) (sym : string) (e : Z) (k n fuel : nat) (st : state),
    1 <= backoff st <= 60 ->
    start_open_ms st < e ->
    (forall i, (i < k)%nat -> transient (up (n + i)%nat (params sym e st)) = true) ->
    loop (k + fuel) up sym e n st = loop fuel up sym e (n + k) (failures k st)
    /\ backoff (failures k st) = Z.min (backoff st * 2 ^ Z.of_nat k) 60
    /\ slept (failures k st)
       = slept st ++ map (fun i => Z.min (backoff st * 2 ^ Z.of_nat i) 60) (seq 0 k)
    /\ start_open_ms (failures k st) = start_open_ms st
    /\ last_close_ms (failures k st) = last_close_ms st
    /\ out_file (failures k st) = out_file st.
Proof.
  intros up sym e k n fuel st Hb Hlt Hall.
  destruct (failures_fields k st) as (Fc & Fl & _ & Ff).
  split; [| split; [now apply failures_backoff |
                    split; [now apply failures_slept | auto]]].
  clear Fc Fl Ff. revert fuel. induction k as [| k IH]; intro fuel.
  - simpl. now rewrite Nat.add_0_r.
  - replace (S k + fuel)%nat with (k + S fuel)%nat by lia.
    rewrite IH by (intros i Hi; apply Hall; lia).
    destruct (failures_fields k st) as (Fc & _).
    assert (Hp : params sym e (failures k st) = params sym e st)
      by (unfold params; now rewrite Fc).
    rewrite loop_retries.
    + now replace (S (n + k)) with (n + S k)%nat by lia.
    + now rewrite Fc.
    + rewrite Hp. apply Hall. lia.
Qed.

Lemma consecutive_failures_back_off_exponentially_witness :
  loop (7 + 1) (fun n _ => if (n <? 7)%nat then RequestException else Response 200 [])
       "BTCUSDT" 1704153600000 0 fresh_2024
  = loop 1 (fun n _ => if (n <? 7)%nat then RequestException else Response 200 [])
         "BTCUSDT" 1704153600000 (0 + 7) (failures 7 fresh_2024)
  /\ backoff (failures 7 fresh_2024) = Z.min (backoff fresh_2024 * 2 ^ Z.of_nat 7) 60
  /\ slept (failures 7 fresh_2024)
     = slept fresh_2024
       ++ map (fun i => Z.min (backoff fresh_2024 * 2 ^ Z.of_nat i) 60) (seq 0 7)
  /\ start_open_ms (failures 7 fresh_2024) = start_open_ms fresh_2024
  /\ last_close_ms (failures 7 fresh_2024) = last_close_ms fresh_2024
  /\ out_file (failures 7 fresh_2024) = out_file fresh_2024.
Proof.
  apply (consecutive_failures_back_off_exponentially
           (fun n _ => if (n <? 7)%nat then RequestException else Response 200 [])
           "BTCUSDT" 1704153600000 7 0 1 fresh_2024).
  - simpl. lia.
  - reflexivity.
  - intros i Hi. simpl. apply Nat.ltb_lt in Hi. now rewrite Hi.
Defined.

(** ** Before the first request *)

Lemma build_minute_range_raises (date : string) (x : exn) :
  build_minute_range date = Raise x -> x = ValueError \/ x = OverflowError.
Proof.
  unfold build_minute_range, date_to_utc_range, parse_utc_date.
  destruct (String.eqb date ""); cbn [bind].
  - intro H; injection H as <-. now left.
  - destruct (strptime date "%Y-%m-%d") as [dt |] eqn:P; cbn [bind].
    + unfold add_timedelta. destruct (of_us _ _); cbn [bind]; [discriminate |].
      intro H; injection H as <-. now right.
    + intro H; injection H as <-. left. now apply (strptime_raises _ _ _ P).
Qed.

Lemma iso8601_to_ms_raises (value : string) (x : exn) :
  iso8601_to_ms value = Raise x -> x = ValueError.
Proof.
  rewrite iso8601_to_ms_eq. destruct (String.eqb value "").
  - now intro H; injection H.
  - destruct (strptime value ISO_FORMAT) as [dt |] eqn:P; cbn [bind];
      [discriminate |].
    intro H; injection H as <-. now apply (strptime_raises _ _ _ P).
Qed.

(** X11.  A resume timestamp that does not parse, or that parses to a
    value off the minute grid, stops the run before it asks the upstream
    anything: [fetch_klines] raises ([ValueError], or whatever the date
    itself raised), the file is untouched and nothing has been slept,
    whatever the upstream would have answered. *)
Theorem bad_resume_point_aborts_before_any_request :
  forall (fuel : nat) (up : upstream) (sym date : string) (path : file)
         (ts : string),
    read_last_timestamp path = Some ts ->
    ts <> "" ->
    (forall l, iso8601_to_ms ts = Ok l -> l mod 60000 <> 0) ->
    exists x,
      fetch_klines fuel up sym date path = Some (mk_run path [] (Raised x) false)
      /\ (x = ValueError \/ x = OverflowError)
      /\ (forall mr, build_minute_range date = Ok mr -> x = ValueError).
Proof.
  intros fuel up sym date path ts Hr Hne Hbad.
  assert (Hinit : exists x, init date path = Raise x
                            /\ (x = ValueError \/ x = OverflowError)
                            /\ (forall mr, build_minute_range date = Ok mr ->
                                           x = ValueError)).
  { unfold init. destruct (build_minute_range date) as [mr |] eqn:Hb; cbn [bind].
    - rewrite Hr. destruct ts as [| c ts']; [congruence |]. cbn [truthy_str].
      destruct (iso8601_to_ms (String c ts')) as [l |] eqn:Hl; cbn [bind].
      + rewrite ensure_minute_alignment_eq.
        destruct (Z.eqb_spec (l mod 60000) 0) as [E | _];
          [now elim (Hbad l eq_refl) |].
        cbn [bind]. exists ValueError. auto.
      + exists e. pose proof (iso8601_to_ms_raises _ _ Hl) as ->. auto.
    - exists e. split; [reflexivity |].
      split; [now apply (build_minute_range_raises date) | discriminate]. }
  destruct Hinit as (x & Hx & Hkind & Hdate). exists x.
  unfold fetch_klines. rewrite Hx. auto.
Qed.

Lemma bad_resume_point_aborts_before_any_request_witness :
  exists x,
    fetch_klines 0 every_minute "btcusdt" "2024-01-01"
                 (written [HEADER; row_at "2024-01-01T00:00:30.000000Z"])
    = Some (mk_run (written [HEADER; row_at "2024-01-01T00:00:30.000000Z"])
                   [] (Raised x) false)
    /\ (x = ValueError \/ x = OverflowError)
    /\ (forall mr, build_minute_range "2024-01-01" = Ok mr -> x = ValueError).
Proof.
  apply (bad_resume_point_aborts_before_any_request
           0 every_minute "btcusdt" "2024-01-01"
           (written [HEADER; row_at "2024-01-01T00:00:30.000000Z"])
           "2024-01-01T00:00:30.000000Z").
  - reflexivity.
  - discriminate.
  - intros l Hl. vm_compute in Hl. injection Hl as <-. discriminate.
Defined.

(** ** The window of a date *)

Lemma Ok_inj {A : Type} (a b : A) : Ok a = Ok b -> a = b.
Proof. intro H. now injection H. Qed.

Lemma round_opp (n d : Z) :
  round (- n) d = (- fst (round n d), snd (round n d)).
Proof.
  unfold round. rewrite Z.abs_opp, Z.sgn_opp.
  replace (- n =? 0) with (n =? 0)
    by (destruct (Z.eqb_spec n 0), (Z.eqb_spec (- n) 0); lia || reflexivity).
  destruct (n =? 0); [reflexivity |]. cbv zeta. cbn [fst snd].
  f_equal. ring.
Qed.

Lemma mul_opp (x y : b64) :
  mul (- fst x, snd x) y = (- fst (mul x y), snd (mul x y)).
Proof.
  destruct x as [m1 e1], y as [m2 e2]. unfold mul. cbn [fst snd].
  destruct (0 <=? e1 + e2).
  - replace (- m1 * m2 * 2 ^ (e1 + e2)) with (- (m1 * m2 * 2 ^ (e1 + e2))) by ring.
    apply round_opp.
  - replace (- m1 * m2) with (- (m1 * m2)) by ring. apply round_opp.
Qed.

Lemma to_int_opp (x : b64) : to_int (- fst x, snd x) = - to_int x.
Proof.
  destruct x as [m e]. unfold to_int. cbn [fst snd].
  destruct (Z.leb_spec 0 e) as [He | He]; [ring |].
  apply Z.quot_opp_l.
  assert (0 < 2 ^ (- e)) by (apply Z.pow_pos_nonneg; lia). lia.
Qed.

(** [whole_seconds_to_ms] for either sign *)
Lemma whole_seconds_to_ms_signed (s : Z) :
  - 2 ^ 53 < 1000 * s < 2 ^ 53 ->
  to_int (mul (truediv (s * 1000000) 1000000) (of_int 1000)) = 1000 * s.
Proof.
  intro H. destruct (Z.le_gt_cases 0 s) as [Hs | Hs].
  - apply whole_seconds_to_ms; lia.
  - unfold truediv. replace (s * 1000000) with (- (- s * 1000000)) by ring.
    rewrite round_opp, mul_opp, to_int_opp.
    pose proof (whole_seconds_to_ms (- s) ltac:(lia) ltac:(lia)) as W.
    unfold truediv in W. rewrite W. ring.
Qed.

(** what [strptime] returns for ["%Y-%m-%d"]: a date at midnight *)
Lemma strptime_date (date : string) (dt : datetime) :
  strptime date "%Y-%m-%d" = Ok dt ->
  hour dt = 0 /\ minute dt = 0 /\ second dt = 0 /\ microsecond dt = 0
  /\ tzinfo dt = None.
Proof.
  unfold strptime. change (compile "%Y-%m-%d")
    with [Dir "Y"; Lit "-"; Dir "m"; Lit "-"; Dir "d"].
  destruct (match_items _ date found_default) as [[a rest] |] eqn:M; [| discriminate].
  assert (Ha : fH a = 0 /\ fM a = 0 /\ fS a = 0 /\ ff a = 0).
  { cbn [match_items] in M.
    apply first_some_found in M as ([v1 r1] & _ & M). cbn [fst snd] in M.
    destruct r1 as [| c1 r1]; [discriminate |].
    destruct (ci_eqb "-" c1); [| discriminate].
    apply first_some_found in M as ([v2 r2] & _ & M). cbn [fst snd] in M.
    destruct r2 as [| c2 r2]; [discriminate |].
    destruct (ci_eqb "-" c2); [| discriminate].
    apply first_some_found in M as ([v3 r3] & _ & M). cbn [fst snd] in M.
    injection M as <- _. repeat split. }
  destruct Ha as (H1 & H2 & H3 & H4).
  destruct rest; [| discriminate]. unfold make.
  destruct (check_date_fields _ _ _ && check_time_fields _ _ _ _); [| discriminate].
  intro H; injection H as <-. cbn. auto.
Qed.

(** the milliseconds of a UTC midnight, or of any whole second *)
Lemma timestamp_ms_whole_seconds (dt : datetime) (s : Z) :
  tzinfo dt = utc ->
  to_us dt = (EPOCH_ORDINAL * 86400 + s) * US_PER_SECOND ->
  - 2 ^ 53 < 1000 * s < 2 ^ 53 ->
  timestamp_ms dt = 1000 * s.
Proof.
  intros T U B. unfold timestamp_ms, timestamp. rewrite T, U. cbn [utc].
  replace ((EPOCH_ORDINAL * 86400 + s) * US_PER_SECOND - 0 * US_PER_SECOND
           - EPOCH_ORDINAL * US_PER_DAY)
    with (s * 1000000)
    by (unfold US_PER_DAY, US_PER_SECOND; ring).
  unfold US_PER_SECOND. now apply whole_seconds_to_ms_signed.
Qed.

(** the window of a date: its midnight and the next one *)
Lemma build_minute_range_window :
  forall (date : string) (r : MinuteRange),
    build_minute_range date = Ok r ->
    exists dt,
      parse_utc_date date = Ok dt
      /\ hour dt = 0 /\ minute dt = 0 /\ second dt = 0 /\ microsecond dt = 0
      /\ start_ms r = (toordinal dt - EPOCH_ORDINAL) * 86400000
      /\ end_ms r = start_ms r + 86400000
      /\ duration_ms r = 86400000
      /\ ensure_minute_alignment (start_ms r) = Ok tt
      /\ ensure_minute_alignment (end_ms r) = Ok tt.
Proof.
  intros date r. unfold build_minute_range, date_to_utc_range, parse_utc_date.
  destruct (String.eqb date ""); cbn [bind]; [discriminate |].
  destruct (strptime date "%Y-%m-%d") as [dt0 |] eqn:P; cbn [bind]; [| discriminate].
  destruct (strptime_date _ _ P) as (HH & HM & HS & Hus & _).
  set (dt := replace_tzinfo dt0 utc).
  unfold add_timedelta.
  destruct (of_us (to_us dt + US_PER_DAY) (tzinfo dt)) as [dte |] eqn:E;
    cbn [bind]; [| discriminate].
  intro H. apply Ok_inj in H. subst r.
  cbn [start_ms end_ms fst snd]. unfold duration_ms. cbn [start_ms end_ms].
  pose proof (of_us_range _ _ _ E) as R.
  destruct (of_us_to_us _ _ _ E) as [Ue Te].
  assert (Udt : to_us dt = toordinal dt0 * 86400 * US_PER_SECOND).
  { unfold dt. rewrite to_us_replace_tzinfo. unfold to_us.
    rewrite HH, HM, HS, Hus. ring. }
  rewrite Udt in *. unfold US_PER_DAY, US_PER_SECOND, MAXORDINAL in R.
  assert (Bo : 0 <= toordinal dt0 < 3652059) by lia.
  assert (Sstart : timestamp_ms dt = 1000 * ((toordinal dt0 - EPOCH_ORDINAL) * 86400)).
  { apply timestamp_ms_whole_seconds; [reflexivity | |].
    - rewrite Udt. ring.
    - change (2 ^ 53) with 9007199254740992. unfold EPOCH_ORDINAL. lia. }
  assert (Send : timestamp_ms dte
                 = 1000 * ((toordinal dt0 - EPOCH_ORDINAL) * 86400 + 86400)).
  { apply timestamp_ms_whole_seconds; [exact Te | |].
    - rewrite Ue. unfold US_PER_DAY. ring.
    - change (2 ^ 53) with 9007199254740992. unfold EPOCH_ORDINAL. lia. }
  exists dt. split; [reflexivity |].
  assert (Hto : toordinal dt = toordinal dt0) by reflexivity.
  rewrite Sstart, Send, Hto, !ensure_minute_alignment_eq.
  replace ((1000 * ((toordinal dt0 - EPOCH_ORDINAL) * 86400)) mod 60000) with 0
    by (symmetry; apply Z.mod_divide; [lia |];
        exists ((toordinal dt0 - EPOCH_ORDINAL) * 1440); ring).
  replace ((1000 * ((toordinal dt0 - EPOCH_ORDINAL) * 86400 + 86400)) mod 60000)
    with 0
    by (symmetry; apply Z.mod_divide; [lia |];
        exists ((toordinal dt0 - EPOCH_ORDINAL) * 1440 + 1440); ring).
  cbn [Z.eqb]. repeat split; try assumption; ring.
Qed.

(** X12.  The window [build_minute_range] returns for a date is that
    date's UTC day: it starts at the date's midnight, a multiple of
    86400000 ms counted from the epoch in days of the proleptic Gregorian
    calendar, and ends exactly 86400000 ms later; so [duration_ms] is
    86400000 and both bounds are minute-aligned, also for dates before
    1970. *)
Theorem build_minute_range_is_one_utc_day :
  forall (date : string) (r : MinuteRange),
    build_minute_range date = Ok r ->
    exists dt,
      parse_utc_date date = Ok dt
      /\ hour dt = 0 /\ minute dt = 0 /\ second dt = 0 /\ microsecond dt = 0
      /\ start_ms r = (toordinal dt - EPOCH_ORDINAL) * 86400000
      /\ end_ms r = start_ms r + 86400000
      /\ duration_ms r = 86400000
      /\ ensure_minute_alignment (start_ms r) = Ok tt
      /\ ensure_minute_alignment (end_ms r) = Ok tt.
Proof. exact build_minute_range_window. Qed.

Lemma build_minute_range_is_one_utc_day_witness :
  exists dt,
    parse_utc_date "1969-12-31" = Ok dt
    /\ hour dt = 0 /\ minute dt = 0 /\ second dt = 0 /\ microsecond dt = 0
    /\ start_ms (mk_MinuteRange (-86400000) 0)
       = (toordinal dt - EPOCH_ORDINAL) * 86400000
    /\ end_ms (mk_MinuteRange (-86400000) 0)
       = start_ms (mk_MinuteRange (-86400000) 0) + 86400000
    /\ duration_ms (mk_MinuteRange (-86400000) 0) = 86400000
    /\ ensure_minute_alignment (start_ms (mk_MinuteRange (-86400000) 0)) = Ok tt
    /\ ensure_minute_alignment (end_ms (mk_MinuteRange (-86400000) 0)) = Ok tt.
Proof.
  apply (build_minute_range_is_one_utc_day "1969-12-31").
  vm_compute. reflexivity.
Defined.
(** ** The whole range of [ms_to_iso8601] *)

(** [ms_to_iso8601_in_range], also before 1970 *)
Lemma ms_to_iso8601_in_years_1_to_9999 (ms : Z) :
  -62135596800000 <= ms < 253402300800000 ->
  exists dt,
    ms_to_iso8601 ms = Ok (strftime dt ISO_FORMAT)
    /\ to_us dt = EPOCH_ORDINAL * US_PER_DAY + ms * 1000
    /\ tzinfo dt = utc
    /\ check_date_fields (year dt) (month dt) (day dt) = true
    /\ check_time_fields (hour dt) (minute dt) (second dt) (microsecond dt) = true.
Proof.
  intro H. unfold ms_to_iso8601, fromtimestamp_utc, add_timedelta.
  set (s := ms / 1000). set (r := ms mod 1000).
  assert (Hms : ms = s * 1000 + r)
    by (unfold s, r; pose proof (Z.div_mod ms 1000); lia).
  assert (Br : 0 <= r < 1000) by (apply Z.mod_pos_bound; lia).
  assert (Bs : -62135596800 <= s < 253402300800) by lia.
  clearbody s r.
  destruct (of_us_correct ((EPOCH_ORDINAL * 86400 + s) * US_PER_SECOND) utc)
    as (dt0 & E0 & U0 & T0 & _).
  { unfold EPOCH_ORDINAL, US_PER_DAY, US_PER_SECOND, MAXORDINAL. lia. }
  rewrite E0. cbn [bind]. rewrite U0, T0.
  destruct (of_us_correct
              ((EPOCH_ORDINAL * 86400 + s) * US_PER_SECOND + r * 1000) utc)
    as (dt & E & U & T & Cd & Ct).
  { unfold EPOCH_ORDINAL, US_PER_DAY, US_PER_SECOND, MAXORDINAL. lia. }
  rewrite E. cbn [bind]. exists dt.
  split; [reflexivity |]. split; [| auto].
  rewrite U. unfold EPOCH_ORDINAL, US_PER_DAY, US_PER_SECOND. lia.
Qed.

(** X13.  [ms_to_iso8601] returns a text exactly for the milliseconds of
    the years 1 to 9999, from 0001-01-01T00:00:00Z (-62135596800000)
    up to, not including, 10000-01-01T00:00:00Z (253402300800000); values
    before 1970 are written too. Outside that range it raises. *)
Theorem ms_to_iso8601_succeeds_exactly_in_years_1_to_9999 :
  forall ms : Z,
    (exists s, ms_to_iso8601 ms = Ok s)
    <-> -62135596800000 <= ms < 253402300800000.
Proof.
  intro ms. split.
  - intros [s E]. exact (proj1 (ms_to_iso8601_ok ms s E)).
  - intro H. destruct (ms_to_iso8601_in_years_1_to_9999 ms H) as (dt & E & _).
    eauto.
Qed.

(** the value that comes back from the text of [x], from year 1000 on
    (1000-01-01T00:00:00Z is -30610224000000) *)
Lemma round_trip_value (x : Z) :
  -30610224000000 <= x < 253402300800000 ->
  (s <- ms_to_iso8601 x ;; iso8601_to_ms s)
  = Ok (to_int (mul (truediv (x * 1000) 1000000) (of_int 1000))).
Proof.
  intro Hx.
  destruct (ms_to_iso8601_in_years_1_to_9999 x ltac:(lia))
    as (dt & E & U & T & Cd & Ct).
  pose proof (year_of_ms dt x Cd Ct U ltac:(lia)) as Hy.
  rewrite E. cbn [bind]. rewrite iso8601_to_ms_eq.
  rewrite strftime_ISO_FORMAT_not_empty, (strptime_strftime dt Cd Ct Hy).
  cbn [bind]. f_equal.
  unfold timestamp_ms, timestamp. rewrite !to_us_replace_tzinfo, U.
  cbn [tzinfo replace_tzinfo utc].
  replace (EPOCH_ORDINAL * US_PER_DAY + x * 1000 - 0 * US_PER_SECOND
           - EPOCH_ORDINAL * US_PER_DAY)
    with (x * 1000) by ring.
  reflexivity.
Qed.

(** X14.  A whole number of seconds survives the way to the text and
    back from year 1000 on, before 1970 as well as after:
    [iso8601_to_ms (ms_to_iso8601 x) = x] whenever [x] is a multiple of
    1000 with [-30610224000000 <= x < 253402300800000], that is from
    1000-01-01T00:00:00Z up to the end of year 9999.  (Below year 1000 the
    text has a year of fewer than four digits and is not read back.) *)
Theorem whole_second_round_trip_from_year_1000 :
  forall x : Z,
    -30610224000000 <= x < 253402300800000 ->
    x mod 1000 = 0 ->
    (s <- ms_to_iso8601 x ;; iso8601_to_ms s) = Ok x.
Proof.
  intros x Hx Hal. rewrite (round_trip_value x Hx). f_equal.
  replace (x * 1000) with (x / 1000 * 1000000)
    by (Z.div_mod_to_equations; lia).
  rewrite whole_seconds_to_ms_signed.
  - Z.div_mod_to_equations. lia.
  - change (2 ^ 53) with 9007199254740992. Z.div_mod_to_equations. lia.
Qed.

Lemma whole_second_round_trip_from_year_1000_witness :
  (s <- ms_to_iso8601 (-86399000) ;; iso8601_to_ms s) = Ok (-86399000).
Proof.
  apply (whole_second_round_trip_from_year_1000 (-86399000)).
  - lia.
  - reflexivity.
Defined.

(** ** The closes of a window *)

Lemma iter_closes_from_after (fuel : nat) (current end_ms : Z) :
  end_ms < current -> iter_closes_from fuel current end_ms = Some [].
Proof.
  intro H. destruct fuel; cbn [iter_closes_from];
    destruct (Z.leb_spec current end_ms); reflexivity || lia.
Qed.

Lemma iter_closes_from_count (n : nat) :
  forall (fuel : nat) (current end_ms : Z),
    Z.to_nat ((end_ms - current + _MINUTE_MS) / _MINUTE_MS) = n ->
    (n <= fuel)%nat ->
    iter_closes_from fuel current end_ms
    = Some (map (fun k => current + _MINUTE_MS * Z.of_nat k) (seq 0 n)).
Proof.
  unfold _MINUTE_MS. induction n as [| n IH]; intros fuel current end_ms Hn Hf.
  - apply iter_closes_from_after. Z.div_mod_to_equations. lia.
  - destruct fuel as [| fuel]; [lia |]. cbn [iter_closes_from].
    destruct (Z.leb_spec current end_ms) as [Hc | Hc].
    + rewrite (IH fuel (current + _MINUTE_MS) end_ms).
      * cbn [option_map seq map]. rewrite <- seq_shift, map_map.
        f_equal. f_equal; [lia |]. apply map_ext. intro k.
        unfold _MINUTE_MS. lia.
      * unfold _MINUTE_MS. Z.div_mod_to_equations. lia.
      * lia.
    + exfalso. Z.div_mod_to_equations. lia.
Qed.

Lemma iter_closes_closed_form (r : MinuteRange) (fuel : nat) :
  (Z.to_nat (duration_ms r / _MINUTE_MS) <= fuel)%nat ->
  iter_closes fuel r
  = Some (map (fun k => start_ms r + _MINUTE_MS * (Z.of_nat k + 1))
              (seq 0 (Z.to_nat (duration_ms r / _MINUTE_MS)))).
Proof.
  intro Hf. unfold iter_closes, duration_ms in *.
  rewrite (iter_closes_from_count
             (Z.to_nat ((end_ms r - start_ms r) / _MINUTE_MS))).
  - f_equal. apply map_ext. intro k. unfold _MINUTE_MS. lia.
  - f_equal. unfold _MINUTE_MS. Z.div_mod_to_equations. lia.
  - exact Hf.
Qed.

(** X15.  [iter_closes] yields the closes [start_ms + 60000],
    [start_ms + 120000], ... up to and including [end_ms] when it is on
    that grid: [(end_ms - start_ms) div 60000] values, floor division, and
    none at all when [end_ms < start_ms + 60000]. [start_ms] itself is
    never yielded. *)
Theorem iter_closes_yields_every_minute_after_start :
  forall (r : MinuteRange) (fuel : nat),
    (Z.to_nat (duration_ms r / _MINUTE_MS) <= fuel)%nat ->
    iter_closes fuel r
    = Some (map (fun k => start_ms r + _MINUTE_MS * (Z.of_nat k + 1))
                (seq 0 (Z.to_nat (duration_ms r / _MINUTE_MS)))).
Proof. exact iter_closes_closed_form. Qed.

Lemma iter_closes_yields_every_minute_after_start_witness :
  iter_closes 5 (mk_MinuteRange 30000 200000)
  = Some (map (fun k => start_ms (mk_MinuteRange 30000 200000)
                        + _MINUTE_MS * (Z.of_nat k + 1))
              (seq 0 (Z.to_nat (duration_ms (mk_MinuteRange 30000 200000)
                                / _MINUTE_MS)))).
Proof.
  apply (iter_closes_yields_every_minute_after_start
           (mk_MinuteRange 30000 200000) 5).
  vm_compute. lia.
Defined.

(** X16.  The window of a date has 1440 closes: [iter_closes] on the
    result of [build_minute_range] yields the 1440 minute boundaries after
    the date's midnight, each minute-aligned, the last one being [end_ms],
    the next midnight. *)
Theorem a_day_has_1440_closes :
  forall (date : string) (r : MinuteRange),
    build_minute_range date = Ok r ->
    exists closes,
      iter_closes 1440 r = Some closes
      /\ List.length closes = 1440%nat
      /\ last closes 0 = end_ms r
      /\ Forall (fun c => ensure_minute_alignment c = Ok tt) closes.
Proof.
  intros date r H.
  destruct (build_minute_range_window date r H)
    as (dt & _ & _ & _ & _ & _ & _ & Hend & _ & Hal & _).
  assert (Hd : duration_ms r / _MINUTE_MS = 1440).
  { unfold duration_ms, _MINUTE_MS. rewrite Hend.
    replace (start_ms r + 86400000 - start_ms r) with 86400000 by ring.
    reflexivity. }
  pose proof (iter_closes_closed_form r 1440) as E.
  rewrite Hd in E. change (Z.to_nat 1440) with 1440%nat in E.
  specialize (E (le_n _)).
  eexists. split; [exact E |]. split; [| split].
  - now rewrite length_map, length_seq.
  - replace 1440%nat with (1439 + 1)%nat by reflexivity.
    rewrite seq_app, map_app. cbn [seq map Nat.add]. rewrite last_last.
    rewrite Hend. unfold _MINUTE_MS. change (Z.of_nat 1439) with 1439. ring.
  - apply Forall_forall. intros c Hc. apply in_map_iff in Hc as (k & <- & _).
    rewrite ensure_minute_alignment_eq in Hal |- *.
    unfold _MINUTE_MS in *.
    destruct (Z.eqb_spec (start_ms r mod 60000) 0) as [Hs |]; [| discriminate].
    replace ((start_ms r + 60000 * (Z.of_nat k + 1)) mod 60000) with 0;
      [reflexivity |].
    Z.div_mod_to_equations. lia.
Qed.

Lemma a_day_has_1440_closes_witness :
  exists closes,
    iter_closes 1440 (mk_MinuteRange 1704067200000 1704153600000) = Some closes
    /\ List.length closes = 1440%nat
    /\ last closes 0 = end_ms (mk_MinuteRange 1704067200000 1704153600000)
    /\ Forall (fun c => ensure_minute_alignment c = Ok tt) closes.
Proof.
  apply (a_day_has_1440_closes "2024-01-01").
  vm_compute. reflexivity.
Defined.
(** ** The error of the way back *)

(** the result of [round] when the quotient is below [2 ^ (52 - j)]: the
    exponent is at most [- (j + 1)] and the mantissa is the quotient
    scaled by [2 ^ k], to within one half *)
Lemma round_near (n d j : Z) :
  0 < n -> 0 < d -> 0 <= j <= 52 -> n < d * 2 ^ (52 - j) ->
  exists m k,
    round n d = (m, - k) /\ j + 1 <= k /\ 0 <= m
    /\ 2 * Z.abs (m * d - n * 2 ^ k) <= d.
Proof.
  intros Hn Hd Hj Hlt. unfold round.
  destruct (Z.eqb_spec n 0) as [E | _]; [lia |].
  rewrite (Z.abs_eq n) by lia. rewrite (Z.sgn_pos n) by lia.
  set (a := n * 2 ^ 1074 / d).
  assert (Ha : Z.log2 a <= 1125 - j).
  { destruct (Z.le_gt_cases a 0) as [H0 | H0].
    - rewrite Z.log2_nonpos by exact H0. lia.
    - apply Z.lt_succ_r. apply Z.log2_lt_pow2; [exact H0 |].
      unfold a. apply Z.div_lt_upper_bound; [exact Hd |].
      replace (Z.succ (1125 - j)) with (52 - j + 1074) by lia.
      rewrite Z.pow_add_r by lia.
      assert (0 < 2 ^ 1074) by (apply Z.pow_pos_nonneg; lia).
      rewrite Z.mul_assoc. apply Z.mul_lt_mono_pos_r; assumption. }
  assert (Hl : 0 <= Z.log2 a) by apply Z.log2_nonneg.
  cbv zeta. set (e := Z.log2 a - 1074 - 52).
  assert (He : e <= - (j + 1)) by (unfold e; lia).
  destruct (Z.leb_spec 0 e) as [H | _]; [lia |].
  assert (Hp : 0 < 2 ^ (- e)) by (apply Z.pow_pos_nonneg; lia).
  set (num := n * 2 ^ (- e)).
  assert (Hnum : 0 < num) by (unfold num; lia).
  pose proof (Z.div_mod num d ltac:(lia)) as Hdm.
  pose proof (Z.mod_pos_bound num d Hd) as Hr.
  assert (Hq : 0 <= num / d) by (apply Z.div_pos; lia).
  set (q := num / d) in *. set (r := num mod d) in *.
  exists (if (d <? 2 * r) || ((d =? 2 * r) && Z.odd q) then q + 1 else q), (- e).
  rewrite Z.opp_involutive, Z.mul_1_l.
  split; [reflexivity |]. split; [lia |].
  fold num.
  destruct (Z.ltb_spec d (2 * r)) as [H1 | H1]; cbn [orb].
  - split; [lia |]. replace ((q + 1) * d - num) with (d - r) by lia. lia.
  - destruct (Z.eqb_spec d (2 * r)) as [H2 | H2]; cbn [andb].
    + destruct (Z.odd q).
      * split; [lia |]. replace ((q + 1) * d - num) with (d - r) by lia. lia.
      * split; [lia |]. replace (q * d - num) with (- r) by lia. lia.
    + split; [lia |]. replace (q * d - num) with (- r) by lia. lia.
Qed.

(** [int((x * 1000 / 10**6) * 1000)] is [x] or [x - 1] for a positive
    count [x] of milliseconds below [2 ^ 48] *)
Lemma ms_through_seconds (x : Z) :
  0 < x < 2 ^ 48 ->
  x - 1 <= to_int (mul (truediv (x * 1000) 1000000) (of_int 1000)) <= x.
Proof.
  change (2 ^ 48) with 281474976710656. intro Hx. unfold truediv.
  destruct (round_near (x * 1000) 1000000 10) as (m & k & E & Hk & Hm & B);
    [lia | lia | lia | change (2 ^ (52 - 10)) with 4398046511104; lia |].
  rewrite E, of_int_1000. unfold mul.
  destruct (Z.leb_spec 0 (- k + -43)) as [H | _]; [lia |].
  replace (- (- k + -43)) with (k + 43) by ring.
  rewrite Z.pow_add_r by lia. change (2 ^ 43) with 8796093022208.
  assert (HP : 2048 <= 2 ^ k).
  { change 2048 with (2 ^ 11). apply Z.pow_le_mono_r; lia. }
  set (P := 2 ^ k) in *.
  assert (HxP : 2048 <= x * P <= 281474976710655 * P) by nia.
  assert (Hb : -500 <= 1000 * m - x * P <= 500) by lia.
  destruct (round_near (m * (1000 * 8796093022208)) (P * 8796093022208) 4)
    as (m' & k' & E' & Hk' & Hm' & B');
    [lia | lia | lia | change (2 ^ (52 - 4)) with 281474976710656; lia |].
  rewrite E'. unfold to_int.
  destruct (Z.leb_spec 0 (- k')) as [H | _]; [lia |].
  rewrite Z.opp_involutive.
  assert (HP' : 32 <= 2 ^ k').
  { change 32 with (2 ^ 5). apply Z.pow_le_mono_r; lia. }
  set (P' := 2 ^ k') in *.
  rewrite Z.quot_div_nonneg by lia.
  assert (Hb' : - P <= 2 * (m' * P) - 2000 * (m * P') <= P) by lia.
  assert (Hc : -500 * P' <= 1000 * (m * P') - x * P * P' <= 500 * P') by nia.
  assert (HQ : 2048 * P' <= P * P' /\ 32 * P <= P * P') by nia.
  assert (Hd : - (P * P') < m' * P - x * P' * P < P * P') by lia.
  assert (Hm'' : - P' < m' - x * P' < P') by nia.
  split.
  - apply Z.div_le_lower_bound; lia.
  - apply Z.lt_succ_r. apply Z.div_lt_upper_bound; lia.
Qed.

Lemma ms_through_seconds_signed (x : Z) :
  - 2 ^ 48 < x < 2 ^ 48 ->
  Z.abs (x - to_int (mul (truediv (x * 1000) 1000000) (of_int 1000))) <= 1
  /\ Z.abs (to_int (mul (truediv (x * 1000) 1000000) (of_int 1000))) <= Z.abs x.
Proof.
  intro Hx. destruct (Z.lt_trichotomy x 0) as [Hn | [-> | Hp]].
  - unfold truediv. replace (x * 1000) with (- (- x * 1000)) by ring.
    rewrite round_opp, mul_opp, to_int_opp.
    pose proof (ms_through_seconds (- x) ltac:(lia)) as H.
    unfold truediv in H. lia.
  - vm_compute. split; discriminate.
  - pose proof (ms_through_seconds x ltac:(lia)) as H. lia.
Qed.

(** X17.  From year 1000 on the way to the text and back is never off by
    more than one millisecond, and never away from zero: for every [x]
    with [-30610224000000 <= x < 253402300800000],
    [iso8601_to_ms (ms_to_iso8601 x)] returns [x], or the neighbour of [x]
    that is nearer to zero ([x - 1] for a positive [x], [x + 1] for a
    negative one).  The loss comes from [int(dt.timestamp() * 1000)],
    which rounds twice in binary floating point and then truncates. *)
Theorem round_trip_is_within_one_millisecond :
  forall x : Z,
    -30610224000000 <= x < 253402300800000 ->
    exists y,
      (s <- ms_to_iso8601 x ;; iso8601_to_ms s) = Ok y
      /\ Z.abs (x - y) <= 1
      /\ Z.abs y <= Z.abs x.
Proof.
  intros x Hx. rewrite (round_trip_value x Hx). eexists. split; [reflexivity |].
  apply ms_through_seconds_signed.
  change (2 ^ 48) with 281474976710656. lia.
Qed.

Lemma round_trip_is_within_one_millisecond_witness :
  exists y,
    (s <- ms_to_iso8601 1001 ;; iso8601_to_ms s) = Ok y
    /\ Z.abs (1001 - y) <= 1
    /\ Z.abs y <= Z.abs 1001.
Proof.
  apply (round_trip_is_within_one_millisecond 1001). lia.
Defined.
(** ** Texts with a shorter fraction *)

(** [strptime] with [ISO_FORMAT] on a text of zero-padded fields whose
    fraction [fs] the [%f] group reads as [us] *)
Lemma strptime_fields (y mo d h mi s us : Z) (fs : string)
      (l : list (Z * string)) :
  check_date_fields y mo d = true ->
  check_time_fields h mi s us = true ->
  candidates "f" (fs ++ "Z") = (us, "Z") :: l ->
  strptime (zfill 4 y ++ String "-" (zfill 2 mo ++ String "-"
             (zfill 2 d ++ String "T" (zfill 2 h ++ String ":"
               (zfill 2 mi ++ String ":" (zfill 2 s ++ String "."
                 (fs ++ "Z")))))))
           ISO_FORMAT
  = Ok (mk_datetime y mo d h mi s us None).
Proof.
  intros Hd Ht C6.
  assert (Hdim : days_in_month y mo <= 31).
  { unfold days_in_month. destruct (_ && _); [lia |].
    generalize (Z.to_nat mo) as k. intro k.
    do 13 (destruct k as [| k]; [simpl; lia |]). simpl. destruct k; lia. }
  pose proof Hd as Hd'. pose proof Ht as Ht'.
  unfold check_date_fields, MINYEAR, MAXYEAR in Hd.
  unfold check_time_fields in Ht.
  repeat match goal with
         | H : _ && _ = true |- _ => apply andb_prop in H as [H ?]
         end.
  repeat match goal with
         | H : (_ <=? _) = true |- _ => apply Z.leb_le in H
         end.
  assert (M : match_items (compile ISO_FORMAT)
                (zfill 4 y ++ String "-" (zfill 2 mo ++ String "-"
                  (zfill 2 d ++ String "T" (zfill 2 h ++ String ":"
                    (zfill 2 mi ++ String ":" (zfill 2 s ++ String "."
                      (fs ++ "Z")))))))
                found_default
              = Some (mk_found y mo d h mi s us, "")).
  { change (compile ISO_FORMAT) with (ISO_ITEMS ++ [Lit "Z"]).
    unfold ISO_ITEMS. cbn [app].
    eapply match_items_dir; [apply candidates_Y; lia |].
    cbn [match_items]. change (ci_eqb "-" "-") with true. cbv iota.
    destruct (candidates_m
                (String "-" (zfill 2 d ++ String "T" (zfill 2 h ++ String ":"
                  (zfill 2 mi ++ String ":" (zfill 2 s ++ String "."
                    (fs ++ "Z"))))))
                mo ltac:(lia)) as [l1 C1].
    rewrite C1. cbn [first_some fst snd match_items].
    change (ci_eqb "-" "-") with true. cbv iota.
    destruct (candidates_d
                (String "T" (zfill 2 h ++ String ":"
                  (zfill 2 mi ++ String ":" (zfill 2 s ++ String "."
                    (fs ++ "Z")))))
                d ltac:(lia)) as [l2 C2].
    rewrite C2. cbn [first_some fst snd match_items].
    change (ci_eqb "T" "T") with true. cbv iota.
    destruct (candidates_H
                (String ":" (zfill 2 mi ++ String ":" (zfill 2 s
                  ++ String "." (fs ++ "Z"))))
                h ltac:(lia)) as [l3 C3].
    rewrite C3. cbn [first_some fst snd match_items].
    change (ci_eqb ":" ":") with true. cbv iota.
    destruct (candidates_M
                (String ":" (zfill 2 s ++ String "." (fs ++ "Z")))
                mi ltac:(lia)) as [l4 C4].
    rewrite C4. cbn [first_some fst snd match_items].
    change (ci_eqb ":" ":") with true. cbv iota.
    destruct (candidates_S (String "." (fs ++ "Z")) s ltac:(lia)) as [l5 C5].
    rewrite C5. cbn [first_some fst snd match_items].
    change (ci_eqb "." ".") with true. cbv iota.
    rewrite C6. cbn [first_some fst snd match_items].
    change (ci_eqb "Z" "Z") with true. cbv iota.
    reflexivity. }
  unfold strptime. rewrite M. cbn [fY fm fd fH fM fS ff].
  unfold make. now rewrite Hd', Ht'.
Qed.

(** the [%f] group on three digits before the [Z] *)
Lemma candidates_f_3 (r : Z) :
  0 <= r <= 999 ->
  exists l, candidates "f" (zfill 3 r ++ "Z") = (r * 1000, "Z") :: l.
Proof.
  intro H. unfold zfill.
  change (10 ^ Z.of_nat 2) with 100.
  change (10 ^ Z.of_nat 1) with 10. change (10 ^ Z.of_nat 0) with 1.
  cbn [candidates append digit_run].
  destruct (digit_char_digit ((r / 100) mod 10) (mod10_digit _)) as [D2 V2].
  destruct (digit_char_digit ((r / 10) mod 10) (mod10_digit _)) as [D1 V1].
  destruct (digit_char_digit ((r / 1) mod 10) (mod10_digit _)) as [D0 V0].
  rewrite D2, D1, D0. change (is_digit "Z") with false. cbv iota.
  cbn [List.length fraction_alts drop]. eexists. f_equal. f_equal.
  unfold fraction_value. cbn [firstn fold_left Nat.sub].
  rewrite V2, V1, V0. change (10 ^ Z.of_nat 3) with 1000.
  Z.div_mod_to_equations. lia.
Qed.

Lemma fields_append (a b c d e f t : string) :
  ((a ++ String "-" (b ++ String "-" (c ++ String "T" (d ++ String ":"
      (e ++ String ":" (f ++ ".")))))) ++ t
   = a ++ String "-" (b ++ String "-" (c ++ String "T" (d ++ String ":"
      (e ++ String ":" (f ++ String "." t))))))%string.
Proof. repeat (rewrite append_assoc; cbn [append]). reflexivity. Qed.

(** X18.  [iso8601_to_ms] also reads the millisecond form of a timestamp:
    from year 1000 on ([-30610224000000 <= x]) the text [ms_to_iso8601 x]
    writes is a head of 20 characters, the three digits of [x mod 1000],
    then [000Z]; the same text with the fraction cut to those three digits
    ([YYYY-MM-DDTHH:MM:SS.mmmZ]) is read as the same value. *)
Theorem iso8601_to_ms_reads_three_fraction_digits :
  forall x : Z,
    -30610224000000 <= x < 253402300800000 ->
    exists head : string,
      String.length head = 20%nat
      /\ ms_to_iso8601 x = Ok (head ++ zfill 3 (x mod 1000) ++ "000Z")%string
      /\ iso8601_to_ms (head ++ zfill 3 (x mod 1000) ++ "Z")%string
         = (s <- ms_to_iso8601 x ;; iso8601_to_ms s).
Proof.
  intros x Hx.
  destruct (ms_to_iso8601_in_years_1_to_9999 x ltac:(lia))
    as (dt & E & U & T & Cd & Ct).
  pose proof (microsecond_of_ms dt x U Ct) as Hus.
  pose proof (year_of_ms dt x Cd Ct U ltac:(lia)) as Hy.
  assert (Br : 0 <= x mod 1000 < 1000) by (apply Z.mod_pos_bound; lia).
  exists (zfill 4 (year dt) ++ String "-" (zfill 2 (month dt) ++ String "-"
           (zfill 2 (day dt) ++ String "T" (zfill 2 (hour dt) ++ String ":"
             (zfill 2 (minute dt) ++ String ":" (zfill 2 (second dt) ++ "."))))))%string.
  split; [| split].
  - rewrite !append_length, !zfill_length. cbn [String.length].
    rewrite !append_length, !zfill_length. cbn [String.length].
    rewrite !append_length, !zfill_length. cbn [String.length].
    rewrite !append_length, !zfill_length. cbn [String.length].
    rewrite !append_length, !zfill_length. cbn [String.length].
    rewrite !append_length, !zfill_length. reflexivity.
  - rewrite E, strftime_ISO_FORMAT by exact Hy.
    rewrite Hus, zfill_6_of_milliseconds by exact Br.
    rewrite fields_append, append_assoc. reflexivity.
  - rewrite fields_append, E. cbn [bind]. rewrite !iso8601_to_ms_eq.
    rewrite strftime_ISO_FORMAT_not_empty, (strptime_strftime dt Cd Ct Hy).
    cbn [bind].
    destruct (candidates_f_3 (x mod 1000) ltac:(lia)) as [l C].
    rewrite Hus in Ct.
    rewrite (strptime_fields _ _ _ _ _ _ _ _ l Cd Ct C).
    replace (String.eqb _ "") with false by reflexivity.
    cbn [bind]. do 2 f_equal. unfold replace_tzinfo.
    cbn [year month day hour minute second microsecond]. now rewrite Hus.
Qed.

Lemma iso8601_to_ms_reads_three_fraction_digits_witness :
  exists head : string,
    String.length head = 20%nat
    /\ ms_to_iso8601 1704067260123
       = Ok (head ++ zfill 3 (1704067260123 mod 1000) ++ "000Z")%string
    /\ iso8601_to_ms (head ++ zfill 3 (1704067260123 mod 1000) ++ "Z")%string
       = (s <- ms_to_iso8601 1704067260123 ;; iso8601_to_ms s).
Proof.
  apply (iso8601_to_ms_reads_three_fraction_digits 1704067260123). lia.
Defined.
(** ** Years of fewer than four digits *)

Lemma days_before_year_from_1000 (y : Z) :
  1000 <= y -> 364877 <= days_before_year y.
Proof.
  intro H. unfold days_before_year. cbv zeta. Z.div_mod_to_equations. lia.
Qed.

Lemma year_below_1000 (dt : datetime) :
  check_date_fields (year dt) (month dt) (day dt) = true ->
  check_time_fields (hour dt) (minute dt) (second dt) (microsecond dt) = true ->
  to_us dt < 364878 * US_PER_DAY ->
  1 <= year dt <= 999.
Proof.
  intros Cd Ct U.
  assert (Hlo : 1 <= year dt).
  { unfold check_date_fields, MINYEAR in Cd.
    repeat (apply andb_prop in Cd as [Cd _]). now apply Z.leb_le in Cd. }
  split; [exact Hlo |].
  destruct (Z.le_gt_cases 1000 (year dt)) as [H | H]; [| lia].
  pose proof (days_before_year_from_1000 _ H) as B.
  assert (Hm : 0 <= days_before_month (year dt) (month dt)).
  { unfold days_before_month, DAYS_BEFORE_MONTH.
    generalize (Z.to_nat (month dt)) as k. intro k.
    assert (0 <= nth k [0; 0; 31; 59; 90; 120; 151; 181; 212; 243; 273; 304; 334] 0).
    { do 13 (destruct k as [| k]; [simpl; lia |]). destruct k; simpl; lia. }
    destruct (_ && _); lia. }
  unfold check_date_fields in Cd. unfold check_time_fields in Ct.
  repeat match goal with
         | H : _ && _ = true |- _ => apply andb_prop in H as [H ?]
         end.
  repeat match goal with
         | H : (_ <=? _) = true |- _ => apply Z.leb_le in H
         end.
  unfold to_us, toordinal, ymd2ord, US_PER_DAY, US_PER_SECOND in U. lia.
Qed.

(** [strptime] does not read a text that starts with a year of one, two
    or three digits and a hyphen: [%Y] stands for [\d\d\d\d] *)
Lemma strptime_short_year (y : Z) (rest : string) :
  y < 1000 ->
  strptime (decimal y ++ String "-" rest) ISO_FORMAT = Raise ValueError.
Proof.
  intro H. unfold strptime.
  assert (C : candidates "Y" (decimal y ++ String "-" rest) = []).
  { unfold decimal.
    destruct (Z.ltb_spec y 10); [| destruct (Z.ltb_spec y 100);
                                    [| destruct (Z.ltb_spec y 1000); [| lia]]];
      cbn [zfill append candidates alt4].
    - destruct rest as [| c [| d r]]; try reflexivity.
      change (is_digit "-") with false. now rewrite andb_false_r.
    - destruct rest as [| c r]; try reflexivity.
      change (is_digit "-") with false. now rewrite andb_false_r.
    - change (is_digit "-") with false. now rewrite andb_false_r. }
  change (compile ISO_FORMAT)
    with (Dir "Y" :: compile "-%m-%dT%H:%M:%S.%fZ").
  cbn [match_items]. rewrite C. reflexivity.
Qed.

(** X19.  Below year 1000 the way to the text and back fails: for every
    [x] from 0001-01-01T00:00:00Z up to, not including,
    1000-01-01T00:00:00Z ([-62135596800000 <= x < -30610224000000]),
    [ms_to_iso8601 x] returns a text, whose year has fewer than four
    digits, and [iso8601_to_ms] raises [ValueError] on that text. *)
Theorem round_trip_raises_below_year_1000 :
  forall x : Z,
    -62135596800000 <= x < -30610224000000 ->
    exists s,
      ms_to_iso8601 x = Ok s
      /\ iso8601_to_ms s = Raise ValueError
      /\ (s <- ms_to_iso8601 x ;; iso8601_to_ms s) = Raise ValueError.
Proof.
  intros x Hx.
  destruct (ms_to_iso8601_in_years_1_to_9999 x ltac:(lia))
    as (dt & E & U & T & Cd & Ct).
  assert (Hy : 1 <= year dt <= 999).
  { apply (year_below_1000 dt Cd Ct). rewrite U.
    unfold EPOCH_ORDINAL, US_PER_DAY, US_PER_SECOND. lia. }
  assert (R : iso8601_to_ms (strftime dt ISO_FORMAT) = Raise ValueError).
  { rewrite iso8601_to_ms_eq, strftime_ISO_FORMAT_not_empty.
    rewrite strftime_ISO_FORMAT_year, strptime_short_year by lia. reflexivity. }
  exists (strftime dt ISO_FORMAT). split; [exact E |]. split; [exact R |].
  now rewrite E.
Qed.

Lemma round_trip_raises_below_year_1000_witness :
  exists s,
    ms_to_iso8601 (-30610224001000) = Ok s
    /\ iso8601_to_ms s = Raise ValueError
    /\ (s <- ms_to_iso8601 (-30610224001000) ;; iso8601_to_ms s) = Raise ValueError.
Proof.
  apply (round_trip_raises_below_year_1000 (-30610224001000)). lia.
Defined.

Example text_of_year_999 :
  ms_to_iso8601 (-30610224001000) = Ok "999-12-31T23:59:59.000000Z"
  /\ ms_to_iso8601 (-30610224000000) = Ok "1000-01-01T00:00:00.000000Z"
  /\ ms_to_iso8601 (-62135596800000) = Ok "1-01-01T00:00:00.000000Z".
Proof.
  split; [vm_compute; reflexivity |]. split; vm_compute; reflexivity.
Qed.

(** ** Nothing but appending *)

(** X20.  [fetch_klines] only ever appends: whatever the file held, and
    wherever its last line ended, the file the run leaves starts with the
    old content, character for character, however the run ends.  What is
    added to a file that is not empty is what [csv.writer] writes for the
    rows of the accepted records; it comes right after the last character
    of the old content. *)
Theorem fetch_klines_only_appends :
  forall (fuel : nat) (up : upstream) (sym date old : string) (r : run),
    fetch_klines fuel up sym date (Some old) = Some r ->
    exists ens added,
      r_file r = write_rows (Some old) (map row_for ens)
      /\ r_file r = Some (old ++ added)%string
      /\ (old <> "" -> added = writerows (map row_for ens)).
Proof.
  intros fuel up sym date old r. unfold fetch_klines.
  assert (G : forall ens,
             exists added,
               write_rows (Some old) (map row_for ens) = Some (old ++ added)%string
               /\ (old <> "" -> added = writerows (map row_for ens))).
  { intro ens. destruct (map row_for ens) as [| r0 rows].
    - exists "". cbn [write_rows writerows]. now rewrite append_nil_r.
    - unfold write_rows. cbn [negb orb]. destruct old as [| c old'].
      + eexists. split; [reflexivity |]. intro H. now elim H.
      + eexists. split; [reflexivity |]. reflexivity. }
  destruct (init date (Some old)) as [[mr st0] | x] eqn:Hinit.
  2: { intro H; injection H as <-. exists []. destruct (G []) as (added & E & A).
       exists added. cbn [r_file map] in *. cbn [write_rows] in E.
       repeat split; [exact E | exact A]. }
  destruct (init_out_file _ _ _ _ Hinit) as [Hpath _].
  destruct (loop fuel up (str_upper sym) (end_ms mr) 0 st0) as [[st how] |] eqn:Hloop;
    [| discriminate].
  destruct (loop_accepted _ _ _ _ _ _ _ _ Hloop) as (ens & F & _).
  rewrite Hpath in F. destruct (G ens) as (added & E & A).
  destruct how; intro H; injection H as <-; exists ens, added; cbn [r_file];
    (split; [exact F |]); (split; [now rewrite F | exact A]).
Qed.

Lemma fetch_klines_only_appends_witness :
  exists ens added,
    r_file (mk_run
              (Some (String.append
                       "timestamp,open,high,low,close,volume2024-01-01T00:01:00.000000Z,1.0,2.0,0.5,1.5,10"
                       CRLF))
              [] Returned false)
    = write_rows (Some "timestamp,open,high,low,close,volume") (map row_for ens)
    /\ r_file (mk_run
                 (Some (String.append
                          "timestamp,open,high,low,close,volume2024-01-01T00:01:00.000000Z,1.0,2.0,0.5,1.5,10"
                          CRLF))
                 [] Returned false)
       = Some ("timestamp,open,high,low,close,volume" ++ added)%string
    /\ ("timestamp,open,high,low,close,volume" <> "" ->
        added = writerows (map row_for ens)).
Proof.
  apply (fetch_klines_only_appends
           2 (once [kline 1704067200000]) "btcusdt" "2024-01-01"
           "timestamp,open,high,low,close,volume").
  vm_compute. reflexivity.
Defined.
